(** * PaletteAI: style pipeline, prompt fusion, forwarding proxy, style profiles

    A shallow embedding of the parts of the repository that carry logic:

    - [services/fluxService.ts]: [rgbToHex], [normalizeHex],
      [extractStyleWithVlm] (the post-parse part), [extractDominantPalette],
      [inferMoodKeywords], [analyzeStyle], [performReasoning];
    - the compatibility shim re-exporting [performReasoning] as [fusePrompt];
    - the Node server's [proxyHf];
    - [components/StyleEditor.tsx] ([handleSave], [handleRevert]) and
      [App.tsx] ([handleStyleAnalyzed]) over the [StyleProfile] type.

    Conventions.  A JavaScript string is a [string]: a sequence of code units,
    here the code units below 256.  A JavaScript number is a binary64 float
    ([PrimFloat.float]) wherever the source computes with fractions, and an
    integer ([Z]) where the source only ever holds integers (pixel channels,
    bucket keys, counters, versions, timestamps).  [undefined] is [None]. *)

From Stdlib Require Import ZArith List String Ascii Bool Lia Floats.
From Stdlib Require Import Sorting.Sorted Sorting.Permutation.
From Stdlib Require HexString.
From Stdlib Require Import Strings.Byte.
From Stdlib Require Import Numbers.DecimalString.
From Stdlib Require Import Uint63.
Import ListNotations.

Set Warnings "-inexact-float,-register-all".

Local Open Scope string_scope.
Local Open Scope Z_scope.

(** ** JavaScript string primitives *)

Module Js.

(** White space and line terminators removed by [String.prototype.trim]
    and skipped by [parseInt], among the code units below 256:
    TAB, LF, VT, FF, CR, SP and NBSP. *)
Definition isWhiteSpace (c : ascii) : bool :=
  let n := nat_of_ascii c in
  ((9 <=? n) && (n <=? 13) || (n =? 32) || (n =? 160))%nat.

Fixpoint trimStart (s : string) : string :=
  match s with
  | String c rest => if isWhiteSpace c then trimStart rest else s
  | EmptyString => EmptyString
  end.

Fixpoint trimEnd (s : string) : string :=
  match s with
  | String c rest =>
      match trimEnd rest with
      | EmptyString => if isWhiteSpace c then EmptyString else String c EmptyString
      | rest' => String c rest'
      end
  | EmptyString => EmptyString
  end.

Definition trim (s : string) : string := trimEnd (trimStart s).

(** [s.slice(a, b)] for [0 <= a <= b]. *)
Definition slice (s : string) (a b : nat) : string := substring a (b - a) s.

(** [s.replace(c, "")] with a one-character string pattern: only the first
    occurrence goes. *)
Fixpoint removeFirst (c : ascii) (s : string) : string :=
  match s with
  | String d rest => if Ascii.eqb c d then rest else String d (removeFirst c rest)
  | EmptyString => EmptyString
  end.

(** [l.join(sep)]. *)
Definition join (sep : string) (l : list string) : string := String.concat sep l.

Fixpoint repeatChar (c : ascii) (n : nat) : string :=
  match n with
  | O => EmptyString
  | S k => String c (repeatChar c k)
  end.

(** [s.padStart(n, c)] with a one-character filler. *)
Definition padStart (n : nat) (c : ascii) (s : string) : string :=
  repeatChar c (n - String.length s) ++ s.

(** [n.toString(16)] for a non-negative integer. *)
Definition toString16 (n : Z) : string :=
  match n with
  | Zpos p => HexString.Raw.of_pos p ""
  | _ => "0"
  end.

Definition isHexDigit (c : ascii) : bool :=
  let n := nat_of_ascii c in
  ((48 <=? n) && (n <=? 57) || (65 <=? n) && (n <=? 70) || (97 <=? n) && (n <=? 102))%nat.

Definition hexDigitValue (c : ascii) : Z :=
  let n := Z.of_nat (nat_of_ascii c) in
  if n <=? 57 then n - 48 else if n <=? 70 then n - 55 else n - 87.

(** [String.prototype.toLowerCase] on code units below 256. *)
Definition lowerChar (c : ascii) : ascii :=
  let n := nat_of_ascii c in
  if ((65 <=? n) && (n <=? 90) || (192 <=? n) && (n <=? 222) && negb (n =? 215))%nat
  then ascii_of_nat (n + 32) else c.

Fixpoint toLowerCase (s : string) : string :=
  match s with
  | String c rest => String (lowerChar c) (toLowerCase rest)
  | EmptyString => EmptyString
  end.

Fixpoint forallChars (p : ascii -> bool) (s : string) : bool :=
  match s with
  | String c rest => p c && forallChars p rest
  | EmptyString => true
  end.

(** A string is falsy exactly when it is empty. *)
Definition truthy (s : string) : bool :=
  match s with EmptyString => false | _ => true end.

(** Ending with a full stop. *)
Definition endsWithPeriod (s : string) : Prop := exists x, s = x ++ ".".

(** [o || d] for a value that is a string or [undefined]. *)
Definition orElse (o : option string) (d : string) : string :=
  match o with
  | Some s => if truthy s then s else d
  | None => d
  end.

End Js.

(** ** JavaScript numbers: binary64 primitives *)

Module JsNum.

(** An integer-valued number below 2^53, exactly. *)
Definition ofZ (z : Z) : float :=
  match z with
  | Zneg p => PrimFloat.opp (PrimFloat.of_uint63 (Uint63.of_Z (Zpos p)))
  | _ => PrimFloat.of_uint63 (Uint63.of_Z z)
  end.

(** [Math.min(a, b)] and [Math.max(a, b)]: NaN if either is NaN, and
    [-0] below [+0]. *)
Definition Math_min (a b : float) : float :=
  if PrimFloat.is_nan a || PrimFloat.is_nan b then PrimFloat.nan
  else if PrimFloat.ltb a b then a
  else if PrimFloat.ltb b a then b
  else if PrimFloat.get_sign a then a else b.

Definition Math_max (a b : float) : float :=
  if PrimFloat.is_nan a || PrimFloat.is_nan b then PrimFloat.nan
  else if PrimFloat.ltb a b then b
  else if PrimFloat.ltb b a then a
  else if PrimFloat.get_sign a then b else a.

(** [clamp] of fluxService.ts. *)
Definition clamp (n min max : float) : float := Math_max min (Math_min max n).

(** [a >= b] is [b <= a]; false as soon as one side is NaN. *)
Definition geb (a b : float) : bool := PrimFloat.leb b a.
Definition gtb (a b : float) : bool := PrimFloat.ltb b a.

(** The value of [Math.round(x)], which is integral unless [x] is NaN or
    infinite: the integer nearest to [x], ties towards +infinity. *)
Inductive Integral : Type :=
| IsNaN
| IsInfinity (negative : bool)
| IsInteger (z : Z).

Definition Math_round (x : float) : Integral :=
  match Prim2SF x with
  | S754_nan => IsNaN
  | S754_infinity s => IsInfinity s
  | S754_zero _ => IsInteger 0
  | S754_finite s m e =>
      let n := if s then Zneg m else Zpos m in
      match e with
      | Zneg k => IsInteger ((2 * n + 2 ^ Zpos k) / 2 ^ (Zpos k + 1))
      | _ => IsInteger (n * 2 ^ e)
      end
  end.

(** [String(n)] for such a value of magnitude below 10^21, where JavaScript
    still prints plain digits ([-0] prints as ["0"]). *)
Definition integralToString (n : Integral) : string :=
  match n with
  | IsNaN => "NaN"
  | IsInfinity false => "Infinity"
  | IsInfinity true => "-Infinity"
  | IsInteger z => NilZero.string_of_int (Z.to_int z)
  end.

Fixpoint hexPrefix (s : string) (acc : option Z) : option Z :=
  match s with
  | String c rest =>
      if Js.isHexDigit c
      then hexPrefix rest
             (Some (16 * match acc with Some v => v | None => 0 end + Js.hexDigitValue c))
      else acc
  | EmptyString => acc
  end.

(** [parseInt(s, 16)]: leading white space, a sign, an optional [0x] or [0X],
    then the longest run of hexadecimal digits; NaN when that run is empty.
    (The result is exact below 2^53; the callers here pass two characters.) *)
Definition parseInt16 (s : string) : float :=
  let s1 := Js.trimStart s in
  let '(negative, s2) :=
    match s1 with
    | String "-" rest => (true, rest)
    | String "+" rest => (false, rest)
    | _ => (false, s1)
    end in
  let s3 :=
    match s2 with
    | String "0" (String "x" rest) => rest
    | String "0" (String "X" rest) => rest
    | _ => s2
    end in
  match hexPrefix s3 None with
  | None => PrimFloat.nan
  | Some v => if negative then PrimFloat.opp (ofZ v) else ofZ v
  end.

End JsNum.

(** ** Results of calls that may throw *)

Inductive Outcome (A : Type) : Type :=
| Returned (a : A)
| Thrown (message : string).
Arguments Returned {A} a.
Arguments Thrown {A} message.

Definition bindOutcome {A B} (m : Outcome A) (k : A -> Outcome B) : Outcome B :=
  match m with
  | Returned a => k a
  | Thrown e => Thrown e
  end.

(** ** Color quantizer: [rgbToHex] and [extractDominantPalette] *)

Module Quantizer.

(** [clamp] on integers. *)
Definition clamp (n lo hi : Z) : Z := Z.max lo (Z.min hi n).

(** [rgbToHex] on integer channels ([Math.round] is the identity there). *)
Definition hexByte (v : Z) : string :=
  Js.padStart 2 "0" (Js.toString16 (clamp v 0 255)).

Definition rgbToHex (r g b : Z) : string :=
  "#" ++ Js.join "" (map hexByte [r; g; b]).

(** What one element of [files] turns into: [loadImageFromFile] may reject,
    [canvas.getContext] may give [null], and otherwise [getImageData]
    hands back the flat RGBA buffer (a [Uint8ClampedArray]). *)
Inductive Decoded : Type :=
| LoadFailed (message : string)
| NoContext
| ImageData (data : list Byte.byte).

(** [data[i]]: a byte, or [undefined] past the end. *)
Definition at_ (data : list Byte.byte) (i : nat) : option Z :=
  option_map (fun b => Z.of_N (Byte.to_N b)) (nth_error data i).

(** [x < n] with [x] possibly [undefined] (then NaN, and the test fails). *)
Definition ltNum (x : option Z) (n : Z) : bool :=
  match x with Some v => v <? n | None => false end.

(** [x >> k] with [x] possibly [undefined] (then 0). *)
Definition shr (x : option Z) (k : Z) : Z :=
  match x with Some v => Z.shiftr v k | None => 0 end.

(** The [Map<number, number>]: entries in insertion order. *)
Definition Histogram := list (Z * Z).

Fixpoint Map_get (key : Z) (h : Histogram) : option Z :=
  match h with
  | [] => None
  | (k, v) :: rest => if k =? key then Some v else Map_get key rest
  end.

(** [set] overwrites in place, or appends a new entry. *)
Fixpoint Map_set (key v : Z) (h : Histogram) : Histogram :=
  match h with
  | [] => [(key, v)]
  | (k, w) :: rest =>
      if k =? key then (k, v) :: rest else (k, w) :: Map_set key v rest
  end.

(** [histogram.get(key) || 0]. *)
Definition getOrZero (key : Z) (h : Histogram) : Z :=
  match Map_get key h with
  | Some v => v
  | None => 0
  end.

Definition bucketKey (r g b : option Z) : Z :=
  let rb := shr r 4 in
  let gb := shr g 4 in
  let bb := shr b 4 in
  Z.lor (Z.lor (Z.shiftl rb 8) (Z.shiftl gb 4)) bb.

(** The body of the sampling loop at offset [i]. *)
Definition samplePixel (data : list Byte.byte) (histogram : Histogram) (i : nat)
  : Histogram :=
  let a := at_ data (i + 3) in
  if ltNum a 220 then histogram
  else
    let key := bucketKey (at_ data (i + 0)) (at_ data (i + 1)) (at_ data (i + 2)) in
    Map_set key (getOrZero key histogram + 1) histogram.

Definition stride : nat := 4 * 3.

(** The offsets [0, stride, 2*stride, ...] below [len]. *)
Definition offsets (len : nat) : list nat :=
  map (fun j => (stride * j)%nat) (seq 0 ((len + (stride - 1)) / stride)).

Definition sampleImage (histogram : Histogram) (data : list Byte.byte) : Histogram :=
  fold_left (samplePixel data) (offsets (List.length data)) histogram.

(** The [for (const file of files)] loop. *)
Fixpoint buildHistogram (files : list Decoded) (histogram : Histogram)
  : Outcome Histogram :=
  match files with
  | [] => Returned histogram
  | LoadFailed e :: _ => Thrown e
  | NoContext :: rest => buildHistogram rest histogram
  | ImageData data :: rest => buildHistogram rest (sampleImage histogram data)
  end.

(** [entries.sort((a, b) => b[1] - a[1])]: stable, by descending count. *)
Fixpoint insertDesc (e : Z * Z) (l : list (Z * Z)) : list (Z * Z) :=
  match l with
  | [] => [e]
  | x :: rest => if snd x <? snd e then e :: l else x :: insertDesc e rest
  end.

Definition sortDesc (l : list (Z * Z)) : list (Z * Z) :=
  fold_left (fun acc e => insertDesc e acc) l [].

Definition bucketCenter (key : Z) : Z * Z * Z :=
  let rb := Z.land (Z.shiftr key 8) 15 in
  let gb := Z.land (Z.shiftr key 4) 15 in
  let bb := Z.land key 15 in
  (rb * 16 + 8, gb * 16 + 8, bb * 16 + 8).

Definition hexOfKey (key : Z) : string :=
  let '(r, g, b) := bucketCenter key in rgbToHex r g b.

Definition includes (hex : string) (colors : list string) : bool :=
  existsb (String.eqb hex) colors.

(** The [for (const [key] of top)] loop with its [break]. *)
Fixpoint collect (count : nat) (top : list (Z * Z)) (colors : list string)
  : list string :=
  match top with
  | [] => colors
  | (key, _) :: rest =>
      let hex := hexOfKey key in
      let colors' := if includes hex colors then colors else (colors ++ [hex])%list in
      if (count <=? List.length colors')%nat then colors'
      else collect count rest colors'
  end.

(** The part of [extractDominantPalette] after the histogram is built.
    [count] is a number of entries, a natural number. *)
Definition paletteOfHistogram (histogram : Histogram) (count : nat) : list string :=
  let top := firstn (Nat.max (count * 3) count) (sortDesc histogram) in
  collect count top [].

Definition extractDominantPalette (files : list Decoded) (count : nat)
  : Outcome (list string) :=
  bindOutcome (buildHistogram files [])
    (fun histogram => Returned (paletteOfHistogram histogram count)).

(** A bucket key: three 4-bit levels. *)
Definition validKey (k : Z) : Prop := 0 <= k < 4096.

(** The histogram has one entry per key, and every key is a bucket key. *)
Definition wellFormed (h : Histogram) : Prop :=
  NoDup (map fst h) /\ Forall validKey (map fst h).

(** [loadImageFromFile] succeeds on this file. *)
Definition loads (f : Decoded) : Prop :=
  match f with LoadFailed _ => False | _ => True end.

(** The order [sort] leaves the entries in: counts never increase. *)
Definition descending (a b : Z * Z) : Prop := snd b <= snd a.

Definition isLowerHexDigit (c : ascii) : bool :=
  let n := nat_of_ascii c in
  ((48 <=? n) && (n <=? 57) || (97 <=? n) && (n <=? 102))%nat.

(** A lowercase [#rrggbb] string. *)
Definition isLowerHexColor (s : string) : bool :=
  match s with
  | String "#" digits =>
      (String.length digits =? 6)%nat && Js.forallChars isLowerHexDigit digits
  | _ => false
  end.

(** The bucket a [#rrggbb] color falls into. *)
Definition keyOfHex (hex : string) : Z :=
  match hex with
  | String _ digits =>
      match JsNum.hexPrefix digits None with
      | Some v => bucketKey (Some (v / 65536)) (Some ((v / 256) mod 256)) (Some (v mod 256))
      | None => 0
      end
  | EmptyString => 0
  end.

(** The 4096 bucket keys. *)
Definition allKeys : list Z := map Z.of_nat (seq 0 4096).

(** For one key: its center color falls back into the bucket, prints as a
    lowercase [#rrggbb], and is [level * 16 + 8] on each channel. *)
Definition keyChecks (key : Z) : bool :=
  (keyOfHex (hexOfKey key) =? key)
  && isLowerHexColor (hexOfKey key)
  && String.eqb (hexOfKey key)
       (rgbToHex (key / 256 * 16 + 8) (key / 16 mod 16 * 16 + 8) (key mod 16 * 16 + 8)).

(** The color pushed for a histogram entry [[key, count]]. *)
Definition hexOfEntry (e : Z * Z) : string := hexOfKey (fst e).

(** The bucket keys the sampling loop counts, in order: for one offset, for
    one file, and the number of times a key is counted over all files. *)
Definition sampleKey (data : list byte) (i : nat) : list Z :=
  if ltNum (at_ data (i + 3)) 220 then []
  else [bucketKey (at_ data (i + 0)) (at_ data (i + 1)) (at_ data (i + 2))].

Definition sampledKeys (f : Decoded) : list Z :=
  match f with
  | ImageData data => flat_map (sampleKey data) (offsets (List.length data))
  | _ => []
  end.

Definition frequency (files : list Decoded) (key : Z) : nat :=
  count_occ Z.eq_dec (flat_map sampledKeys files) key.

(** The histogram holds the number of occurrences of every key of [keys]. *)
Definition counts (h : Histogram) (keys : list Z) : Prop :=
  forall k,
    Map_get k h
    = if (count_occ Z.eq_dec keys k =? 0)%nat then None
      else Some (Z.of_nat (count_occ Z.eq_dec keys k)).

(** A buffer of [n] pixels, all equal to [pixel]. *)
Definition solid (pixel : list byte) (n : nat) : list byte := List.concat (repeat pixel n).

(** The pixel [#3366cc] with alpha 255. *)
Definition solid3366cc : list byte := [x33; x66; xcc; xff].

End Quantizer.

(** ** Mood heuristic: [inferMoodKeywords] *)

Module Mood.

Record Rgb : Type := { r : float; g : float; b : float }.

(** The callback of [palette.map]. *)
Definition decodeHex (hex : string) : Rgb :=
  let h := Js.removeFirst "#" hex in
  {| r := JsNum.parseInt16 (Js.slice h 0 2);
     g := JsNum.parseInt16 (Js.slice h 2 4);
     b := JsNum.parseInt16 (Js.slice h 4 6) |}.

(** The callback of [rgb.reduce]. *)
Definition addRgb (acc c : Rgb) : Rgb :=
  {| r := PrimFloat.add (r acc) (r c);
     g := PrimFloat.add (g acc) (g c);
     b := PrimFloat.add (b acc) (b c) |}.

Definition inferMoodKeywords (palette : list string) : list string :=
  if (List.length palette =? 0)%nat then ["balanced"; "clean"; "modern"]
  else
    let rgb := map decodeHex palette in
    let avg := fold_left addRgb rgb {| r := 0; g := 0; b := 0 |}%float in
    let n := JsNum.ofZ (Z.of_nat (List.length rgb)) in
    let avg := {| r := r avg / n; g := g avg / n; b := b avg / n |}%float in
    let brightness := ((0.2126 * r avg + 0.7152 * g avg + 0.0722 * b avg) / 255)%float in
    let max := JsNum.Math_max (JsNum.Math_max (r avg) (g avg)) (b avg) in
    let min := JsNum.Math_min (JsNum.Math_min (r avg) (g avg)) (b avg) in
    let chroma := ((max - min) / 255)%float in
    let moods := [] in
    let moods := (moods ++ [if PrimFloat.ltb brightness 0.35 then "moody"
                            else if JsNum.gtb brightness 0.7 then "airy"
                            else "balanced"])%list in
    let moods := (moods ++ [if JsNum.gtb chroma 0.35 then "vibrant" else "muted"])%list in
    let moods := (moods ++ ["stylized"])%list in
    firstn 3 moods.

(** The heuristic as the specification words it: the channel-wise average of
    the decoded palette, its perceptual brightness and chroma, and the two
    threshold tags. *)
Definition channelAverage (channel : Rgb -> float) (palette : list string) : float :=
  (fold_left (fun acc hex => acc + channel (decodeHex hex)) palette 0
   / JsNum.ofZ (Z.of_nat (List.length palette)))%float.

Definition averageColor (palette : list string) : Rgb :=
  {| r := channelAverage r palette;
     g := channelAverage g palette;
     b := channelAverage b palette |}.

Definition perceptualBrightness (c : Rgb) : float :=
  ((0.2126 * r c + 0.7152 * g c + 0.0722 * b c) / 255)%float.

Definition chromaOf (c : Rgb) : float :=
  ((JsNum.Math_max (JsNum.Math_max (r c) (g c)) (b c)
    - JsNum.Math_min (JsNum.Math_min (r c) (g c)) (b c)) / 255)%float.

Definition brightnessTag (brightness : float) : string :=
  if PrimFloat.ltb brightness 0.35 then "moody"
  else if PrimFloat.ltb 0.7 brightness then "airy"
  else "balanced".

Definition chromaTag (chroma : float) : string :=
  if PrimFloat.ltb 0.35 chroma then "vibrant" else "muted".

End Mood.


(** ** Prompt fusion: [performReasoning], re-exported as [fusePrompt] *)

Module Fusion.

(** The fields [performReasoning] reads off [styleData] (a [StyleProfile] or a
    [StyleAnalysisResponse]); each may be missing. *)
Record StyleData : Type := {
  palette : option (list string);
  colorPalette : option (list string);
  moods : option (list string);
  moodKeywords : option (list string);
  visualTechnique : option string
}.

(** [a || b || []] on arrays: an array is truthy even when empty. *)
Definition firstArray (a b : option (list string)) : list string :=
  match a, b with
  | Some l, _ => l
  | None, Some l => l
  | None, None => []
  end.

(** [styleData?.field]. *)
Definition field {A} (styleData : option StyleData) (f : StyleData -> option A)
  : option A :=
  match styleData with
  | Some d => f d
  | None => None
  end.

Definition newline : string := String (ascii_of_nat 10) EmptyString.

Definition strengthLabel (safeIntensity : float) : string :=
  if JsNum.geb safeIntensity 0.8 then "strict"
  else if JsNum.geb safeIntensity 0.4 then "balanced"
  else "subtle".

Definition percent (safeIntensity : float) : string :=
  JsNum.integralToString (JsNum.Math_round (safeIntensity * 100)%float).

Definition styleHint (technique : string) (moods palette : list string) : string :=
  Js.join " "
    (filter Js.truthy
       [ if Js.truthy technique then "Technique: " ++ technique ++ "." else "";
         if (0 <? List.length moods)%nat
         then "Mood: " ++ Js.join ", " moods ++ "." else "";
         if (0 <? List.length palette)%nat
         then "Palette: " ++ Js.join ", " (firstn 5 palette) ++ "." else "" ]).

Definition performReasoning
  (userPrompt : string) (styleData : option StyleData) (intensity : float) : string :=
  let safeIntensity := JsNum.clamp intensity 0 1 in
  let palette := firstArray (field styleData palette) (field styleData colorPalette) in
  let moods := firstArray (field styleData moods) (field styleData moodKeywords) in
  let technique := Js.orElse (field styleData visualTechnique) "" in
  if PrimFloat.ltb safeIntensity 0.15 then userPrompt
  else
    let styleHint := styleHint technique moods palette in
    let strength := strengthLabel safeIntensity in
    Js.trim (userPrompt ++ newline ++ newline ++ "Style guidance (" ++ strength ++ ", "
             ++ percent safeIntensity ++ "%): " ++ styleHint).

(** The shim's [fusePrompt] forwards its three arguments. *)
Definition fusePrompt
  (userPrompt : string) (styleData : option StyleData) (intensity : float) : string :=
  performReasoning userPrompt styleData intensity.

(** The style object of the specification's example. *)
Definition inkWash : StyleData :=
  {| palette := Some ["#111111"]; colorPalette := None;
     moods := Some ["calm"]; moodKeywords := None;
     visualTechnique := Some "ink wash" |}.

End Fusion.

(** ** Style inference orchestrator: [normalizeHex], [extractStyleWithVlm],
    [extractImageEmbedding], [analyzeStyle] *)

Module Orchestrator.

(** A value produced by [JSON.parse] / [res.json()]. *)
Inductive Json : Type :=
| JNull
| JBool (b : bool)
| JNumber (n : float)
| JString (s : string)
| JArray (items : list Json)
| JObject (members : list (string * Json)).

Fixpoint lookup (key : string) (members : list (string * Json)) : option Json :=
  match members with
  | [] => None
  | (k, v) :: rest => if String.eqb k key then Some v else lookup key rest
  end.

(** [v?.key]: [undefined] unless [v] is an object that has the property. *)
Definition getMember (key : string) (v : option Json) : option Json :=
  match v with
  | Some (JObject members) => lookup key members
  | _ => None
  end.

(** [v?.[0]]. *)
Definition getFirst (v : option Json) : option Json :=
  match v with
  | Some (JArray (x :: _)) => Some x
  | Some (JObject members) => lookup "0" members
  | Some (JString (String c _)) => Some (JString (String c EmptyString))
  | _ => None
  end.

(** [typeof v === "string" ? v : undefined]. *)
Definition asString (v : option Json) : option string :=
  match v with
  | Some (JString s) => Some s
  | _ => None
  end.

(** [h.replace(/^0x/i, "")]. *)
Definition strip0x (h : string) : string :=
  match h with
  | String "0" (String "x" rest) => rest
  | String "0" (String "X" rest) => rest
  | _ => h
  end.

(** [h.replace(/^#/, "")]. *)
Definition stripHash (h : string) : string :=
  match h with
  | String "#" rest => rest
  | _ => h
  end.

(** [/^[0-9a-fA-F]{6}$/.test(h)]. *)
Definition isSixHexDigits (h : string) : bool :=
  (String.length h =? 6)%nat && Js.forallChars Js.isHexDigit h.

Definition normalizeHex (hex : Json) : option string :=
  match hex with
  | JString s =>
      let h := stripHash (strip0x (Js.trim s)) in
      if negb (isSixHexDigits h) then None
      else Some ("#" ++ Js.toLowerCase h)
  | _ => None
  end.

(** [items.map(normalizeHex).filter(Boolean)]: the [null]s go (a kept entry is
    never the empty string). *)
Fixpoint keepSome (l : list (option string)) : list string :=
  match l with
  | [] => []
  | Some s :: rest => if Js.truthy s then s :: keepSome rest else keepSome rest
  | None :: rest => keepSome rest
  end.

Definition isJString (v : Json) : bool :=
  match v with JString _ => true | _ => false end.

Fixpoint strings (l : list Json) : list string :=
  match l with
  | [] => []
  | JString s :: rest => s :: strings rest
  | _ :: rest => strings rest
  end.

(** [Partial<StyleAnalysisResponse>]; [{}] has every field missing. *)
Record VlmStyle : Type := {
  vlm_artisticStyle : option string;
  vlm_visualTechnique : option string;
  vlm_colorPalette : option (list string);
  vlm_moodKeywords : option (list string);
  vlm_suggestedName : option string;
  vlm_reasoning : option string
}.

Definition emptyVlm : VlmStyle :=
  {| vlm_artisticStyle := None; vlm_visualTechnique := None;
     vlm_colorPalette := None; vlm_moodKeywords := None;
     vlm_suggestedName := None; vlm_reasoning := None |}.

(** What [fetch] and the reading of its body come to. *)
Inductive HttpReply : Type :=
| Rejected (message : string)
| NotOk (status : Z) (text statusText : string)
| Ok (data : Json).

Definition statusMessage (label : string) (status : Z) (text statusText : string)
  : string :=
  label ++ " (" ++ NilZero.string_of_int (Z.to_int status) ++ "): "
        ++ (if Js.truthy text then text else statusText).

(** The tail of [extractStyleWithVlm], from [parsed] on. *)
Definition styleOfParsed (parsed : Json) : VlmStyle :=
  let colorPalette :=
    match getMember "colorPalette" (Some parsed) with
    | Some (JArray items) => Some (keepSome (map normalizeHex items))
    | _ => None
    end in
  let moodKeywords :=
    match getMember "moodKeywords" (Some parsed) with
    | Some (JArray items) => Some (firstn 6 (strings (filter isJString items)))
    | _ => None
    end in
  {| vlm_artisticStyle := asString (getMember "artisticStyle" (Some parsed));
     vlm_visualTechnique := asString (getMember "visualTechnique" (Some parsed));
     vlm_colorPalette := colorPalette;
     vlm_moodKeywords := moodKeywords;
     vlm_suggestedName := asString (getMember "suggestedName" (Some parsed));
     vlm_reasoning := asString (getMember "reasoning" (Some parsed)) |}.

(** [extractStyleWithVlm], given the reply to its request and [safeJsonParse]
    (which never throws). *)
Definition extractStyleWithVlm
  (reply : HttpReply) (safeJsonParse : string -> Json) : Outcome VlmStyle :=
  match reply with
  | Rejected e => Thrown e
  | NotOk status text statusText =>
      Thrown (statusMessage "HF VLM error" status text statusText)
  | Ok data =>
      let content :=
        getMember "content"
          (getMember "message" (getFirst (getMember "choices" (Some data)))) in
      match content with
      | Some (JString content) =>
          if negb (Js.truthy (Js.trim content))
          then Thrown "HF VLM returned no content"
          else Returned (styleOfParsed (safeJsonParse content))
      | _ => Thrown "HF VLM returned no content"
      end
  end.

Definition isJNumber (v : Json) : bool :=
  match v with JNumber _ => true | _ => false end.

Fixpoint numbers (l : list Json) : list float :=
  match l with
  | [] => []
  | JNumber n :: rest => n :: numbers rest
  | _ :: rest => numbers rest
  end.

Definition extractImageEmbedding (reply : HttpReply) : Outcome (option (list float)) :=
  match reply with
  | Rejected e => Thrown e
  | NotOk status text statusText =>
      Thrown (statusMessage "HF embed error" status text statusText)
  | Ok data =>
      let vector :=
        match data with
        | JArray (JArray first :: _) => JArray first
        | _ => data
        end in
      match vector with
      | JArray items => Returned (Some (numbers (filter isJNumber items)))
      | _ => Returned None
      end
  end.

Record Collage : Type := { dataUrl : string; blob : list Byte.byte }.

Record StyleAnalysisResponse : Type := {
  artisticStyle : string;
  visualTechnique : string;
  colorPalette : list string;
  moodKeywords : list string;
  suggestedName : string;
  reasoning : string;
  embedding : option (list float)
}.

(** Everything [analyzeStyle] gets from outside: the canvas work of
    [createReferenceCollage], the two hosted services, the JSON parser, and
    [new Date().toLocaleDateString()]. *)
Record Services : Type := {
  createReferenceCollage : Outcome Collage;
  vlmService : string -> HttpReply;
  safeJsonParse : string -> Json;
  embedService : list Byte.byte -> HttpReply;
  toLocaleDateString : string
}.

(** An [async] body: it may throw, and it calls [onProgress] on the way; the
    statuses reported so far are threaded through. *)
Definition Run (A : Type) : Type := list string -> Outcome A * list string.

Definition ret {A} (a : A) : Run A := fun log => (Returned a, log).

Definition bind {A B} (m : Run A) (k : A -> Run B) : Run B :=
  fun log =>
    match m log with
    | (Returned a, log') => k a log'
    | (Thrown e, log') => (Thrown e, log')
    end.

(** [await] of a call with a known outcome. *)
Definition await {A} (o : Outcome A) : Run A := fun log => (o, log).

(** [try { m } catch (e) { handler }]. *)
Definition tryCatch {A} (m : Run A) (handler : string -> Run A) : Run A :=
  fun log =>
    match m log with
    | (Returned a, log') => (Returned a, log')
    | (Thrown e, log') => handler e log'
    end.

(** [if (onProgress) onProgress(status)]. *)
Definition report (onProgress : bool) (status : string) : Run unit :=
  fun log => (Returned tt, if onProgress then (log ++ [status])%list else log).

Notation "x <- m ;; k" := (bind m (fun x => k))
  (at level 61, m at next level, right associativity).

Definition analyzeStyle
  (services : Services) (files : list Quantizer.Decoded) (onProgress : bool)
  : Run StyleAnalysisResponse :=
  _ <- report onProgress "Pre-processing: Normalizing inputs..." ;;
  palette <- await (Quantizer.extractDominantPalette files 5) ;;
  let moodFallback := Mood.inferMoodKeywords palette in
  collage <- tryCatch (c <- await (createReferenceCollage services) ;; ret (Some c))
                 (fun _ => ret None) ;;
  _ <- report onProgress "Feature Extraction: Analyzing visual DNA..." ;;
  vlm <- tryCatch (match collage with
              | Some c => await (extractStyleWithVlm (vlmService services (dataUrl c))
                                   (safeJsonParse services))
              | None => ret emptyVlm
              end)
             (fun _ => ret emptyVlm) ;;
  let colorPalette :=
    match vlm_colorPalette vlm with
    | Some l => if (0 <? List.length l)%nat then l else palette
    | None => palette
    end in
  let moodKeywords :=
    match vlm_moodKeywords vlm with
    | Some l => if (0 <? List.length l)%nat then l else moodFallback
    | None => moodFallback
    end in
  let suggestedName :=
    Js.orElse (vlm_suggestedName vlm) ("Custom Style " ++ toLocaleDateString services) in
  let artisticStyle := Js.orElse (vlm_artisticStyle vlm) "Custom" in
  let visualTechnique := Js.orElse (vlm_visualTechnique vlm) "Reference-guided" in
  let reasoning :=
    Js.orElse (vlm_reasoning vlm)
      "Extracted a dominant palette and inferred basic mood from reference images." in
  _ <- report onProgress "Vectorization: Creating style embedding..." ;;
  embedding <- tryCatch (match collage with
                    | Some c => await (extractImageEmbedding (embedService services (blob c)))
                    | None => ret None
                    end)
                   (fun _ => ret None) ;;
  ret {| artisticStyle := artisticStyle;
         visualTechnique := visualTechnique;
         colorPalette := colorPalette;
         moodKeywords := moodKeywords;
         suggestedName := suggestedName;
         reasoning := reasoning;
         embedding := embedding |}.

(** The merge rule as the specification words it: the external value wins only
    if present and non-empty, otherwise the fallback (or the fixed default). *)
Definition nonEmptyList (external : option (list string)) : option (list string) :=
  match external with
  | Some [] => None
  | _ => external
  end.

Definition nonEmptyString (external : option string) : option string :=
  match external with
  | Some EmptyString => None
  | _ => external
  end.

Definition externalOr {A} (external : option A) (fallback : A) : A :=
  match external with
  | Some a => a
  | None => fallback
  end.

Definition mergeStyle
  (vlm : VlmStyle) (palette : list string) (today : string)
  (embedding : option (list float)) : StyleAnalysisResponse :=
  {| artisticStyle := externalOr (nonEmptyString (vlm_artisticStyle vlm)) "Custom";
     visualTechnique :=
       externalOr (nonEmptyString (vlm_visualTechnique vlm)) "Reference-guided";
     colorPalette := externalOr (nonEmptyList (vlm_colorPalette vlm)) palette;
     moodKeywords :=
       externalOr (nonEmptyList (vlm_moodKeywords vlm)) (Mood.inferMoodKeywords palette);
     suggestedName :=
       externalOr (nonEmptyString (vlm_suggestedName vlm)) ("Custom Style " ++ today);
     reasoning :=
       externalOr (nonEmptyString (vlm_reasoning vlm))
         "Extracted a dominant palette and inferred basic mood from reference images.";
     embedding := embedding |}.

(** What each best-effort stage leaves behind: the collage or none, the
    service's style or [{}], the embedding or [undefined]. *)
Definition collageOutput (services : Services) : option Collage :=
  match createReferenceCollage services with
  | Returned c => Some c
  | Thrown _ => None
  end.

Definition vlmStage (services : Services) (c : Collage) : Outcome VlmStyle :=
  extractStyleWithVlm (vlmService services (dataUrl c)) (safeJsonParse services).

Definition embeddingStage (services : Services) (c : Collage)
  : Outcome (option (list float)) :=
  extractImageEmbedding (embedService services (blob c)).

Definition vlmOutput (services : Services) (collage : option Collage) : VlmStyle :=
  match collage with
  | Some c => match vlmStage services c with Returned v => v | Thrown _ => emptyVlm end
  | None => emptyVlm
  end.

Definition embeddingOutput (services : Services) (collage : option Collage)
  : option (list float) :=
  match collage with
  | Some c => match embeddingStage services c with Returned e => e | Thrown _ => None end
  | None => None
  end.

Definition progressLabels (onProgress : bool) : list string :=
  if onProgress
  then [ "Pre-processing: Normalizing inputs...";
         "Feature Extraction: Analyzing visual DNA...";
         "Vectorization: Creating style embedding..." ]
  else [].

(** The entries of an external palette that survive, in order. *)
Definition acceptedHexes (items : list Json) : list string :=
  flat_map (fun e => match normalizeHex e with Some h => [h] | None => [] end) items.

(** The filter as the specification words it: an entry is kept, as it is, when it is
    exactly six hexadecimal digits once an optional [0x] or [#] prefix is
    stripped; the external list wins when something is kept. *)
Definition statedValidHex (s : string) : bool :=
  isSixHexDigits s
  || match s with
     | String "0" (String "x" rest) => isSixHexDigits rest
     | String "#" rest => isSixHexDigits rest
     | _ => false
     end.

Definition statedPalette (external fallback : list string) : list string :=
  match filter statedValidHex external with
  | [] => fallback
  | kept => kept
  end.

(** Sample surroundings: one solid reference image, a collage, a chat
    completion whose content parses to [parsed], and an embedding reply. *)
Definition sampleFiles : list Quantizer.Decoded :=
  [Quantizer.ImageData (Quantizer.solid Quantizer.solid3366cc 36)].

Definition sampleCollage : Collage :=
  {| dataUrl := "data:image/png;base64,iVBORw0KGgo="; blob := [x89; x50; x4e; x47] |}.

Definition completion (content : string) : Json :=
  JObject [("choices",
            JArray [JObject [("message", JObject [("content", JString content)])]])].

Definition sampleServices (collage : Outcome Collage) (parsed : Json) : Services :=
  {| createReferenceCollage := collage;
     vlmService := fun _ => Ok (completion "{...}");
     safeJsonParse := fun _ => parsed;
     embedService := fun _ => Ok (JArray [JArray [JNumber 0.5; JNumber 0.25]]);
     toLocaleDateString := "11/2/2026" |}.

Definition paletteReply (entries : list string) : Json :=
  JObject [("colorPalette", JArray (map JString entries))].

End Orchestrator.

(** ** Forwarding proxy: [proxyHf] of the Node server *)

Module Proxy.

(** The parts of the incoming request [proxyHf] looks at; [pathname] and
    [search] are those of [new URL(req.url, ...)]. *)
Record Request : Type := {
  method : option string;
  pathname : string;
  search : string;
  contentType : option string;
  accept : option string;
  requestBody : list Byte.byte
}.

Inductive Body : Type :=
| Text (s : string)
| Bytes (b : list Byte.byte).

(** What [send] writes: status, headers, and the argument of [res.end]. *)
Record Response : Type := {
  status : Z;
  headers : list (string * string);
  body : option Body
}.

(** The call [fetch(target, { method, headers, body })]. *)
Record UpstreamRequest : Type := {
  target : string;
  upstreamMethod : string;
  upstreamHeaders : list (string * string);
  upstreamBody : option (list Byte.byte)
}.

Record UpstreamResponse : Type := {
  upstreamStatus : Z;
  upstreamContentType : option string;
  upstreamBytes : list Byte.byte
}.

(** [proxyHf] either answers at once, or makes one upstream call and answers
    from its response. *)
Inductive Handling : Type :=
| Respond (response : Response)
| Forward (request : UpstreamRequest) (relay : UpstreamResponse -> Response).

(** [a || b] on strings that may be [undefined]. *)
Definition orString (a b : option string) : option string :=
  match a with
  | Some s => if Js.truthy s then a else b
  | None => b
  end.

(** [process.env.HF_TOKEN || process.env.HUGGINGFACE_TOKEN ||
    process.env.VITE_HF_TOKEN]. *)
Definition hfToken (HF_TOKEN HUGGINGFACE_TOKEN VITE_HF_TOKEN : option string)
  : option string :=
  orString (orString HF_TOKEN HUGGINGFACE_TOKEN) VITE_HF_TOKEN.

Definition isTruthy (o : option string) : bool :=
  match o with
  | Some s => Js.truthy s
  | None => false
  end.

Definition quote : string := String (ascii_of_nat 34) EmptyString.

(** [JSON.stringify({ error: message })] for a message with nothing to escape. *)
Definition errorJson (message : string) : string :=
  "{" ++ quote ++ "error" ++ quote ++ ":" ++ quote ++ message ++ quote ++ "}".

Definition startsWith (s prefix : string) : bool := String.prefix prefix s.

(** [s.slice(n)]. *)
Definition sliceFrom (s : string) (n : nat) : string :=
  substring n (String.length s - n) s.

(** The headers object, with the optional entries present only when the
    incoming header is a non-empty string. *)
Definition forwardHeaders (token : string) (req : Request) : list (string * string) :=
  ([("Authorization", ("Bearer " ++ token)%string)]
   ++ (if isTruthy (contentType req)
       then [("Content-Type", match contentType req with Some s => s | None => "" end)]
       else [])
   ++ (if isTruthy (accept req)
       then [("Accept", match accept req with Some s => s | None => "" end)]
       else []))%list.

Definition relayResponse (upstream : UpstreamResponse) : Response :=
  {| status := upstreamStatus upstream;
     headers :=
       ((match upstreamContentType upstream with
         | Some ct => if Js.truthy ct then [("Content-Type", ct)] else []
         | None => []
         end) ++ [("Access-Control-Allow-Origin", "*")])%list;
     body := Some (Bytes (upstreamBytes upstream)) |}.

Definition proxyHf (hfToken : option string) (req : Request) : Handling :=
  if match method req with Some m => String.eqb m "OPTIONS" | None => false end
  then
    Respond {| status := 204;
               headers :=
                 [("Access-Control-Allow-Origin", "*");
                  ("Access-Control-Allow-Methods", "GET,POST,PUT,PATCH,DELETE,OPTIONS");
                  ("Access-Control-Allow-Headers", "Content-Type, Authorization")];
               body := None |}
  else if negb (isTruthy hfToken)
  then
    Respond {| status := 500;
               headers := [("Content-Type", "application/json")];
               body := Some (Text (errorJson "Missing HF_TOKEN on server")) |}
  else
    let token := match hfToken with Some t => t | None => "" end in
    let target :=
      if startsWith (pathname req) "/api/hf/chat/completions"
      then Some ("https://router.huggingface.co/v1/chat/completions" ++ search req)
      else if startsWith (pathname req) "/api/hf/models/"
      then
        let rest := sliceFrom (pathname req) (String.length "/api/hf/models/") in
        Some ("https://router.huggingface.co/models/" ++ rest ++ search req)
      else None in
    match target with
    | None =>
        Respond {| status := 404;
                   headers := [("Content-Type", "application/json")];
                   body := Some (Text (errorJson "Unknown HF proxy route")) |}
    | Some target =>
        let headers := forwardHeaders token req in
        let method :=
          match method req with
          | Some m => if Js.truthy m then m else "GET"
          | None => "GET"
          end in
        let body :=
          if String.eqb method "GET" || String.eqb method "HEAD" then None
          else Some (requestBody req) in
        Forward {| target := target; upstreamMethod := method;
                   upstreamHeaders := headers; upstreamBody := body |}
                relayResponse
    end.

(** The request of the specification's routing example, and a server-side
    credential. *)
Definition sampleRequest : Request :=
  {| method := Some "POST"; pathname := "/api/hf/models/foo/bar"; search := "";
     contentType := Some "application/json"; accept := None; requestBody := [] |}.

Definition sampleToken : option string := hfToken None (Some "hf_secret") None.

End Proxy.

(** ** Style profiles: [handleStyleAnalyzed], [handleSave], [handleRevert] *)

Module Profile.

(** [Omit<StyleProfile, 'id' | 'createdAt' | 'history' | 'version'>]. *)
Module Data.
Record t : Type := {
  name : string;
  description : string;
  visualTechnique : string;
  palette : list string;
  moods : list string;
  referenceImages : list string;
  embedding : option (list float);
  reasoning : option string
}.
End Data.

Module Snapshot.
Record StyleSnapshot : Type := {
  version : Z;
  timestamp : Z;
  changeLog : string;
  data : Data.t
}.
End Snapshot.
Definition StyleSnapshot : Type := Snapshot.StyleSnapshot.

Record StyleProfile : Type := {
  id : string;
  name : string;
  description : string;
  visualTechnique : string;
  palette : list string;
  moods : list string;
  referenceImages : list string;
  createdAt : Z;
  embedding : option (list float);
  reasoning : option string;
  version : Z;
  history : list StyleSnapshot
}.

(** [handleStyleAnalyzed]: [uuid] is [crypto.randomUUID()], [now] is
    [Date.now()]. *)
Definition handleStyleAnalyzed
  (analysis : Orchestrator.StyleAnalysisResponse) (images : list string)
  (uuid : string) (now : Z) : StyleProfile :=
  {| id := uuid;
     name := Orchestrator.suggestedName analysis;
     description := Orchestrator.artisticStyle analysis;
     visualTechnique := Orchestrator.visualTechnique analysis;
     palette := Orchestrator.colorPalette analysis;
     moods := Orchestrator.moodKeywords analysis;
     referenceImages := images;
     createdAt := now;
     embedding := Orchestrator.embedding analysis;
     reasoning := Some (Orchestrator.reasoning analysis);
     version := 1;
     history := [] |}.

(** The [data: { ... }] literal both handlers build from [styleProfile]. *)
Definition currentData (styleProfile : StyleProfile) : Data.t :=
  {| Data.name := name styleProfile;
     Data.description := description styleProfile;
     Data.visualTechnique := visualTechnique styleProfile;
     Data.palette := palette styleProfile;
     Data.moods := moods styleProfile;
     Data.referenceImages := referenceImages styleProfile;
     Data.embedding := embedding styleProfile;
     Data.reasoning := reasoning styleProfile |}.

(** The editor's form state. *)
Record EditState : Type := {
  edit_name : string;
  edit_description : string;
  edit_technique : string;
  edit_palette : list string;
  edit_moods : list string
}.

(** [handleSave]; the result is what goes to [onUpdate]. *)
Definition handleSave (styleProfile : StyleProfile) (form : EditState) (now : Z)
  : StyleProfile :=
  let snapshot : StyleSnapshot :=
    {| Snapshot.version := version styleProfile;
       Snapshot.timestamp := now;
       Snapshot.changeLog := "Updated parameters manually";
       Snapshot.data := currentData styleProfile |} in
  {| id := id styleProfile;
     referenceImages := referenceImages styleProfile;
     createdAt := createdAt styleProfile;
     embedding := embedding styleProfile;
     reasoning := reasoning styleProfile;
     version := version styleProfile + 1;
     history := snapshot :: history styleProfile;
     name := edit_name form;
     description := edit_description form;
     visualTechnique := edit_technique form;
     palette := edit_palette form;
     moods := edit_moods form |}.

(** [handleRevert]: [...snapshot.data] overwrites the eight data fields. *)
Definition handleRevert (styleProfile : StyleProfile) (snapshot : StyleSnapshot) (now : Z)
  : StyleProfile :=
  let currentSnapshot : StyleSnapshot :=
    {| Snapshot.version := version styleProfile;
       Snapshot.timestamp := now;
       Snapshot.changeLog :=
         "Reverted to v" ++ NilZero.string_of_int (Z.to_int (Snapshot.version snapshot));
       Snapshot.data := currentData styleProfile |} in
  {| id := id styleProfile;
     createdAt := createdAt styleProfile;
     version := version styleProfile + 1;
     history := currentSnapshot :: history styleProfile;
     name := Data.name (Snapshot.data snapshot);
     description := Data.description (Snapshot.data snapshot);
     visualTechnique := Data.visualTechnique (Snapshot.data snapshot);
     palette := Data.palette (Snapshot.data snapshot);
     moods := Data.moods (Snapshot.data snapshot);
     referenceImages := Data.referenceImages (Snapshot.data snapshot);
     embedding := Data.embedding (Snapshot.data snapshot);
     reasoning := Data.reasoning (Snapshot.data snapshot) |}.

(** One committed operation of the editor on the active profile. *)
Inductive commits : StyleProfile -> StyleProfile -> Prop :=
| commit_save (p : StyleProfile) (form : EditState) (now : Z) :
    commits p (handleSave p form now)
| commit_revert (p : StyleProfile) (snapshot : StyleSnapshot) (now : Z) :
    commits p (handleRevert p snapshot now).

(** [evolves p prior q]: [q] comes from [p] by committed operations, and
    [prior] lists the states passed through, the latest first. *)
Inductive evolves (p : StyleProfile) : list StyleProfile -> StyleProfile -> Prop :=
| evolves_refl : evolves p [] p
| evolves_step (prior : list StyleProfile) (q q' : StyleProfile) :
    evolves p prior q -> commits q q' -> evolves p (q :: prior) q'.

(** A snapshot records a state: its version number and its data. *)
Definition records (snapshot : StyleSnapshot) (state : StyleProfile) : Prop :=
  Snapshot.version snapshot = version state
  /\ Snapshot.data snapshot = currentData state.

(** A profile as the orchestrator's result creates it, and two operations on
    it: an edit, then a revert to the snapshot that edit pushed. *)
Definition sampleAnalysis : Orchestrator.StyleAnalysisResponse :=
  {| Orchestrator.artisticStyle := "Custom";
     Orchestrator.visualTechnique := "Reference-guided";
     Orchestrator.colorPalette := ["#3868c8"];
     Orchestrator.moodKeywords := ["balanced"; "vibrant"; "stylized"];
     Orchestrator.suggestedName := "Custom Style 11/2/2026";
     Orchestrator.reasoning :=
       "Extracted a dominant palette and inferred basic mood from reference images.";
     Orchestrator.embedding := None |}.

Definition sampleProfile : StyleProfile :=
  handleStyleAnalyzed sampleAnalysis ["data:image/png;base64,AAAA"] "p-1" 1000.

Definition sampleEdit : EditState :=
  {| edit_name := "Blue hour"; edit_description := "Custom";
     edit_technique := "Gouache"; edit_palette := ["#3868c8"; "#101018"];
     edit_moods := ["moody"] |}.

Definition sampleEdited : StyleProfile := handleSave sampleProfile sampleEdit 2000.

Definition sampleReverted : StyleProfile :=
  handleRevert sampleEdited
    {| Snapshot.version := 1; Snapshot.timestamp := 2000;
       Snapshot.changeLog := "Updated parameters manually";
       Snapshot.data := currentData sampleProfile |} 3000.

End Profile.

(** ** Color quantizer: auxiliary definitions *)

Module QuantizerAux.
Import Quantizer.

(** The message of the first file that fails to load, if any. *)
Fixpoint firstFailure (files : list Decoded) : option string :=
  match files with
  | [] => None
  | LoadFailed e :: _ => Some e
  | _ :: rest => firstFailure rest
  end.

(** A byte as the number the loop reads. *)
Definition byteValue (b : byte) : Z := Z.of_N (Byte.to_N b).

(** The sixteen levels of a channel, and the 256 values of a byte. *)
Definition levels : list Z := map Z.of_nat (seq 0 16).
Definition byteValues : list Z := map Z.of_nat (seq 0 256).

(** For three levels: the key built from them gives back their centers. *)
Definition centerCheck (rb gb bb : Z) : bool :=
  match bucketCenter (Z.lor (Z.lor (Z.shiftl rb 8) (Z.shiftl gb 4)) bb) with
  | (r, g, b) => (r =? rb * 16 + 8) && (g =? gb * 16 + 8) && (b =? bb * 16 + 8)
  end.

(** For one channel value: it prints as two lowercase digits that
    [parseInt(_, 16)] reads back. *)
Definition hexByteCheck (v : Z) : bool :=
  match hexByte v with
  | String a (String b EmptyString) =>
      isLowerHexDigit a && isLowerHexDigit b
      && PrimFloat.Leibniz.eqb (JsNum.parseInt16 (String a (String b EmptyString)))
           (JsNum.ofZ v)
  | _ => false
  end.

End QuantizerAux.

(** ** Strings: auxiliary definitions *)

Module JsAux.

(** The string is empty or starts with a character that is not white space. *)
Definition headKept (s : string) : Prop :=
  match s with
  | String c _ => Js.isWhiteSpace c = false
  | EmptyString => True
  end.

End JsAux.

(** ** Text generation: [buildPrompt] and [generateAssistantText] *)

Module TextService.
Import Orchestrator.

Inductive HfChatRole : Type := system | user | assistant.

Record HfChatMessage : Type := { role : HfChatRole; content : string }.

Definition DEFAULT_TEXT_MODEL : string := "Qwen/Qwen2.5-7B-Instruct".

(** [getTextModel], given the value of [VITE_HF_TEXT_MODEL]. *)
Definition getTextModel (VITE_HF_TEXT_MODEL : option string) : string :=
  Js.orElse VITE_HF_TEXT_MODEL DEFAULT_TEXT_MODEL.

(** The [tag] of the loop body, and the line it pushes. *)
Definition roleTag (r : HfChatRole) : string :=
  match r with
  | assistant => "Assistant"
  | system => "System"
  | user => "User"
  end.

Definition promptLine (msg : HfChatMessage) : string :=
  roleTag (role msg) ++ ": " ++ content msg.

Definition buildPrompt (messages : list HfChatMessage) : string :=
  let lines := map promptLine messages in
  let lines := (lines ++ ["Assistant:"])%list in
  Js.join Fusion.newline lines.

(** The request [generateAssistantText] sends. *)
Record TextRequest : Type := {
  endpoint : string;
  inputs : string;
  max_new_tokens : Z;
  return_full_text : bool;
  wait_for_model : bool
}.

Definition textRequest (env : option string) (messages : list HfChatMessage)
  : TextRequest :=
  {| endpoint := "/api/hf/models/" ++ getTextModel env;
     inputs := buildPrompt messages;
     max_new_tokens := 220;
     return_full_text := false;
     wait_for_model := true |}.

(** [generateAssistantText], given the service's reply to that request. *)
Definition generateAssistantText
  (env : option string) (service : TextRequest -> HttpReply)
  (messages : list HfChatMessage) : Outcome string :=
  match service (textRequest env messages) with
  | Rejected e => Thrown e
  | NotOk status text statusText =>
      Thrown (statusMessage "HF Inference text error" status text statusText)
  | Ok data =>
      let generated :=
        match data with
        | JArray _ => getMember "generated_text" (getFirst (Some data))
        | _ => getMember "generated_text" (Some data)
        end in
      let fromGenerated :=
        match generated with
        | Some (JString g) => if Js.truthy (Js.trim g) then Some (Js.trim g) else None
        | _ => None
        end in
      let fromData :=
        match data with
        | JString d => if Js.truthy (Js.trim d) then Some (Js.trim d) else None
        | _ => None
        end in
      match fromGenerated, fromData with
      | Some text, _ => Returned text
      | None, Some text => Returned text
      | None, None => Thrown "HF text model returned no output"
      end
  end.

End TextService.

(** ** Generation gateway: [aspectToSize], [generateFromGraph], the shim, and
    the generator panel's [handleAction] *)

Module Generation.

Inductive AspectRatio : Type := Square | Portrait | Landscape | Widescreen.
Inductive Resolution : Type := R1K | R2K | R4K.

(** The string a ratio stands for in the source. *)
Definition ratioName (a : AspectRatio) : string :=
  match a with
  | Square => "1:1"
  | Portrait => "3:4"
  | Landscape => "4:3"
  | Widescreen => "16:9"
  end.

(** [Math.round(x)] as a number again. *)
Definition round (x : float) : float :=
  match JsNum.Math_round x with
  | JsNum.IsNaN => PrimFloat.nan
  | JsNum.IsInfinity false => PrimFloat.infinity
  | JsNum.IsInfinity true => PrimFloat.neg_infinity
  | JsNum.IsInteger z => JsNum.ofZ z
  end.

Record Size : Type := { width : float; height : float }.

Definition aspectToSize (aspectRatio : AspectRatio) (resolution : Resolution) : Size :=
  let base : float :=
    match resolution with
    | R1K => 1024%float
    | R2K => 1536%float
    | R4K => 1536%float
    end in
  match aspectRatio with
  | Square => {| width := base; height := base |}
  | Portrait => {| width := round ((base * 3) / 4)%float; height := base |}
  | Landscape => {| width := base; height := round ((base * 3) / 4)%float |}
  | Widescreen => {| width := base; height := round ((base * 9) / 16)%float |}
  end.

(** The two numbers of a ratio, width first. *)
Definition ratioTerms (a : AspectRatio) : Z * Z :=
  match a with
  | Square => (1, 1)
  | Portrait => (3, 4)
  | Landscape => (4, 3)
  | Widescreen => (16, 9)
  end.

(** The request [generateFromGraph] sends: the endpoint and the payload.
    [_userPrompt], [_referenceImages] and [_inputImages] are not used. *)
Record ImageRequest : Type := {
  endpoint : string;
  inputs : string;
  parameters : Size;
  wait_for_model : bool
}.

Definition DEFAULT_FLUX_MODEL_ID : string := "runwayml/stable-diffusion-v1-5".

Definition getFluxModelId (VITE_HF_FLUX_MODEL : option string) : string :=
  Js.orElse VITE_HF_FLUX_MODEL DEFAULT_FLUX_MODEL_ID.

Definition imageRequest
  (env : option string) (_userPrompt fusedPrompt : string)
  (_referenceImages _inputImages : list string)
  (aspectRatio : AspectRatio) (resolution : Resolution) : ImageRequest :=
  {| endpoint := "/api/hf/models/" ++ getFluxModelId env;
     inputs := fusedPrompt;
     parameters := aspectToSize aspectRatio resolution;
     wait_for_model := true |}.

(** What the image service answers: a failed [fetch], a non-2xx status, or a
    blob, whose reading by [blobToDataUrl] may itself fail. *)
Inductive ImageReply : Type :=
| FetchRejected (message : string)
| Refused (status : Z) (text statusText : string)
| Blob (dataUrl : Outcome string).

Definition show (n : Z) : string := NilZero.string_of_int (Z.to_int n).

Definition generateFromGraph
  (env : option string) (service : ImageRequest -> ImageReply)
  (_userPrompt fusedPrompt : string) (_referenceImages _inputImages : list string)
  (aspectRatio : AspectRatio) (resolution : Resolution) : Outcome string :=
  match service (imageRequest env _userPrompt fusedPrompt _referenceImages _inputImages
                   aspectRatio resolution) with
  | FetchRejected e => Thrown e
  | Refused status text statusText =>
      let hint :=
        if (status =? 404) || (status =? 403)
        then "(Check model access on Hugging Face or set VITE_HF_FLUX_MODEL to an accessible model such as black-forest-labs/FLUX.1-dev.)"
        else "" in
      Thrown (Js.trim ("HF Inference error (" ++ show status ++ "): "
                       ++ (if Js.truthy text then text else statusText) ++ " " ++ hint))
  | Blob dataUrl => dataUrl
  end.

(** The shim's [editImage] and [generateStyledImage]; the omitted arguments
    take their defaults. *)
Definition editImage
  (env : option string) (service : ImageRequest -> ImageReply)
  (base64Images : list string) (prompt : string) : Outcome string :=
  generateFromGraph env service prompt prompt [] base64Images Square R1K.

Definition generateStyledImage
  (env : option string) (service : ImageRequest -> ImageReply)
  (prompt fused : string) (refs : list string) (ar : AspectRatio) : Outcome string :=
  generateFromGraph env service prompt fused refs [] ar R1K.

(** The generator panel's [handleAction]: its inputs, and the prompts and
    requests it builds. *)
Inductive Mode : Type := GENERATE | EDIT.

Record Panel : Type := {
  prompt : string;
  negativePrompt : string;
  mode : Mode;
  transformCreativity : float;
  intensity : float;
  attachments : list string;
  aspectRatio : AspectRatio;
  resolution : Resolution
}.

Definition augmentedPrompt (p : Panel) : string :=
  let augmented := prompt p in
  let augmented :=
    if Js.truthy (negativePrompt p)
    then augmented ++ " (Exclude: " ++ negativePrompt p ++ ")"
    else augmented in
  match mode p with
  | EDIT =>
      let creativityLabel :=
        if PrimFloat.ltb (transformCreativity p) 0.3
        then "Keep strict adherence to structure."
        else if PrimFloat.ltb 0.7 (transformCreativity p)
        then "Allow significant creative freedom."
        else "Balanced transformation." in
      augmented ++ " [Instruction: " ++ creativityLabel ++ "]"
  | GENERATE => augmented
  end.

(** A [StyleProfile] seen as [styleData]. *)
Definition styleDataOf (profile : Profile.StyleProfile) : Fusion.StyleData :=
  {| Fusion.palette := Some (Profile.palette profile);
     Fusion.colorPalette := None;
     Fusion.moods := Some (Profile.moods profile);
     Fusion.moodKeywords := None;
     Fusion.visualTechnique := Some (Profile.visualTechnique profile) |}.

Definition fusedOf (profile : Profile.StyleProfile) (p : Panel) : string :=
  Fusion.performReasoning (augmentedPrompt p) (Some (styleDataOf profile)) (intensity p).

(** The styled request, and the raw one of the comparison. *)
Definition styledRequest (env : option string) (profile : Profile.StyleProfile) (p : Panel)
  : ImageRequest :=
  imageRequest env (prompt p) (fusedOf profile p) (Profile.referenceImages profile)
    (attachments p) (aspectRatio p) (resolution p).

Definition rawRequest (env : option string) (p : Panel) : ImageRequest :=
  imageRequest env (prompt p) (prompt p) [] (attachments p) (aspectRatio p) (resolution p).

End Generation.

(** ** Reference collage: the grid of [createReferenceCollage] *)

Module Collage.

(** [Math.ceil(Math.sqrt(n))] for a count of images. *)
Definition ceilSqrt (n : nat) : nat :=
  let s := Nat.sqrt n in
  if (s * s =? n)%nat then s else S s.

(** [Math.ceil(n / cols)] for [cols > 0]. *)
Definition ceilDiv (n cols : nat) : nat := ((n + cols - 1) / cols)%nat.

(** The grid of [createReferenceCollage]: how many images are drawn, the
    canvas, and the top-left corner of the cell of each image, in order.
    With no image, [rows] is NaN and the canvas gets height 0. *)
Record Layout : Type := {
  drawn : nat;
  cols : nat;
  rows : nat;
  canvasWidth : nat;
  canvasHeight : nat;
  cells : list (nat * nat)
}.

Definition layout (fileCount : nat) (cellSizeOpt maxImagesOpt : option nat) : Layout :=
  let cellSize := match cellSizeOpt with Some c => c | None => 320%nat end in
  let maxImages := match maxImagesOpt with Some m => m | None => 5%nat end in
  let n := Nat.min fileCount maxImages in
  let cols := ceilSqrt n in
  let rows := match cols with O => O | _ => ceilDiv n cols end in
  {| drawn := n;
     cols := cols;
     rows := rows;
     canvasWidth := (cols * cellSize)%nat;
     canvasHeight := (rows * cellSize)%nat;
     cells :=
       map (fun i =>
              let col := (i mod cols)%nat in
              let row := (i / cols)%nat in
              ((col * cellSize)%nat, (row * cellSize)%nat)) (seq 0 n) |}.

End Collage.

(** ** Development proxy: the middleware of [hfProxyPlugin] *)

Module DevProxy.
Import Proxy.

(** The request as the development middleware sees it: [url] has lost the
    mount path [/api/hf] and still carries the query string. *)
Record DevRequest : Type := {
  url : option string;
  method : option string;
  contentType : option string;
  accept : option string;
  requestBody : list Byte.byte
}.

Inductive DevHandling : Type :=
| Next
| Respond (response : Response)
| Forward (request : UpstreamRequest) (relay : UpstreamResponse -> Response).

(** [s.split('?')[0]] and [s.includes('?') ? s.slice(s.indexOf('?')) : ''].  *)
Fixpoint beforeQuery (s : string) : string :=
  match s with
  | String c rest => if Ascii.eqb c "?" then EmptyString else String c (beforeQuery rest)
  | EmptyString => EmptyString
  end.

Fixpoint fromQuery (s : string) : string :=
  match s with
  | String c rest => if Ascii.eqb c "?" then s else fromQuery rest
  | EmptyString => EmptyString
  end.

(** The three headers set on every response before anything else. *)
Definition corsHeaders : list (string * string) :=
  [("Access-Control-Allow-Origin", "*");
   ("Access-Control-Allow-Methods", "GET,POST,PUT,PATCH,DELETE,OPTIONS");
   ("Access-Control-Allow-Headers", "Content-Type, Authorization")].

Definition devForwardHeaders (token : string) (req : DevRequest) : list (string * string) :=
  ((if isTruthy (contentType req)
    then [("Content-Type", match contentType req with Some s => s | None => "" end)]
    else [])
   ++ (if isTruthy (accept req)
       then [("Accept", match accept req with Some s => s | None => "" end)]
       else [])
   ++ [("Authorization", ("Bearer " ++ token)%string)])%list.

Definition devRelay (upstream : UpstreamResponse) : Response :=
  {| status := upstreamStatus upstream;
     headers :=
       (corsHeaders
        ++ match upstreamContentType upstream with
           | Some ct => if Js.truthy ct then [("Content-Type", ct)] else []
           | None => []
           end)%list;
     body := Some (Bytes (upstreamBytes upstream)) |}.

(** The middleware of [hfProxyPlugin]. *)
Definition devProxy (hfToken : option string) (req : DevRequest) : DevHandling :=
  match url req with
  | None => Next
  | Some EmptyString => Next
  | Some url =>
      if match method req with Some m => String.eqb m "OPTIONS" | None => false end
      then Respond {| status := 204; headers := corsHeaders; body := None |}
      else if negb (isTruthy hfToken)
      then
        Respond {| status := 500;
                   headers := (corsHeaders ++ [("Content-Type", "application/json")])%list;
                   body := Some (Text (errorJson
                                         "Missing HF_TOKEN on server. Set it in .env.local")) |}
      else
        let token := match hfToken with Some t => t | None => "" end in
        let pathOnly := beforeQuery url in
        let qs := fromQuery url in
        let target :=
          if startsWith pathOnly "/chat/completions"
          then Some ("https://router.huggingface.co/v1/chat/completions" ++ qs)
          else if startsWith pathOnly "/models/"
          then Some ("https://router.huggingface.co/models/"
                     ++ sliceFrom pathOnly (String.length "/models/") ++ qs)
          else None in
        match target with
        | None =>
            Respond {| status := 404;
                       headers :=
                         (corsHeaders ++ [("Content-Type", "application/json")])%list;
                       body := Some (Text (errorJson "Unknown HF proxy route")) |}
        | Some target =>
            let headers := devForwardHeaders token req in
            let method :=
              match method req with
              | Some m => if Js.truthy m then m else "GET"
              | None => "GET"
              end in
            let body :=
              if String.eqb method "GET" || String.eqb method "HEAD" then None
              else Some (requestBody req) in
            Forward {| target := target; upstreamMethod := method;
                       upstreamHeaders := headers; upstreamBody := body |}
                    devRelay
        end
  end.

(** The production request that the same HTTP request is to the Node server,
    for a URL that [new URL] leaves as it is: the full path, and the query,
    which [URL.search] gives as empty when it is a bare question mark. *)
Definition productionRequest (url : string) (req : DevRequest) : Proxy.Request :=
  {| Proxy.method := method req;
     Proxy.pathname := "/api/hf" ++ beforeQuery url;
     Proxy.search := if String.eqb (fromQuery url) "?" then "" else fromQuery url;
     Proxy.contentType := contentType req;
     Proxy.accept := accept req;
     Proxy.requestBody := requestBody req |}.

End DevProxy.

(** ** Profile library: the handlers of [App] *)

Module Library.
Import Profile.

Inductive ViewMode : Type := LIBRARY | CREATE.

(** The state of [App] that the profile handlers touch. *)
Record AppState : Type := {
  activeProfile : option StyleProfile;
  savedProfiles : list StyleProfile;
  viewMode : ViewMode
}.

(** [handleStyleAnalyzed] on the state: the new profile goes in front and
    becomes the active one. *)
Definition styleAnalyzed
  (analysis : Orchestrator.StyleAnalysisResponse) (images : list string)
  (uuid : string) (now : Z) (st : AppState) : AppState :=
  let newProfile := handleStyleAnalyzed analysis images uuid now in
  let updatedProfiles := newProfile :: savedProfiles st in
  {| activeProfile := Some newProfile;
     savedProfiles := updatedProfiles;
     viewMode := viewMode st |}.

Definition handleProfileUpdate (updatedProfile : StyleProfile) (st : AppState) : AppState :=
  let updatedList :=
    map (fun p => if String.eqb (id p) (id updatedProfile) then updatedProfile else p)
      (savedProfiles st) in
  {| activeProfile := Some updatedProfile;
     savedProfiles := updatedList;
     viewMode := viewMode st |}.

(** [deleteProfile]; [confirmed] is the answer to the [confirm] dialog. *)
Definition deleteProfile (confirmed : bool) (id0 : string) (st : AppState) : AppState :=
  if confirmed
  then
    let updatedList := filter (fun p => negb (String.eqb (id p) id0)) (savedProfiles st) in
    {| activeProfile := activeProfile st;
       savedProfiles := updatedList;
       viewMode := if (List.length updatedList =? 0)%nat then CREATE else viewMode st |}
  else st.

Definition returnToDashboard (st : AppState) : AppState :=
  {| activeProfile := None;
     savedProfiles := savedProfiles st;
     viewMode := if (0 <? List.length (savedProfiles st))%nat then LIBRARY else CREATE |}.

End Library.

(** ** Style editor: the mood handlers *)

Module Editor.

Inductive Direction : Type := left | right.

(** A JavaScript array whose slots may be empty or hold [undefined]. *)
Definition Slots : Type := list (option string).

(** [a[i]]. *)
Definition read (a : Slots) (i : nat) : option string :=
  match nth_error a i with
  | Some v => v
  | None => None
  end.

(** [a[i] = v]: past the end, the array grows and the gap stays empty. *)
Fixpoint write (a : Slots) (i : nat) (v : option string) : Slots :=
  match i, a with
  | O, [] => [v]
  | O, _ :: rest => v :: rest
  | S k, [] => None :: write [] k v
  | S k, x :: rest => x :: write rest k v
  end.

(** [moveMood]: the next value of the [moods] state. *)
Definition moveMood (moods : list string) (index : nat) (direction : Direction) : Slots :=
  let atEdge :=
    match direction with
    | left => (index =? 0)%nat
    | right => (S index =? List.length moods)%nat
    end in
  if atEdge then map Some moods
  else
    let newMoods := map Some moods in
    let swapIndex :=
      match direction with
      | left => (index - 1)%nat
      | right => (index + 1)%nat
      end in
    let first := read newMoods swapIndex in
    let second := read newMoods index in
    write (write newMoods index first) swapIndex second.

(** The mood input's [onKeyDown] on Enter, and the remove button. *)
Definition addMood (moods : list string) (moodInput : string) : list string :=
  if Js.truthy (Js.trim moodInput) then (moods ++ [Js.trim moodInput])%list else moods.

Fixpoint removeAt {A} (l : list A) (idx : nat) : list A :=
  match l, idx with
  | [], _ => []
  | _ :: rest, O => rest
  | x :: rest, S k => x :: removeAt rest k
  end.

End Editor.

(** ** Style uploader: [handleFileChange], [removeImage], [handleAnalyze] *)

Module Uploader.

(** A chosen file is what it decodes to. *)
Definition File : Type := Quantizer.Decoded.

Record UploaderState : Type := {
  images : list File;
  previews : list string;
  error : option string
}.

Definition initial : UploaderState := {| images := []; previews := []; error := None |}.

(** [handleFileChange] with the files of the input; [createObjectURL] is the
    browser's. *)
Definition handleFileChange
  (createObjectURL : File -> string) (newFiles : list File) (st : UploaderState)
  : UploaderState :=
  let combinedFiles := firstn 5 (images st ++ newFiles) in
  {| images := combinedFiles;
     previews := map createObjectURL combinedFiles;
     error := None |}.

(** [removeImage]: [splice(index, 1)] on both arrays. *)
Definition removeImage (index : nat) (st : UploaderState) : UploaderState :=
  {| images := Editor.removeAt (images st) index;
     previews := Editor.removeAt (previews st) index;
     error := error st |}.

(** [handleAnalyze]: the files handed to [analyzeStyle], or the error shown. *)
Definition handleAnalyze (st : UploaderState) : UploaderState * option (list File) :=
  if (List.length (images st) <? 3)%nat
  then ({| images := images st; previews := previews st;
           error := Some "Please upload at least 3 images for accurate style extraction." |},
        None)
  else ({| images := images st; previews := previews st; error := None |},
        Some (images st)).

(** The states the two list handlers can reach. *)
Inductive reachable : UploaderState -> Prop :=
| reach_initial : reachable initial
| reach_add (createObjectURL : File -> string) (newFiles : list File) (st : UploaderState) :
    reachable st -> reachable (handleFileChange createObjectURL newFiles st)
| reach_remove (index : nat) (st : UploaderState) :
    reachable st -> reachable (removeImage index st)
| reach_analyze (st : UploaderState) :
    reachable st -> reachable (fst (handleAnalyze st)).

End Uploader.

(** * Properties *)

(** ** Strings and numbers *)

Module JsFacts.

Lemma append_assoc (a b c : string) : (a ++ b) ++ c = a ++ (b ++ c).
Proof. induction a as [| x a IH]; simpl; [reflexivity | rewrite IH; reflexivity]. Qed.

Lemma trimStart_keeps (c : ascii) (rest : string) :
  Js.isWhiteSpace c = false -> Js.trimStart (String c rest) = String c rest.
Proof. intros H. simpl. rewrite H. reflexivity. Qed.

Lemma trimEnd_keeps (s : string) (c : ascii) :
  Js.isWhiteSpace c = false ->
  Js.trimEnd (s ++ String c "") = s ++ String c "".
Proof.
  intros H. induction s as [| x s IH].
  - simpl. rewrite H. reflexivity.
  - cbn [append Js.trimEnd]. rewrite IH.
    destruct (s ++ String c "") eqn:E; [destruct s; discriminate | reflexivity].
Qed.

(** Trimming changes nothing when the string starts with a character that is
    not white space and ends with a full stop. *)
Lemma trim_keeps (c : ascii) (rest : string) :
  Js.isWhiteSpace c = false ->
  Js.endsWithPeriod (String c rest) ->
  Js.trim (String c rest) = String c rest.
Proof.
  intros Hc [x Hx]. unfold Js.trim. rewrite (trimStart_keeps c rest Hc).
  rewrite Hx. apply trimEnd_keeps. reflexivity.
Qed.

Lemma endsWithPeriod_app (a b : string) :
  Js.endsWithPeriod b -> Js.endsWithPeriod (a ++ b).
Proof. intros [x ->]. exists (a ++ x). symmetry. apply append_assoc. Qed.

Lemma SFcompare_antisym (x y : spec_float) :
  SFcompare x y = Some Lt -> SFcompare y x = Some Gt.
Proof.
  destruct x as [sx | sx | | sx mx ex], y as [sy | sy | | sy my ey]; cbn;
    try discriminate; try (destruct sx; discriminate || reflexivity);
    try (destruct sy; discriminate || reflexivity);
    try (destruct sx, sy; discriminate || reflexivity).
  change (Pos.compare_cont Eq mx my) with (Pos.compare mx my).
  change (Pos.compare_cont Eq my mx) with (Pos.compare my mx).
  rewrite (Z.compare_antisym ex ey), (Pos.compare_antisym mx my).
  destruct sx, sy; try discriminate; try reflexivity;
    destruct (ex ?= ey)%Z; cbn; try discriminate; try reflexivity;
    destruct (mx ?= my)%positive; cbn; discriminate || reflexivity.
Qed.

(** [a >= b] excludes [a < b]. *)
Lemma geb_not_ltb (a b : float) : JsNum.geb a b = true -> PrimFloat.ltb a b = false.
Proof.
  unfold JsNum.geb. rewrite FloatAxioms.leb_spec, FloatAxioms.ltb_spec. unfold SFleb, SFltb. intros H.
  destruct (SFcompare (Prim2SF a) (Prim2SF b)) as [[ | | ] |] eqn:E; try reflexivity.
  apply SFcompare_antisym in E. rewrite E in H. discriminate.
Qed.

End JsFacts.

(** ** Color quantizer *)

Module QuantizerFacts.
Import Quantizer.

Lemma Map_set_keys_in (key v : Z) (h : Histogram) (k : Z) :
  In k (map fst (Map_set key v h)) <-> k = key \/ In k (map fst h).
Proof.
  induction h as [| [k0 w] rest IH]; simpl.
  - intuition.
  - destruct (Z.eqb_spec k0 key) as [-> | Hne]; simpl; [intuition |].
    rewrite IH. intuition.
Qed.

Lemma Map_set_NoDup (key v : Z) (h : Histogram) :
  NoDup (map fst h) -> NoDup (map fst (Map_set key v h)).
Proof.
  induction h as [| [k0 w] rest IH]; simpl; intros Hnd.
  - constructor; [intros [] | constructor].
  - inversion Hnd as [| ? ? Hnotin Hrest]; subst.
    destruct (Z.eqb_spec k0 key) as [-> | Hne]; simpl.
    + constructor; assumption.
    + constructor; [| apply IH; assumption].
      rewrite Map_set_keys_in. intros [E | Hin]; [congruence | contradiction].
Qed.

Lemma at_range (data : list byte) (i : nat) (v : Z) :
  at_ data i = Some v -> 0 <= v < 256.
Proof.
  unfold at_. destruct (nth_error data i) as [b |]; [| discriminate].
  intros [= <-]. pose proof (Byte.to_N_bounded b). lia.
Qed.

Lemma shr_range (x : option Z) :
  (forall v, x = Some v -> 0 <= v < 256) -> 0 <= shr x 4 < 16.
Proof.
  intros H. destruct x as [v |]; simpl; [| lia].
  specialize (H v eq_refl). rewrite Z.shiftr_div_pow2 by lia.
  change (2 ^ 4) with 16. split.
  - apply Z.div_pos; lia.
  - apply Z.div_lt_upper_bound; lia.
Qed.

Lemma lor_below (n a b : Z) :
  0 <= n -> 0 <= a < 2 ^ n -> 0 <= b < 2 ^ n -> 0 <= Z.lor a b < 2 ^ n.
Proof.
  intros Hn Ha Hb.
  assert (Hpos : 0 <= Z.lor a b) by (apply Z.lor_nonneg; lia).
  split; [exact Hpos |].
  destruct (Z.eq_dec a 0) as [-> | Ha0]; [rewrite Z.lor_0_l; lia |].
  destruct (Z.eq_dec b 0) as [-> | Hb0]; [rewrite Z.lor_0_r; lia |].
  assert (Hne : Z.lor a b <> 0) by (rewrite Z.lor_eq_0_iff; lia).
  apply Z.log2_lt_pow2; [lia |].
  rewrite Z.log2_lor by lia.
  apply Z.max_lub_lt; apply Z.log2_lt_pow2; lia.
Qed.

Lemma bucketKey_valid (r g b : option Z) :
  (forall v, r = Some v -> 0 <= v < 256) ->
  (forall v, g = Some v -> 0 <= v < 256) ->
  (forall v, b = Some v -> 0 <= v < 256) ->
  validKey (bucketKey r g b).
Proof.
  intros Hr Hg Hb. unfold bucketKey, validKey.
  pose proof (shr_range r Hr). pose proof (shr_range g Hg). pose proof (shr_range b Hb).
  change 4096 with (2 ^ 12).
  rewrite !Z.shiftl_mul_pow2 by lia.
  apply lor_below; [lia | | change (2^12) with 4096; lia].
  apply lor_below; [lia | |]; change (2^12) with 4096; change (2^8) with 256; change (2^4) with 16; lia.
Qed.

Lemma Map_set_wellFormed (key v : Z) (h : Histogram) :
  validKey key -> wellFormed h -> wellFormed (Map_set key v h).
Proof.
  intros Hk [Hnd Hval]. split; [apply Map_set_NoDup; exact Hnd |].
  rewrite Forall_forall in *. intros k Hin.
  apply Map_set_keys_in in Hin. destruct Hin as [-> | Hin]; auto.
Qed.

Lemma samplePixel_wellFormed (data : list byte) (h : Histogram) (i : nat) :
  wellFormed h -> wellFormed (samplePixel data h i).
Proof.
  intros Hwf. unfold samplePixel.
  destruct (ltNum (at_ data (i + 3)) 220); [exact Hwf |].
  apply Map_set_wellFormed; [| exact Hwf].
  apply bucketKey_valid; intros v Hv; eapply at_range; exact Hv.
Qed.

Lemma sampleImage_wellFormed (h : Histogram) (data : list byte) :
  wellFormed h -> wellFormed (sampleImage h data).
Proof.
  unfold sampleImage. generalize (offsets (List.length data)) as l.
  intros l. revert h. induction l as [| i l IH]; intros h Hwf; simpl.
  - exact Hwf.
  - apply IH. apply samplePixel_wellFormed. exact Hwf.
Qed.

Lemma buildHistogram_wellFormed (files : list Decoded) (h h' : Histogram) :
  wellFormed h -> buildHistogram files h = Returned h' -> wellFormed h'.
Proof.
  revert h. induction files as [| f files IH]; intros h Hwf; simpl.
  - intros [= <-]. exact Hwf.
  - destruct f as [e | | data]; [discriminate | apply IH; exact Hwf |].
    apply IH. apply sampleImage_wellFormed. exact Hwf.
Qed.

Lemma buildHistogram_returns (files : list Decoded) (h : Histogram) :
  Forall loads files -> exists h', buildHistogram files h = Returned h'.
Proof.
  intros Hall. revert h. induction Hall as [| f files Hf Hall IH]; intros h; simpl.
  - eexists; reflexivity.
  - destruct f as [e | | data]; [contradiction | apply IH | apply IH].
Qed.

Lemma insertDesc_perm (e : Z * Z) (l : list (Z * Z)) : Permutation (e :: l) (insertDesc e l).
Proof.
  induction l as [| x rest IH]; simpl; [reflexivity |].
  destruct (snd x <? snd e); [reflexivity |].
  rewrite perm_swap. constructor. exact IH.
Qed.

Lemma insertDesc_sorted (e : Z * Z) (l : list (Z * Z)) :
  StronglySorted descending l -> StronglySorted descending (insertDesc e l).
Proof.
  induction l as [| x rest IH]; simpl; intros Hs.
  - constructor; constructor.
  - inversion Hs as [| ? ? Hrest Hall]; subst.
    destruct (Z.ltb_spec (snd x) (snd e)) as [Hlt | Hge].
    + constructor; [exact Hs |].
      constructor; [unfold descending; lia |].
      rewrite Forall_forall in *. intros y Hy. specialize (Hall y Hy).
      unfold descending in *. lia.
    + constructor; [apply IH; exact Hrest |].
      rewrite Forall_forall in *. intros y Hy.
      apply (Permutation_in _ (Permutation_sym (insertDesc_perm e rest))) in Hy.
      destruct Hy as [<- | Hy]; [unfold descending; lia | apply Hall; exact Hy].
Qed.

Lemma sortDesc_acc (l acc : list (Z * Z)) :
  StronglySorted descending acc ->
  StronglySorted descending (fold_left (fun a e => insertDesc e a) l acc)
  /\ Permutation (acc ++ l) (fold_left (fun a e => insertDesc e a) l acc).
Proof.
  revert acc. induction l as [| e l IH]; intros acc Hs; simpl.
  - rewrite app_nil_r. split; [exact Hs | reflexivity].
  - destruct (IH (insertDesc e acc) (insertDesc_sorted e acc Hs)) as [Hs' Hp].
    split; [exact Hs' |].
    rewrite <- Hp. rewrite <- insertDesc_perm.
    rewrite <- Permutation_middle. reflexivity.
Qed.

Lemma sortDesc_sorted (l : list (Z * Z)) : StronglySorted descending (sortDesc l).
Proof. apply sortDesc_acc. constructor. Qed.

Lemma sortDesc_perm (l : list (Z * Z)) : Permutation l (sortDesc l).
Proof. apply (sortDesc_acc l []). constructor. Qed.

Lemma allKeys_check : forallb keyChecks allKeys = true.
Proof. vm_compute. reflexivity. Qed.

Lemma validKey_in (key : Z) : validKey key -> In key allKeys.
Proof.
  intros [Hlo Hhi]. unfold allKeys. apply in_map_iff.
  exists (Z.to_nat key). split; [lia |].
  apply in_seq. lia.
Qed.

Lemma keyChecks_valid (key : Z) : validKey key -> keyChecks key = true.
Proof.
  intros Hk. apply (proj1 (forallb_forall keyChecks allKeys) allKeys_check).
  apply validKey_in. exact Hk.
Qed.

Lemma hexOfKey_inj (k1 k2 : Z) :
  validKey k1 -> validKey k2 -> hexOfKey k1 = hexOfKey k2 -> k1 = k2.
Proof.
  intros H1 H2 E.
  pose proof (keyChecks_valid k1 H1) as C1. pose proof (keyChecks_valid k2 H2) as C2.
  unfold keyChecks in C1, C2.
  apply andb_prop in C1. destruct C1 as [C1 _]. apply andb_prop in C1. destruct C1 as [C1 _].
  apply andb_prop in C2. destruct C2 as [C2 _]. apply andb_prop in C2. destruct C2 as [C2 _].
  apply Z.eqb_eq in C1. apply Z.eqb_eq in C2. rewrite <- C1, <- C2, E. reflexivity.
Qed.

Lemma includes_false (hex : string) (colors : list string) :
  ~ In hex colors -> includes hex colors = false.
Proof.
  intros Hn. unfold includes. destruct (existsb (String.eqb hex) colors) eqn:E; [| reflexivity].
  apply existsb_exists in E. destruct E as [x [Hin Heq]].
  apply String.eqb_eq in Heq. subst. contradiction.
Qed.

Lemma collect_firstn (count : nat) (top : list (Z * Z)) (colors : list string) :
  (List.length colors < count)%nat ->
  NoDup (colors ++ map hexOfEntry top) ->
  collect count top colors
  = (colors ++ firstn (count - List.length colors) (map hexOfEntry top))%list.
Proof.
  revert colors. induction top as [| [key n] rest IH]; intros colors Hlen Hnd; simpl.
  - rewrite firstn_nil, app_nil_r. reflexivity.
  - assert (Hnotin : ~ In (hexOfKey key) colors).
    { intros Hin. apply NoDup_remove_2 in Hnd. apply Hnd.
      apply in_or_app. left. exact Hin. }
    rewrite (includes_false _ _ Hnotin).
    rewrite length_app. cbn [List.length].
    destruct (count - List.length colors)%nat as [| d] eqn:Ed; [lia |].
    cbn [firstn]. unfold hexOfEntry at 1. cbn [fst].
    destruct (Nat.leb_spec count (List.length colors + 1)) as [Hle | Hgt].
    + assert (d = 0)%nat by lia. subst d. reflexivity.
    + rewrite IH.
      * rewrite length_app. cbn [List.length]. rewrite <- app_assoc. cbn [app].
        replace (count - (List.length colors + 1))%nat with d by lia. reflexivity.
      * rewrite length_app. cbn [List.length]. lia.
      * rewrite <- app_assoc. exact Hnd.
Qed.

Lemma NoDup_firstn {A} (n : nat) (l : list A) : NoDup l -> NoDup (firstn n l).
Proof.
  intros H. rewrite <- (firstn_skipn n l) in H.
  apply NoDup_app_remove_r in H. exact H.
Qed.

Lemma In_firstn {A} (n : nat) (l : list A) (x : A) : In x (firstn n l) -> In x l.
Proof.
  intros H. rewrite <- (firstn_skipn n l). apply in_or_app. left. exact H.
Qed.

Lemma StronglySorted_firstn {A} (R : A -> A -> Prop) (n : nat) (l : list A) :
  StronglySorted R l -> StronglySorted R (firstn n l).
Proof.
  revert n. induction l as [| x l IH]; intros n Hs; destruct n; simpl;
    try constructor.
  - apply IH. inversion Hs; assumption.
  - inversion Hs as [| ? ? _ Hall]; subst.
    rewrite Forall_forall in *. intros y Hy. apply Hall. eapply In_firstn. exact Hy.
Qed.

Lemma paletteOfHistogram_firstn (h : Histogram) (count : nat) :
  wellFormed h ->
  paletteOfHistogram h count = map hexOfEntry (firstn count (sortDesc h)).
Proof.
  intros [Hnd Hval]. unfold paletteOfHistogram.
  destruct count as [| c].
  - reflexivity.
  - rewrite collect_firstn.
    + cbn [app List.length]. rewrite Nat.sub_0_r.
      rewrite firstn_map, firstn_firstn.
      replace (Nat.min (S c) (Nat.max (S c * 3) (S c))) with (S c) by lia.
      reflexivity.
    + cbn [List.length]. lia.
    + cbn [app].
      assert (Hall : NoDup (map hexOfEntry (sortDesc h))).
      { assert (Hp : Permutation (map fst h) (map fst (sortDesc h)))
          by (apply Permutation_map, sortDesc_perm).
        pose proof (Permutation_NoDup Hp Hnd) as Hnd'.
        assert (Hval' : Forall validKey (map fst (sortDesc h))).
        { rewrite Forall_forall in *. intros k Hk. apply Hval.
          apply (Permutation_in _ (Permutation_sym Hp)). exact Hk. }
        clear Hp. revert Hnd' Hval'. generalize (sortDesc h) as l.
        induction l as [| e l IHl]; simpl; intros Hn Hv; [constructor |].
        inversion Hn as [| ? ? Hnotin Hrest]; subst.
        inversion Hv as [| ? ? Hve Hvl]; subst.
        constructor; [| apply IHl; assumption].
        intros Hin. apply in_map_iff in Hin. destruct Hin as [e' [Heq Hin']].
        apply Hnotin. apply in_map_iff. exists e'. split; [| exact Hin'].
        apply hexOfKey_inj; [| exact Hve | exact Heq].
        rewrite Forall_forall in Hvl. apply Hvl. apply in_map. exact Hin'. }
      rewrite <- firstn_map. apply NoDup_firstn. exact Hall.
Qed.

Lemma Map_get_set (key v : Z) (h : Histogram) (k : Z) :
  Map_get k (Map_set key v h) = if key =? k then Some v else Map_get k h.
Proof.
  induction h as [| [k0 w] rest IH]; simpl.
  - destruct (key =? k); reflexivity.
  - destruct (Z.eqb_spec k0 key) as [-> | Hne]; simpl.
    + destruct (key =? k); reflexivity.
    + rewrite IH. destruct (Z.eqb_spec k0 k) as [-> | Hne'].
      * destruct (Z.eqb_spec key k); [congruence | reflexivity].
      * reflexivity.
Qed.

Lemma counts_step (h : Histogram) (keys : list Z) (key : Z) :
  counts h keys ->
  counts (Map_set key (getOrZero key h + 1) h) (keys ++ [key]).
Proof.
  intros Hc k. rewrite Map_get_set, count_occ_app. cbn [count_occ].
  destruct (Z.eqb_spec key k) as [-> | Hne].
  - destruct (Z.eq_dec k k) as [_ | N]; [| contradiction].
    unfold getOrZero. rewrite (Hc k).
    destruct (Nat.eqb_spec (count_occ Z.eq_dec keys k) 0) as [E | E].
    + rewrite E. reflexivity.
    + replace (count_occ Z.eq_dec keys k + 1 =? 0)%nat with false
        by (symmetry; apply Nat.eqb_neq; lia).
      f_equal. lia.
  - destruct (Z.eq_dec key k) as [E | _]; [contradiction |].
    rewrite Nat.add_0_r. apply Hc.
Qed.

Lemma counts_samplePixel (data : list byte) (h : Histogram) (keys : list Z) (i : nat) :
  counts h keys -> counts (samplePixel data h i) (keys ++ sampleKey data i).
Proof.
  intros Hc. unfold samplePixel, sampleKey.
  destruct (ltNum (at_ data (i + 3)) 220).
  - rewrite app_nil_r. exact Hc.
  - apply counts_step. exact Hc.
Qed.

Lemma counts_sampleImage (data : list byte) (h : Histogram) (keys : list Z) :
  counts h keys -> counts (sampleImage h data) (keys ++ sampledKeys (ImageData data)).
Proof.
  unfold sampleImage, sampledKeys. generalize (offsets (List.length data)) as l.
  intros l. revert h keys. induction l as [| i l IH]; intros h keys Hc; simpl.
  - rewrite app_nil_r. exact Hc.
  - rewrite app_assoc. apply IH. apply counts_samplePixel. exact Hc.
Qed.

Lemma counts_buildHistogram (files : list Decoded) (h h' : Histogram) (keys : list Z) :
  counts h keys -> buildHistogram files h = Returned h' ->
  counts h' (keys ++ flat_map sampledKeys files).
Proof.
  revert h keys. induction files as [| f files IH]; intros h keys Hc; simpl.
  - intros [= <-]. rewrite app_nil_r. exact Hc.
  - destruct f as [e | | data]; [discriminate | apply IH; exact Hc |].
    intros Hb. rewrite app_assoc. eapply IH; [| exact Hb].
    apply counts_sampleImage. exact Hc.
Qed.

Lemma Map_get_In (h : Histogram) (key n : Z) :
  NoDup (map fst h) -> In (key, n) h -> Map_get key h = Some n.
Proof.
  induction h as [| [k0 w] rest IH]; simpl; intros Hnd Hin; [contradiction |].
  inversion Hnd as [| ? ? Hnotin Hrest]; subst.
  destruct Hin as [[= -> ->] | Hin].
  - rewrite Z.eqb_refl. reflexivity.
  - destruct (Z.eqb_spec k0 key) as [-> | Hne]; [| apply IH; assumption].
    exfalso. apply Hnotin. apply in_map_iff. exists (key, n). split; [reflexivity | exact Hin].
Qed.

Lemma histogram_frequency (files : list Decoded) (h : Histogram) (key n : Z) :
  buildHistogram files [] = Returned h -> In (key, n) h ->
  n = Z.of_nat (frequency files key) /\ (0 < frequency files key)%nat.
Proof.
  intros Hb Hin.
  pose proof (buildHistogram_wellFormed files [] h) as Hwf.
  destruct Hwf as [Hnd _]; [split; constructor | exact Hb |].
  assert (Hc : counts h ([] ++ flat_map sampledKeys files)).
  { eapply counts_buildHistogram; [| exact Hb]. intros k. reflexivity. }
  cbn [app] in Hc. specialize (Hc key).
  rewrite (Map_get_In h key n Hnd Hin) in Hc. fold (frequency files key) in Hc.
  destruct (Nat.eqb_spec (frequency files key) 0) as [E | E]; [discriminate |].
  injection Hc as ->. split; [reflexivity | lia].
Qed.

Lemma Map_get_Some_In (h : Histogram) (key n : Z) :
  Map_get key h = Some n -> In (key, n) h.
Proof.
  induction h as [| [k0 w] rest IH]; simpl; [discriminate |].
  destruct (Z.eqb_spec k0 key) as [-> | Hne].
  - intros [= ->]. left. reflexivity.
  - intros H. right. apply IH. exact H.
Qed.

Lemma histogram_keys (files : list Decoded) (h : Histogram) (key : Z) :
  buildHistogram files [] = Returned h ->
  In key (map fst h) <-> (0 < frequency files key)%nat.
Proof.
  intros Hb. split.
  - intros Hin. apply in_map_iff in Hin. destruct Hin as [[k n] [Hk Hin]].
    simpl in Hk. subst k. eapply histogram_frequency; eassumption.
  - intros Hpos.
    assert (Hc : counts h ([] ++ flat_map sampledKeys files)).
    { eapply counts_buildHistogram; [| exact Hb]. intros k. reflexivity. }
    cbn [app] in Hc. specialize (Hc key). fold (frequency files key) in Hc.
    destruct (Nat.eqb_spec (frequency files key) 0) as [E | E]; [lia |].
    apply Map_get_Some_In in Hc. apply in_map_iff.
    eexists. split; [| exact Hc]. reflexivity.
Qed.

Lemma solid_nth (pixel : list byte) (n q c : nat) :
  List.length pixel = 4%nat -> (q < n)%nat -> (c < 4)%nat ->
  nth_error (solid pixel n) (4 * q + c) = nth_error pixel c.
Proof.
  intros Hlen. revert q. induction n as [| n IH]; intros q Hq Hc; [lia |].
  unfold solid. cbn [repeat List.concat]. destruct q as [| q].
  - rewrite Nat.mul_0_r, Nat.add_0_l. apply nth_error_app1. lia.
  - rewrite nth_error_app2 by lia.
    replace (4 * S q + c - List.length pixel)%nat with (4 * q + c)%nat by lia.
    apply IH; lia.
Qed.

Lemma solid_length (pixel : list byte) (n : nat) :
  List.length pixel = 4%nat -> List.length (solid pixel n) = (4 * n)%nat.
Proof.
  intros Hlen. unfold solid. induction n as [| n IH]; [reflexivity |].
  cbn [repeat List.concat]. rewrite length_app, IH, Hlen. lia.
Qed.

Lemma samplePixel_solid3366cc (n j : nat) (h : Histogram) :
  (3 * j < n)%nat ->
  samplePixel (solid solid3366cc n) h (stride * j)
  = Map_set 876 (getOrZero 876 h + 1) h.
Proof.
  intros Hj. unfold samplePixel, at_.
  replace (stride * j + 3)%nat with (4 * (3 * j) + 3)%nat by (unfold stride; lia).
  replace (stride * j + 0)%nat with (4 * (3 * j) + 0)%nat by (unfold stride; lia).
  replace (stride * j + 1)%nat with (4 * (3 * j) + 1)%nat by (unfold stride; lia).
  replace (stride * j + 2)%nat with (4 * (3 * j) + 2)%nat by (unfold stride; lia).
  rewrite !solid_nth by (reflexivity || lia).
  reflexivity.
Qed.

Lemma sampleImage_solid3366cc (n : nat) :
  (0 < n)%nat ->
  exists m, 0 < m /\ sampleImage [] (solid solid3366cc n) = [(876, m)].
Proof.
  intros Hn. unfold sampleImage, offsets. rewrite solid_length by reflexivity.
  assert (Hbound : forall j, In j (seq 0 ((4 * n + (stride - 1)) / stride)) -> (3 * j < n)%nat).
  { intros j Hj. apply in_seq in Hj. destruct Hj as [_ Hj]. cbn [Nat.add] in Hj.
    unfold stride in *. change (4 * 3 - 1)%nat with 11%nat in *. change (4 * 3)%nat with 12%nat in *.
    pose proof (Nat.Div0.mul_div_le (4 * n + 11) 12). lia. }
  assert (Hne : seq 0 ((4 * n + (stride - 1)) / stride) <> []).
  { unfold stride. change (4 * 3 - 1)%nat with 11%nat. change (4 * 3)%nat with 12%nat.
    assert (1 <= (4 * n + 11) / 12)%nat by (apply Nat.div_le_lower_bound; lia).
    destruct ((4 * n + 11) / 12)%nat; [lia | discriminate]. }
  revert Hbound Hne. generalize (seq 0 ((4 * n + (stride - 1)) / stride)) as js.
  intros js Hbound Hne. destruct js as [| j js]; [contradiction |].
  cbn [map fold_left]. rewrite samplePixel_solid3366cc by (apply Hbound; left; reflexivity).
  cbn [Map_set getOrZero Map_get Z.add].
  assert (Hgen : forall (l : list nat) (m : Z),
             0 < m -> (forall j, In j l -> (3 * j < n)%nat) ->
             exists m', 0 < m' /\
               fold_left (samplePixel (solid solid3366cc n)) (map (fun j => (stride * j)%nat) l) [(876, m)]
               = [(876, m')]).
  { induction l as [| a l IHl]; intros m Hm Hb.
    - exists m. split; [exact Hm | reflexivity].
    - cbn [map fold_left]. rewrite samplePixel_solid3366cc by (apply Hb; left; reflexivity).
      unfold getOrZero. cbn [Map_set Map_get]. rewrite Z.eqb_refl.
      apply IHl; [lia |]. intros j' Hj'. apply Hb. right. exact Hj'. }
  apply Hgen; [lia |]. intros j' Hj'. apply Hbound. right. exact Hj'.
Qed.

Lemma solid_palette (n count : nat) :
  (0 < n)%nat -> (0 < count)%nat ->
  extractDominantPalette [ImageData (solid solid3366cc n)] count = Returned ["#3868c8"%string].
Proof.
  intros Hn Hc. unfold extractDominantPalette. cbn [buildHistogram bindOutcome].
  destruct (sampleImage_solid3366cc n Hn) as [m [Hm ->]].
  unfold paletteOfHistogram. cbn [sortDesc fold_left insertDesc].
  destruct count as [| c]; [lia |].
  replace (Nat.max (S c * 3) (S c)) with (S (S c * 3 - 1)) by lia.
  cbn [firstn collect includes existsb app List.length].
  replace (S c <=? 1)%nat with (S c <=? 1)%nat by reflexivity.
  destruct (S c <=? 1)%nat; rewrite ?firstn_nil; reflexivity.
Qed.

(** Two buckets: the more frequent one comes first, whatever the order of
    first appearance; a transparent pixel is not counted. *)
Example two_buckets :
  extractDominantPalette
    [ImageData ([x10; x20; x30; xff] ++ solid [x00; x00; x00; x00] 2
                ++ solid solid3366cc 4)%list;
     ImageData (solid solid3366cc 1)] 5
  = Returned ["#3868c8"; "#182838"].
Proof. vm_compute. reflexivity. Qed.

(** A file that fails to load makes the whole call throw. *)
Example load_failure :
  extractDominantPalette
    [ImageData (solid solid3366cc 1); LoadFailed "Failed to load image"] 5
  = Thrown "Failed to load image".
Proof. reflexivity. Qed.

(** C5: [extractDominantPalette files count] returns whenever every file
    loads, and what it returns is: the center colors of the first [count]
    histogram entries in the sorted order, hence at most [count] entries, each
    a lowercase [#rrggbb] string equal to [level * 16 + 8] on every channel of
    a bucket of the histogram, without duplicates, in an order where the
    buckets' pixel counts never increase; and it has fewer than [count]
    entries only if the histogram has fewer than [count] distinct buckets. *)
Theorem dominant_palette (files : list Decoded) (count : nat) :
  (Forall loads files ->
   exists colors, extractDominantPalette files count = Returned colors)
  /\ (forall colors,
        extractDominantPalette files count = Returned colors ->
        exists histogram top,
          buildHistogram files [] = Returned histogram
          /\ NoDup (map fst histogram)
          /\ (forall key, In key (map fst histogram) <-> (0 < frequency files key)%nat)
          /\ top = firstn count (sortDesc histogram)
          /\ colors = map hexOfEntry top
          /\ (forall key n,
                In (key, n) top ->
                In (key, n) histogram
                /\ n = Z.of_nat (frequency files key)
                /\ 0 <= key / 256 < 16 /\ 0 <= key / 16 mod 16 < 16 /\ 0 <= key mod 16 < 16
                /\ hexOfKey key
                   = rgbToHex (key / 256 * 16 + 8) (key / 16 mod 16 * 16 + 8)
                       (key mod 16 * 16 + 8))
          /\ StronglySorted descending top
          /\ (List.length colors <= count)%nat
          /\ Forall (fun c => isLowerHexColor c = true) colors
          /\ NoDup colors
          /\ List.length colors = Nat.min count (List.length histogram)
          /\ ((List.length colors < count)%nat ->
              (List.length histogram < count)%nat)).
Proof.
  split.
  - intros Hall. unfold extractDominantPalette.
    destruct (buildHistogram_returns files [] Hall) as [h ->].
    eexists. reflexivity.
  - intros colors Hrun. unfold extractDominantPalette in Hrun.
    destruct (buildHistogram files []) as [h | e] eqn:Hb; [| discriminate].
    cbn [bindOutcome] in Hrun. injection Hrun as <-.
    assert (Hwf : wellFormed h).
    { apply (buildHistogram_wellFormed files [] h); [split; constructor | exact Hb]. }
    rewrite (paletteOfHistogram_firstn h count Hwf).
    destruct Hwf as [Hnd Hval].
    assert (Htop : forall e, In e (firstn count (sortDesc h)) -> In e h).
    { intros e He. apply In_firstn in He.
      apply (Permutation_in _ (Permutation_sym (sortDesc_perm h))). exact He. }
    assert (Hkey : forall e, In e (firstn count (sortDesc h)) -> validKey (fst e)).
    { intros e He. rewrite Forall_forall in Hval. apply Hval. apply in_map.
      apply Htop. exact He. }
    assert (Hlen : List.length (map hexOfEntry (firstn count (sortDesc h)))
                   = Nat.min count (List.length h)).
    { rewrite length_map, length_firstn.
      rewrite <- (Permutation_length (sortDesc_perm h)). reflexivity. }
    exists h, (firstn count (sortDesc h)).
    split; [reflexivity |].
    split; [exact Hnd |].
    split; [intros key; apply histogram_keys; exact Hb |].
    split; [reflexivity |].
    split; [reflexivity |].
    split.
    { intros key n Hin. pose proof (Htop _ Hin) as Hh.
      pose proof (Hkey _ Hin) as Hv. cbn [fst] in Hv.
      split; [exact Hh |].
      split; [eapply histogram_frequency; eassumption |].
      pose proof (keyChecks_valid key Hv) as Hc. unfold keyChecks in Hc.
      apply andb_prop in Hc. destruct Hc as [_ Hc]. apply String.eqb_eq in Hc.
      unfold validKey in Hv.
      repeat split; try exact Hc;
        try (apply Z.div_pos; lia); try (apply Z.div_lt_upper_bound; lia);
        try (apply Z.mod_pos_bound; lia). }
    split; [apply StronglySorted_firstn, sortDesc_sorted |].
    split; [rewrite Hlen; lia |].
    split.
    { rewrite Forall_forall. intros c Hc. apply in_map_iff in Hc.
      destruct Hc as [e [<- He]].
      pose proof (keyChecks_valid (fst e) (Hkey e He)) as Hc. unfold keyChecks in Hc.
      apply andb_prop in Hc. destruct Hc as [Hc _].
      apply andb_prop in Hc. destruct Hc as [_ Hc]. exact Hc. }
    split.
    { assert (Hk : NoDup (map fst (firstn count (sortDesc h)))).
      { rewrite <- firstn_map. apply NoDup_firstn.
        apply (Permutation_NoDup (Permutation_map fst (sortDesc_perm h))). exact Hnd. }
      revert Hkey Hk. generalize (firstn count (sortDesc h)) as l.
      induction l as [| e l IHl]; intros Hkey Hk; cbn [map]; [constructor |].
      inversion Hk as [| ? ? Hnotin Hrest]; subst.
      constructor.
      - intros Hin. apply in_map_iff in Hin. destruct Hin as [e' [Heq Hin']].
        apply Hnotin. apply in_map_iff. exists e'. split; [| exact Hin'].
        apply hexOfKey_inj; [apply Hkey; right; exact Hin' | apply Hkey; left; reflexivity
                            | exact Heq].
      - apply IHl; [| exact Hrest]. intros e' He'. apply Hkey. right. exact He'. }
    split; [exact Hlen |].
    rewrite Hlen. lia.
Qed.

Lemma dominant_palette_witness :
  Forall loads [ImageData (solid solid3366cc 7); NoContext]
  /\ exists colors,
      extractDominantPalette [ImageData (solid solid3366cc 7); NoContext] 5
      = Returned colors.
Proof.
  assert (Hall : Forall loads [ImageData (solid solid3366cc 7); NoContext])
    by (repeat constructor).
  split; [exact Hall |].
  exact (proj1 (dominant_palette [ImageData (solid solid3366cc 7); NoContext] 5) Hall).
Defined.

(** C6: a buffer made only of the pixel [#3366cc] with alpha 255 (at least one
    pixel, at least one color asked for) gives a palette whose first entry
    decodes to a color within 8 of [0x33], [0x66], [0xcc] on the three
    channels. *)
Theorem solid_color_roundtrip (n count : nat) :
  (0 < n)%nat -> (0 < count)%nat ->
  exists first rest,
    extractDominantPalette [ImageData (solid solid3366cc n)] count
    = Returned (first :: rest)
    /\ PrimFloat.leb (PrimFloat.abs (Mood.r (Mood.decodeHex first) - 51)) 8 = true
    /\ PrimFloat.leb (PrimFloat.abs (Mood.g (Mood.decodeHex first) - 102)) 8 = true
    /\ PrimFloat.leb (PrimFloat.abs (Mood.b (Mood.decodeHex first) - 204)) 8 = true.
Proof.
  intros Hn Hc. exists "#3868c8"%string, [].
  split; [apply solid_palette; assumption |].
  vm_compute. repeat split.
Qed.

Lemma solid_color_roundtrip_witness :
  exists first rest,
    extractDominantPalette [ImageData (solid solid3366cc 36)] 5
    = Returned (first :: rest)
    /\ PrimFloat.leb (PrimFloat.abs (Mood.r (Mood.decodeHex first) - 51)) 8 = true
    /\ PrimFloat.leb (PrimFloat.abs (Mood.g (Mood.decodeHex first) - 102)) 8 = true
    /\ PrimFloat.leb (PrimFloat.abs (Mood.b (Mood.decodeHex first) - 204)) 8 = true.
Proof. apply (solid_color_roundtrip 36 5); lia. Defined.

End QuantizerFacts.

(** ** Style inference orchestrator *)

Module OrchestratorFacts.
Import Orchestrator.

Lemma merge_list (external : option (list string)) (fallback : list string) :
  match external with
  | Some l => if (0 <? List.length l)%nat then l else fallback
  | None => fallback
  end = externalOr (nonEmptyList external) fallback.
Proof. destruct external as [[| x l] |]; reflexivity. Qed.

Lemma merge_string (external : option string) (fallback : string) :
  Js.orElse external fallback = externalOr (nonEmptyString external) fallback.
Proof. destruct external as [[| c s] |]; reflexivity. Qed.

(** Once the palette stage has returned, [analyzeStyle] returns the merge of
    what the three best-effort stages left behind. *)
Lemma analyzeStyle_returns
  (services : Services) (files : list Quantizer.Decoded) (onProgress : bool)
  (log : list string) (palette : list string) :
  Quantizer.extractDominantPalette files 5 = Returned palette ->
  analyzeStyle services files onProgress log
  = (Returned (mergeStyle (vlmOutput services (collageOutput services)) palette
                 (toLocaleDateString services)
                 (embeddingOutput services (collageOutput services))),
     (log ++ progressLabels onProgress)%list).
Proof.
  intros Hp. unfold analyzeStyle, bind, report, await, tryCatch, ret.
  rewrite Hp. unfold collageOutput, vlmOutput, embeddingOutput, vlmStage, embeddingStage.
  unfold mergeStyle. rewrite <- !merge_list, <- !merge_string.
  assert (Hlog : (if onProgress
                  then (((log ++ ["Pre-processing: Normalizing inputs..."])
                           ++ ["Feature Extraction: Analyzing visual DNA..."])
                          ++ ["Vectorization: Creating style embedding..."])%list
                  else log) = (log ++ progressLabels onProgress)%list).
  { destruct onProgress; cbn [progressLabels];
      [rewrite <- !app_assoc; reflexivity | rewrite app_nil_r; reflexivity]. }
  destruct (createReferenceCollage services) as [c | e].
  - destruct (extractStyleWithVlm (vlmService services (dataUrl c)) (safeJsonParse services))
      as [v | e1];
      destruct (extractImageEmbedding (embedService services (blob c))) as [emb | e2];
      destruct onProgress; cbn [progressLabels]; rewrite <- ?app_assoc, ?app_nil_r;
      reflexivity.
  - destruct onProgress; cbn [progressLabels]; rewrite <- ?app_assoc, ?app_nil_r;
      reflexivity.
Qed.

(** The palette stage is not guarded: when it throws, so does [analyzeStyle]. *)
Lemma analyzeStyle_throws
  (services : Services) (files : list Quantizer.Decoded) (onProgress : bool)
  (log : list string) (e : string) :
  Quantizer.extractDominantPalette files 5 = Thrown e ->
  fst (analyzeStyle services files onProgress log) = Thrown e.
Proof.
  intros Hp. unfold analyzeStyle, bind, report, await. rewrite Hp. reflexivity.
Qed.

Lemma keepSome_accepted (items : list Json) :
  keepSome (map normalizeHex items) = acceptedHexes items.
Proof.
  induction items as [| e items IH]; [reflexivity |].
  cbn [map keepSome acceptedHexes flat_map]. fold (acceptedHexes items).
  destruct (normalizeHex e) as [h |] eqn:E; [| exact IH].
  assert (Ht : Js.truthy h = true).
  { destruct e; try discriminate. cbn [normalizeHex] in E.
    destruct (negb _); [discriminate |]. injection E as <-. reflexivity. }
  rewrite Ht, IH. reflexivity.
Qed.

Lemma normalizeHex_spec (e : Json) (h : string) :
  normalizeHex e = Some h <->
  exists s,
    e = JString s
    /\ isSixHexDigits (stripHash (strip0x (Js.trim s))) = true
    /\ h = "#" ++ Js.toLowerCase (stripHash (strip0x (Js.trim s))).
Proof.
  split.
  - destruct e; try discriminate. cbn [normalizeHex].
    destruct (isSixHexDigits _) eqn:E; [| discriminate].
    intros [= <-]. exists s. repeat split. exact E.
  - intros [s [-> [E ->]]]. cbn [normalizeHex]. rewrite E. reflexivity.
Qed.

Lemma lowerChar_hex (c : ascii) :
  Js.isHexDigit c = true -> Quantizer.isLowerHexDigit (Js.lowerChar c) = true.
Proof.
  destruct c as [[] [] [] [] [] [] [] []]; vm_compute; intros H;
    first [reflexivity | discriminate].
Qed.

Lemma toLowerCase_hex (d : string) :
  Js.forallChars Js.isHexDigit d = true ->
  Js.forallChars Quantizer.isLowerHexDigit (Js.toLowerCase d) = true
  /\ String.length (Js.toLowerCase d) = String.length d.
Proof.
  induction d as [| c d IH]; [split; reflexivity |].
  cbn [Js.forallChars Js.toLowerCase String.length]. intros H.
  apply andb_prop in H. destruct H as [Hc Hd]. destruct (IH Hd) as [IH1 IH2].
  rewrite (lowerChar_hex c Hc), IH1, IH2. split; reflexivity.
Qed.

Lemma normalizeHex_canonical (e : Json) (h : string) :
  normalizeHex e = Some h -> Quantizer.isLowerHexColor h = true.
Proof.
  intros H. apply normalizeHex_spec in H. destruct H as [s [_ [E ->]]].
  unfold isSixHexDigits in E. apply andb_prop in E. destruct E as [Elen Ehex].
  destruct (toLowerCase_hex _ Ehex) as [H1 H2].
  cbn [append Quantizer.isLowerHexColor]. rewrite H1, H2, Elen. reflexivity.
Qed.

Example normalizeHex_examples :
  map normalizeHex
    [JString "#FF5733"; JString "0x#AaBbCc"; JString " 33ff57 "; JString "zzzzzz";
     JString "#0xaabbcc"; JString "#abc"; JNumber 255; JNull]
  = [Some "#ff5733"; Some "#aabbcc"; Some "#33ff57"; None; None; None; None; None].
Proof. vm_compute. reflexivity. Qed.

(** C1, as the code has it: for each of the six fields the VLM stage can
    supply, the merged result takes the stage's value when it is present and
    non-empty, and otherwise the deterministic palette, the moods inferred
    from it, or the fixed defaults ("Custom", "Reference-guided", "Custom
    Style " followed by the current date, and the fixed sentence).  The
    stage's palette is the external list with every entry dropped that is not
    a string of exactly six hexadecimal digits once surrounding white space,
    then an optional [0x] or [0X], then an optional [#] are stripped; a kept
    entry is stored in normal form, [#] followed by the six digits in lower
    case. *)
Theorem merge_precedence
  (services : Services) (files : list Quantizer.Decoded) (onProgress : bool)
  (log : list string) (palette : list string) :
  Quantizer.extractDominantPalette files 5 = Returned palette ->
  exists result log',
    analyzeStyle services files onProgress log = (Returned result, log')
    /\ (let vlm := vlmOutput services (collageOutput services) in
        colorPalette result = externalOr (nonEmptyList (vlm_colorPalette vlm)) palette
        /\ moodKeywords result
           = externalOr (nonEmptyList (vlm_moodKeywords vlm))
               (Mood.inferMoodKeywords palette)
        /\ artisticStyle result
           = externalOr (nonEmptyString (vlm_artisticStyle vlm)) "Custom"
        /\ visualTechnique result
           = externalOr (nonEmptyString (vlm_visualTechnique vlm)) "Reference-guided"
        /\ suggestedName result
           = externalOr (nonEmptyString (vlm_suggestedName vlm))
               ("Custom Style " ++ toLocaleDateString services)
        /\ reasoning result
           = externalOr (nonEmptyString (vlm_reasoning vlm))
               "Extracted a dominant palette and inferred basic mood from reference images.")
    /\ (forall parsed items,
          getMember "colorPalette" (Some parsed) = Some (JArray items) ->
          vlm_colorPalette (styleOfParsed parsed) = Some (acceptedHexes items))
    /\ (forall e h,
          normalizeHex e = Some h <->
          exists s,
            e = JString s
            /\ isSixHexDigits (stripHash (strip0x (Js.trim s))) = true
            /\ h = "#" ++ Js.toLowerCase (stripHash (strip0x (Js.trim s))))
    /\ (forall e h, normalizeHex e = Some h -> Quantizer.isLowerHexColor h = true).
Proof.
  intros Hp. do 2 eexists.
  split; [apply analyzeStyle_returns; exact Hp |].
  split; [repeat split |].
  split.
  { intros parsed items Hm. unfold styleOfParsed. cbn [vlm_colorPalette].
    rewrite Hm, keepSome_accepted. reflexivity. }
  split; [exact normalizeHex_spec | exact normalizeHex_canonical].
Qed.

(** The specification's example: four valid entries and ["zzzzzz"]. *)
Lemma merge_precedence_witness :
  Quantizer.extractDominantPalette sampleFiles 5 = Returned ["#3868c8"]
  /\ exists result log',
      analyzeStyle
        (sampleServices (Returned sampleCollage)
           (paletteReply ["#ff5733"; "#33ff57"; "zzzzzz"; "#3357ff"; "#f0f0f0"]))
        sampleFiles true [] = (Returned result, log')
      /\ colorPalette result = ["#ff5733"; "#33ff57"; "#3357ff"; "#f0f0f0"].
Proof.
  assert (Hp : Quantizer.extractDominantPalette sampleFiles 5 = Returned ["#3868c8"])
    by (vm_compute; reflexivity).
  split; [exact Hp |].
  destruct (merge_precedence
              (sampleServices (Returned sampleCollage)
                 (paletteReply ["#ff5733"; "#33ff57"; "zzzzzz"; "#3357ff"; "#f0f0f0"]))
              sampleFiles true [] ["#3868c8"] Hp)
    as [result [log' [Hrun [[Hpalette _] _]]]].
  exists result, log'. split; [exact Hrun |].
  rewrite Hpalette. vm_compute. reflexivity.
Defined.

(** With the filter as the specification words it, the statement fails
    twice.  Four valid entries written in upper case come out in lower case,
    not as they were; and an entry padded with white space is kept, so the
    external list wins where the stated filter would have left nothing and
    fallen back. *)
Lemma merge_precedence_stated_fails :
  (exists result log',
      analyzeStyle
        (sampleServices (Returned sampleCollage)
           (paletteReply ["#FF5733"; "#33FF57"; "zzzzzz"; "#3357FF"; "#F0F0F0"]))
        sampleFiles true [] = (Returned result, log')
      /\ statedPalette ["#FF5733"; "#33FF57"; "zzzzzz"; "#3357FF"; "#F0F0F0"] ["#3868c8"]
         = ["#FF5733"; "#33FF57"; "#3357FF"; "#F0F0F0"]
      /\ colorPalette result = ["#ff5733"; "#33ff57"; "#3357ff"; "#f0f0f0"]
      /\ colorPalette result
         <> statedPalette ["#FF5733"; "#33FF57"; "zzzzzz"; "#3357FF"; "#F0F0F0"]
              ["#3868c8"])
  /\ (exists result log',
        analyzeStyle
          (sampleServices (Returned sampleCollage) (paletteReply [" #aabbcc "]))
          sampleFiles true [] = (Returned result, log')
        /\ statedPalette [" #aabbcc "] ["#3868c8"] = ["#3868c8"]
        /\ colorPalette result = ["#aabbcc"]
        /\ colorPalette result <> statedPalette [" #aabbcc "] ["#3868c8"]).
Proof.
  split; do 2 eexists; (split; [vm_compute; reflexivity |]);
    (split; [vm_compute; reflexivity |]); (split; [reflexivity |]);
    vm_compute; discriminate.
Qed.

(** C2, as the code has it: once the deterministic palette stage has
    returned, [analyzeStyle] returns a complete merged result whatever the
    collage, VLM and embedding stages do, their exceptions included.  A
    failing VLM stage leaves the result as if the stage had returned [{}] and
    does not touch the embedding; a failing embedding stage leaves the
    embedding undefined and does not touch the VLM fields; a failing collage
    stage leaves no collage, and then neither later stage runs: the VLM output
    is [{}] and the embedding undefined. *)
Theorem fault_isolation
  (services : Services) (files : list Quantizer.Decoded) (onProgress : bool)
  (log : list string) (palette : list string) :
  Quantizer.extractDominantPalette files 5 = Returned palette ->
  exists result log',
    analyzeStyle services files onProgress log = (Returned result, log')
    /\ result
       = mergeStyle (vlmOutput services (collageOutput services)) palette
           (toLocaleDateString services)
           (embeddingOutput services (collageOutput services))
    /\ (forall e,
          createReferenceCollage services = Thrown e ->
          result = mergeStyle emptyVlm palette (toLocaleDateString services) None)
    /\ (forall c e,
          createReferenceCollage services = Returned c ->
          vlmStage services c = Thrown e ->
          result
          = mergeStyle emptyVlm palette (toLocaleDateString services)
              (embeddingOutput services (Some c)))
    /\ (forall c e,
          createReferenceCollage services = Returned c ->
          embeddingStage services c = Thrown e ->
          result
          = mergeStyle (vlmOutput services (Some c)) palette
              (toLocaleDateString services) None).
Proof.
  intros Hp. do 2 eexists.
  split; [apply analyzeStyle_returns; exact Hp |].
  split; [reflexivity |].
  unfold collageOutput. split; [| split].
  - intros e Hc. rewrite Hc. reflexivity.
  - intros c e Hc Hv. rewrite Hc. cbn [vlmOutput]. rewrite Hv. reflexivity.
  - intros c e Hc He. rewrite Hc. cbn [embeddingOutput]. rewrite He. reflexivity.
Qed.

(** All three stages failing at once: the result is still complete. *)
Lemma fault_isolation_witness :
  Quantizer.extractDominantPalette sampleFiles 5 = Returned ["#3868c8"]
  /\ exists result log',
      analyzeStyle
        {| createReferenceCollage := Returned sampleCollage;
           vlmService := fun _ => NotOk 503 "" "Service Unavailable";
           safeJsonParse := fun _ => JObject [];
           embedService := fun _ => Rejected "Failed to fetch";
           toLocaleDateString := "11/2/2026" |}
        sampleFiles true [] = (Returned result, log')
      /\ result = mergeStyle emptyVlm ["#3868c8"] "11/2/2026" None.
Proof.
  assert (Hp : Quantizer.extractDominantPalette sampleFiles 5 = Returned ["#3868c8"])
    by (vm_compute; reflexivity).
  split; [exact Hp |].
  destruct (fault_isolation
              {| createReferenceCollage := Returned sampleCollage;
                 vlmService := fun _ => NotOk 503 "" "Service Unavailable";
                 safeJsonParse := fun _ => JObject [];
                 embedService := fun _ => Rejected "Failed to fetch";
                 toLocaleDateString := "11/2/2026" |}
              sampleFiles true [] ["#3868c8"] Hp)
    as [result [log' [Hrun [Hmerge _]]]].
  exists result, log'. split; [exact Hrun |].
  rewrite Hmerge. reflexivity.
Defined.

(** Isolation does not hold for the collage stage: here neither the VLM
    stage nor the embedding stage fails (each would return a value for any
    collage), yet the failed collage build alone forces the palette back to
    the fallback and the embedding to undefined. *)
Lemma collage_failure_reaches_other_stages :
  let parsed := paletteReply ["#ff5733"; "#33ff57"; "#3357ff"; "#f0f0f0"] in
  let failing := sampleServices (Thrown "Could not get canvas context") parsed in
  let working := sampleServices (Returned sampleCollage) parsed in
  (forall c,
      vlmStage failing c = vlmStage working c
      /\ (exists v, vlmStage failing c = Returned v
                    /\ vlm_colorPalette v
                       = Some ["#ff5733"; "#33ff57"; "#3357ff"; "#f0f0f0"])
      /\ embeddingStage failing c = Returned (Some [0.5; 0.25]%float))
  /\ (exists result log',
        analyzeStyle working sampleFiles true [] = (Returned result, log')
        /\ colorPalette result = ["#ff5733"; "#33ff57"; "#3357ff"; "#f0f0f0"]
        /\ embedding result = Some [0.5; 0.25]%float)
  /\ (exists result log',
        analyzeStyle failing sampleFiles true [] = (Returned result, log')
        /\ colorPalette result = ["#3868c8"]
        /\ embedding result = None).
Proof.
  cbv zeta. split; [| split].
  - intros c. split; [reflexivity |].
    split; [eexists; split; vm_compute; reflexivity | vm_compute; reflexivity].
  - do 2 eexists. split; [vm_compute; reflexivity |]. split; reflexivity.
  - do 2 eexists. split; [vm_compute; reflexivity |]. split; reflexivity.
Qed.

End OrchestratorFacts.

(** ** Prompt fusion *)

Module FusionFacts.
Import Fusion.

(** C7: whenever the intensity clamped into [0,1] is below 0.15, prompt fusion
    ([performReasoning], and [fusePrompt] which forwards to it) returns the user
    prompt unchanged, whatever the style object. *)
Theorem fusion_identity_below_threshold
  (userPrompt : string) (styleData : option StyleData) (intensity : float) :
  PrimFloat.ltb (JsNum.clamp intensity 0 1) 0.15 = true ->
  performReasoning userPrompt styleData intensity = userPrompt
  /\ fusePrompt userPrompt styleData intensity = userPrompt.
Proof.
  intros Hlow. unfold fusePrompt, performReasoning.
  rewrite Hlow. split; reflexivity.
Qed.

Lemma fusion_identity_below_threshold_witness :
  PrimFloat.ltb (JsNum.clamp 0.1 0 1) 0.15 = true
  /\ fusePrompt "draw a cat" (Some inkWash) 0.1 = "draw a cat".
Proof.
  split.
  - vm_compute. reflexivity.
  - apply (fusion_identity_below_threshold "draw a cat" (Some inkWash) 0.1).
    vm_compute. reflexivity.
Defined.

(** The instance the specification singles out: intensity 0.1. *)
Lemma fusePrompt_at_one_tenth (p : string) (styleData : option StyleData) :
  fusePrompt p styleData 0.1 = p.
Proof. reflexivity. Qed.

Lemma styleHint_shape (technique : string) (moods palette : list string) :
  styleHint technique moods palette = ""
  \/ Js.endsWithPeriod (styleHint technique moods palette).
Proof.
  unfold styleHint.
  set (A := "Technique: " ++ technique ++ ".").
  set (B := "Mood: " ++ Js.join ", " moods ++ ".").
  set (C := "Palette: " ++ Js.join ", " (firstn 5 palette) ++ ".").
  assert (HA : Js.truthy A = true) by reflexivity.
  assert (HB : Js.truthy B = true) by reflexivity.
  assert (HC : Js.truthy C = true) by reflexivity.
  assert (EA : Js.endsWithPeriod A)
    by (apply JsFacts.endsWithPeriod_app; eexists; reflexivity).
  assert (EB : Js.endsWithPeriod B)
    by (apply JsFacts.endsWithPeriod_app; eexists; reflexivity).
  assert (EC : Js.endsWithPeriod C)
    by (apply JsFacts.endsWithPeriod_app; eexists; reflexivity).
  clearbody A B C.
  destruct (Js.truthy technique), (0 <? List.length moods)%nat,
    (0 <? List.length palette)%nat;
    cbn [filter]; rewrite ?HA, ?HB, ?HC; cbn [Js.truthy filter Js.join String.concat];
    first [ left; reflexivity
          | right; repeat apply JsFacts.endsWithPeriod_app; assumption
          | right; assumption ].
Qed.

(** C8, as the code has it: whenever the intensity clamped into [0,1] is at
    least 0.15, prompt fusion returns the white-space-trimmed text made of the
    user prompt, an empty line, and the line
    [Style guidance (<strength>, <percent>%): <hint>], where the strength is
    "strict" from 0.8, "balanced" from 0.4 and "subtle" below, the percentage
    is the clamped intensity times 100 rounded, and the hint joins the
    non-empty ones of the technique, mood and palette parts.  When the prompt
    starts with a character that is not white space and the hint is not empty,
    trimming removes nothing and the result is exactly that text. *)
Theorem fusion_guidance_line
  (userPrompt : string) (styleData : option StyleData) (intensity : float) :
  JsNum.geb (JsNum.clamp intensity 0 1) 0.15 = true ->
  let safeIntensity := JsNum.clamp intensity 0 1 in
  let technique := Js.orElse (field styleData visualTechnique) "" in
  let moods := firstArray (field styleData moods) (field styleData moodKeywords) in
  let palette := firstArray (field styleData palette) (field styleData colorPalette) in
  let hint :=
    Js.join " "
      (filter Js.truthy
         [ if Js.truthy technique then "Technique: " ++ technique ++ "." else "";
           if (0 <? List.length moods)%nat
           then "Mood: " ++ Js.join ", " moods ++ "." else "";
           if (0 <? List.length palette)%nat
           then "Palette: " ++ Js.join ", " (firstn 5 palette) ++ "." else "" ]) in
  let strength :=
    if JsNum.geb safeIntensity 0.8 then "strict"
    else if JsNum.geb safeIntensity 0.4 then "balanced" else "subtle" in
  let line :=
    "Style guidance (" ++ strength ++ ", "
      ++ JsNum.integralToString (JsNum.Math_round (safeIntensity * 100)%float)
      ++ "%): " ++ hint in
  performReasoning userPrompt styleData intensity
  = Js.trim (userPrompt ++ newline ++ newline ++ line)
  /\ (forall c rest,
        userPrompt = String c rest -> Js.isWhiteSpace c = false -> hint <> "" ->
        performReasoning userPrompt styleData intensity
        = userPrompt ++ newline ++ newline ++ line).
Proof.
  intros Hhigh safeIntensity technique moods palette hint strength line.
  assert (Hrun : performReasoning userPrompt styleData intensity
                 = Js.trim (userPrompt ++ newline ++ newline ++ line)).
  { unfold performReasoning. cbv zeta.
    rewrite (JsFacts.geb_not_ltb _ _ Hhigh). reflexivity. }
  split; [exact Hrun |].
  intros c rest -> Hc Hhint. rewrite Hrun.
  change (String c rest ++ newline ++ newline ++ line)
    with (String c (rest ++ newline ++ newline ++ line)).
  apply JsFacts.trim_keeps; [exact Hc |].
  change (String c (rest ++ newline ++ newline ++ line))
    with (String c rest ++ newline ++ newline ++ line).
  unfold line. repeat apply JsFacts.endsWithPeriod_app.
  destruct (styleHint_shape technique moods palette) as [E | E]; [| exact E].
  contradiction.
Qed.

Lemma fusion_guidance_line_witness :
  JsNum.geb (JsNum.clamp 0.9 0 1) 0.15 = true
  /\ fusePrompt "draw a cat" (Some inkWash) 0.9
     = "draw a cat" ++ newline ++ newline
       ++ "Style guidance (strict, 90%): Technique: ink wash. Mood: calm. Palette: #111111.".
Proof.
  split; [vm_compute; reflexivity |].
  assert (Hhigh : JsNum.geb (JsNum.clamp 0.9 0 1) 0.15 = true)
    by (vm_compute; reflexivity).
  destruct (fusion_guidance_line "draw a cat" (Some inkWash) 0.9 Hhigh) as [_ Hexact].
  apply (Hexact "d"%char "raw a cat"); [reflexivity | reflexivity | discriminate].
Defined.

(** Without the trimming the statement fails: on a prompt with leading white
    space the result does not even start with the user prompt. *)
Lemma fusion_drops_leading_space :
  JsNum.geb (JsNum.clamp 0.9 0 1) 0.15 = true
  /\ String.prefix " draw a cat" (performReasoning " draw a cat" (Some inkWash) 0.9) = false
  /\ performReasoning " draw a cat" (Some inkWash) 0.9
     = "draw a cat" ++ newline ++ newline
       ++ "Style guidance (strict, 90%): Technique: ink wash. Mood: calm. Palette: #111111.".
Proof. vm_compute. repeat split. Qed.

(** With nothing to hint at, the space after the colon goes as well. *)
Lemma fusion_empty_hint :
  performReasoning "draw a cat" None 0.5
  = "draw a cat" ++ newline ++ newline ++ "Style guidance (balanced, 50%):".
Proof. vm_compute. reflexivity. Qed.

End FusionFacts.

Module ProfileFacts.
Import Profile.

Lemma commits_version (p q : StyleProfile) :
  commits p q -> version q = version p + 1.
Proof. intros H. destruct H; reflexivity. Qed.

Lemma commits_history (p q : StyleProfile) :
  commits p q ->
  exists snapshot, history q = snapshot :: history p /\ records snapshot p.
Proof.
  intros H. destruct H; simpl; eexists; split; try reflexivity; split; reflexivity.
Qed.

Lemma evolves_version (p : StyleProfile) (prior : list StyleProfile) (q : StyleProfile) :
  evolves p prior q -> version q = version p + Z.of_nat (List.length prior).
Proof.
  induction 1 as [| prior q q' Hev IH Hstep].
  - simpl. lia.
  - apply commits_version in Hstep. cbn [List.length]. lia.
Qed.

Lemma evolves_history (p : StyleProfile) (prior : list StyleProfile) (q : StyleProfile) :
  evolves p prior q ->
  exists snapshots,
    history q = (snapshots ++ history p)%list /\ Forall2 records snapshots prior.
Proof.
  induction 1 as [| prior q q' Hev IH Hstep].
  - exists []. split; [reflexivity | constructor].
  - destruct IH as [snapshots [Hhist Hrec]].
    destruct (commits_history _ _ Hstep) as [snapshot [Hq' Hsnap]].
    exists (snapshot :: snapshots). split.
    + rewrite Hq', Hhist. reflexivity.
    + constructor; assumption.
Qed.


Lemma sample_evolves : evolves sampleProfile [sampleEdited; sampleProfile] sampleReverted.
Proof.
  apply evolves_step with (q := sampleEdited).
  - apply evolves_step with (q := sampleProfile).
    + apply evolves_refl.
    + apply commit_save.
  - apply commit_revert.
Qed.


(** C10: an edit and a revert both leave [id] and [createdAt] as they were; an
    edit also leaves [referenceImages], [embedding] and [reasoning] as they
    were, and replaces name, description, visual technique, palette and moods
    by the form's values, the version by its successor and the history by the
    extended one. *)
Theorem edit_revert_frame
  (p : StyleProfile) (form : EditState) (snapshot : StyleSnapshot) (now : Z) :
  (id (handleSave p form now) = id p
   /\ createdAt (handleSave p form now) = createdAt p
   /\ referenceImages (handleSave p form now) = referenceImages p
   /\ embedding (handleSave p form now) = embedding p
   /\ reasoning (handleSave p form now) = reasoning p)
  /\ (name (handleSave p form now) = edit_name form
      /\ description (handleSave p form now) = edit_description form
      /\ visualTechnique (handleSave p form now) = edit_technique form
      /\ palette (handleSave p form now) = edit_palette form
      /\ moods (handleSave p form now) = edit_moods form
      /\ version (handleSave p form now) = version p + 1
      /\ tl (history (handleSave p form now)) = history p)
  /\ (id (handleRevert p snapshot now) = id p
      /\ createdAt (handleRevert p snapshot now) = createdAt p).
Proof. repeat split. Qed.

End ProfileFacts.

Module ProxyFacts.
Import Proxy.

Lemma not_options (req : Request) :
  method req <> Some "OPTIONS" ->
  match method req with Some m => String.eqb m "OPTIONS" | None => false end = false.
Proof.
  intros H. destruct (method req) as [m |]; [| reflexivity].
  apply String.eqb_neq. intros E. apply H. rewrite E. reflexivity.
Qed.

Lemma bearer_attached (t : string) (req : Request) :
  In ("Authorization", "Bearer " ++ t) (forwardHeaders t req).
Proof. unfold forwardHeaders. left. reflexivity. Qed.

(** C9: a preflight OPTIONS request gets 204 with the CORS headers and no
    body; any other request gets a 500 JSON error when the server-side
    credential is missing; with a credential, a path starting with
    [/api/hf/chat/completions] or with [/api/hf/models/] is forwarded (to the
    provider's chat-completions URL, or to [models/<rest of the path>]) with
    the credential attached as a bearer token, and every other path gets a
    404 JSON error. *)
Theorem proxy_boundary (token : option string) (req : Request) :
  (method req = Some "OPTIONS" ->
   proxyHf token req =
     Respond {| status := 204;
                headers :=
                  [("Access-Control-Allow-Origin", "*");
                   ("Access-Control-Allow-Methods", "GET,POST,PUT,PATCH,DELETE,OPTIONS");
                   ("Access-Control-Allow-Headers", "Content-Type, Authorization")];
                body := None |})
  /\ (method req <> Some "OPTIONS" ->
      isTruthy token = false ->
      proxyHf token req =
        Respond {| status := 500;
                   headers := [("Content-Type", "application/json")];
                   body := Some (Text (errorJson "Missing HF_TOKEN on server")) |})
  /\ (method req <> Some "OPTIONS" ->
      forall t, token = Some t -> Js.truthy t = true ->
      (startsWith (pathname req) "/api/hf/chat/completions" = true ->
       exists m b,
         proxyHf token req =
           Forward {| target := "https://router.huggingface.co/v1/chat/completions"
                                ++ search req;
                      upstreamMethod := m;
                      upstreamHeaders := forwardHeaders t req;
                      upstreamBody := b |} relayResponse
         /\ In ("Authorization", "Bearer " ++ t) (forwardHeaders t req))
      /\ (startsWith (pathname req) "/api/hf/chat/completions" = false ->
          startsWith (pathname req) "/api/hf/models/" = true ->
          exists m b,
            proxyHf token req =
              Forward {| target := "https://router.huggingface.co/models/"
                                   ++ sliceFrom (pathname req) 15 ++ search req;
                         upstreamMethod := m;
                         upstreamHeaders := forwardHeaders t req;
                         upstreamBody := b |} relayResponse
            /\ In ("Authorization", "Bearer " ++ t) (forwardHeaders t req))
      /\ (startsWith (pathname req) "/api/hf/chat/completions" = false ->
          startsWith (pathname req) "/api/hf/models/" = false ->
          proxyHf token req =
            Respond {| status := 404;
                       headers := [("Content-Type", "application/json")];
                       body := Some (Text (errorJson "Unknown HF proxy route")) |})).
Proof.
  split; [| split].
  - intros Hm. unfold proxyHf. rewrite Hm. reflexivity.
  - intros Hm Htok. unfold proxyHf. rewrite (not_options req Hm), Htok. reflexivity.
  - intros Hm t -> Ht. unfold proxyHf. rewrite (not_options req Hm).
    cbn [isTruthy]. rewrite Ht. cbn [negb].
    split; [| split].
    + intros Hchat. rewrite Hchat. do 2 eexists.
      split; [reflexivity | apply bearer_attached].
    + intros Hchat Hmodels. rewrite Hchat, Hmodels. do 2 eexists.
      split; [reflexivity | apply bearer_attached].
    + intros Hchat Hmodels. rewrite Hchat, Hmodels. reflexivity.
Qed.

Lemma proxy_boundary_witness :
  exists m b,
    proxyHf sampleToken sampleRequest =
      Forward {| target := "https://router.huggingface.co/models/foo/bar";
                 upstreamMethod := m;
                 upstreamHeaders := forwardHeaders "hf_secret" sampleRequest;
                 upstreamBody := b |} relayResponse
    /\ In ("Authorization", "Bearer hf_secret") (forwardHeaders "hf_secret" sampleRequest).
Proof.
  destruct (proxy_boundary sampleToken sampleRequest) as [_ [_ H]].
  assert (Hm : method sampleRequest <> Some "OPTIONS") by discriminate.
  destruct (H Hm "hf_secret" eq_refl eq_refl) as [_ [Hmodels _]].
  exact (Hmodels eq_refl eq_refl).
Defined.

(** The credential never reaches the client: the relayed response carries the
    upstream status, content type and bytes, and one CORS header. *)
Lemma relay_has_no_credential (upstream : UpstreamResponse) (k v : string) :
  In (k, v) (headers (relayResponse upstream)) ->
  k = "Content-Type" \/ k = "Access-Control-Allow-Origin".
Proof.
  unfold relayResponse. cbn [headers]. intros H.
  apply in_app_or in H. destruct H as [H | H].
  - destruct (upstreamContentType upstream) as [ct |]; [| contradiction].
    destruct (Js.truthy ct); [| contradiction].
    destruct H as [H | []]. inversion H. left. reflexivity.
  - destruct H as [H | []]. inversion H. right. reflexivity.
Qed.

End ProxyFacts.

(** ** Mood heuristic *)

Module MoodFacts.
Import Mood.

Lemma fold_addRgb (channel : Rgb -> float) (palette : list string) (acc : Rgb) :
  (channel = r \/ channel = g \/ channel = b) ->
  channel (fold_left addRgb (map decodeHex palette) acc)
  = fold_left (fun a hex => (a + channel (decodeHex hex))%float) palette (channel acc).
Proof.
  intros Hc. revert acc. induction palette as [| hex palette IH]; intros acc.
  - reflexivity.
  - cbn [map fold_left]. rewrite IH.
    destruct Hc as [-> | [-> | ->]]; reflexivity.
Qed.

Lemma inferMoodKeywords_nonempty (hex : string) (rest : list string) :
  inferMoodKeywords (hex :: rest)
  = [ brightnessTag (perceptualBrightness (averageColor (hex :: rest)));
      chromaTag (chromaOf (averageColor (hex :: rest)));
      "stylized" ].
Proof.
  set (palette := hex :: rest).
  unfold inferMoodKeywords.
  change (List.length palette =? 0)%nat with false. cbv iota zeta.
  rewrite !(fold_addRgb r), !(fold_addRgb g), !(fold_addRgb b) by auto.
  rewrite length_map. reflexivity.
Qed.

(** C4: [inferMoodKeywords] always returns three entries; on a non-empty
    palette they are, in this order, the brightness tag ("moody" below 0.35,
    "airy" above 0.7, else "balanced") of the perceptual brightness
    (0.2126 R + 0.7152 G + 0.0722 B) / 255 of the channel-wise average color,
    the chroma tag ("vibrant" above 0.35, else "muted") of its
    (max - min) / 255, and "stylized"; and the result is
    ["balanced"; "clean"; "modern"] exactly when the palette is empty. *)
Theorem mood_keywords (palette : list string) :
  List.length (inferMoodKeywords palette) = 3%nat
  /\ (palette <> [] ->
      inferMoodKeywords palette
      = [ brightnessTag (perceptualBrightness (averageColor palette));
          chromaTag (chromaOf (averageColor palette));
          "stylized" ])
  /\ (inferMoodKeywords palette = ["balanced"; "clean"; "modern"] <-> palette = []).
Proof.
  destruct palette as [| hex rest].
  - split; [reflexivity | split].
    + intros H. contradiction.
    + split; reflexivity.
  - rewrite inferMoodKeywords_nonempty.
    split; [reflexivity | split].
    + intros _. reflexivity.
    + split; intros H; discriminate.
Qed.

Lemma mood_keywords_witness :
  inferMoodKeywords ["#f8f8f8"; "#e8e8f8"] = ["airy"; "muted"; "stylized"]
  /\ inferMoodKeywords ["#f80808"] = ["moody"; "vibrant"; "stylized"].
Proof.
  split.
  - destruct (mood_keywords ["#f8f8f8"; "#e8e8f8"]) as [_ [H _]].
    rewrite H by discriminate. vm_compute. reflexivity.
  - destruct (mood_keywords ["#f80808"]) as [_ [H _]].
    rewrite H by discriminate. vm_compute. reflexivity.
Defined.

End MoodFacts.

(** ** Color quantizer: further properties *)

Module QuantizerMore.
Import Quantizer QuantizerAux.

Lemma in_range (n : nat) (v : Z) : 0 <= v < Z.of_nat n -> In v (map Z.of_nat (seq 0 n)).
Proof.
  intros H. apply in_map_iff. exists (Z.to_nat v). split; [lia |]. apply in_seq. lia.
Qed.

Lemma levels_check :
  forallb (fun rb => forallb (fun gb => forallb (centerCheck rb gb) levels) levels) levels
  = true.
Proof. vm_compute. reflexivity. Qed.

Lemma bucketCenter_of_levels (rb gb bb : Z) :
  0 <= rb < 16 -> 0 <= gb < 16 -> 0 <= bb < 16 ->
  bucketCenter (Z.lor (Z.lor (Z.shiftl rb 8) (Z.shiftl gb 4)) bb)
  = (rb * 16 + 8, gb * 16 + 8, bb * 16 + 8).
Proof.
  intros Hr Hg Hb.
  pose proof levels_check as H.
  rewrite forallb_forall in H. specialize (H rb (in_range 16 rb Hr)).
  rewrite forallb_forall in H. specialize (H gb (in_range 16 gb Hg)).
  rewrite forallb_forall in H. specialize (H bb (in_range 16 bb Hb)).
  unfold centerCheck in H.
  destruct (bucketCenter _) as [[r g] b].
  apply andb_prop in H. destruct H as [H Hb'].
  apply andb_prop in H. destruct H as [Hr' Hg'].
  apply Z.eqb_eq in Hr', Hg', Hb'. subst. reflexivity.
Qed.

Lemma byteValue_range (b : byte) : 0 <= byteValue b < 256.
Proof. unfold byteValue. pose proof (Byte.to_N_bounded b). lia. Qed.

Lemma shr4 (v : Z) : 0 <= v < 256 -> shr (Some v) 4 = v / 16 /\ 0 <= v / 16 < 16.
Proof.
  intros H. cbn [shr]. rewrite Z.shiftr_div_pow2 by lia. change (2 ^ 4) with 16.
  split; [reflexivity |]. split; [apply Z.div_pos; lia | apply Z.div_lt_upper_bound; lia].
Qed.

Lemma bucketCenter_of_pixel (r g b : byte) :
  bucketCenter (bucketKey (Some (byteValue r)) (Some (byteValue g)) (Some (byteValue b)))
  = (byteValue r / 16 * 16 + 8, byteValue g / 16 * 16 + 8, byteValue b / 16 * 16 + 8).
Proof.
  unfold bucketKey.
  destruct (shr4 _ (byteValue_range r)) as [-> Hr].
  destruct (shr4 _ (byteValue_range g)) as [-> Hg].
  destruct (shr4 _ (byteValue_range b)) as [-> Hb].
  exact (bucketCenter_of_levels _ _ _ Hr Hg Hb).
Qed.

(** The center of the bucket a pixel falls into is within 8 of the pixel on
    every channel. *)
Theorem bucket_center_near_pixel (r g b : byte) :
  let key := bucketKey (Some (byteValue r)) (Some (byteValue g)) (Some (byteValue b)) in
  bucketCenter key
  = (byteValue r / 16 * 16 + 8, byteValue g / 16 * 16 + 8, byteValue b / 16 * 16 + 8)
  /\ (let '(cr, cg, cb) := bucketCenter key in
      -8 <= byteValue r - cr <= 7
      /\ -8 <= byteValue g - cg <= 7
      /\ -8 <= byteValue b - cb <= 7).
Proof.
  intros key. unfold key. rewrite (bucketCenter_of_pixel r g b).
  split; [reflexivity |].
  pose proof (byteValue_range r). pose proof (byteValue_range g).
  pose proof (byteValue_range b).
  pose proof (Z.div_mod (byteValue r) 16). pose proof (Z.mod_pos_bound (byteValue r) 16).
  pose proof (Z.div_mod (byteValue g) 16). pose proof (Z.mod_pos_bound (byteValue g) 16).
  pose proof (Z.div_mod (byteValue b) 16). pose proof (Z.mod_pos_bound (byteValue b) 16).
  lia.
Qed.

Lemma byteValues_check : forallb hexByteCheck byteValues = true.
Proof. vm_compute. reflexivity. Qed.

Lemma hexByte_digits (v : Z) :
  exists a b,
    hexByte v = String a (String b EmptyString)
    /\ isLowerHexDigit a = true /\ isLowerHexDigit b = true
    /\ JsNum.parseInt16 (String a (String b EmptyString)) = JsNum.ofZ (clamp v 0 255).
Proof.
  assert (Hc : 0 <= clamp v 0 255 < 256) by (unfold clamp; lia).
  assert (Hsame : hexByte v = hexByte (clamp v 0 255)).
  { unfold hexByte. f_equal. f_equal. unfold clamp. lia. }
  pose proof byteValues_check as H. rewrite forallb_forall in H.
  specialize (H (clamp v 0 255) (in_range 256 _ Hc)). unfold hexByteCheck in H.
  rewrite Hsame.
  destruct (hexByte (clamp v 0 255)) as [| a [| b [| ? ?]]]; try discriminate.
  apply andb_prop in H. destruct H as [H Heq].
  apply andb_prop in H. destruct H as [Ha Hb].
  apply FloatAxioms.Leibniz.eqb_spec in Heq.
  exists a, b. repeat split; assumption.
Qed.

(** [rgbToHex] always prints a lowercase [#rrggbb], and decoding it the way
    [inferMoodKeywords] does gives back the channels, clamped into 0..255. *)
Theorem rgbToHex_decode (r g b : Z) :
  isLowerHexColor (rgbToHex r g b) = true
  /\ Mood.decodeHex (rgbToHex r g b)
     = {| Mood.r := JsNum.ofZ (clamp r 0 255);
          Mood.g := JsNum.ofZ (clamp g 0 255);
          Mood.b := JsNum.ofZ (clamp b 0 255) |}.
Proof.
  destruct (hexByte_digits r) as [r1 [r2 [Er [Hr1 [Hr2 Pr]]]]].
  destruct (hexByte_digits g) as [g1 [g2 [Eg [Hg1 [Hg2 Pg]]]]].
  destruct (hexByte_digits b) as [b1 [b2 [Eb [Hb1 [Hb2 Pb]]]]].
  unfold rgbToHex. cbn [map Js.join String.concat]. rewrite Er, Eg, Eb.
  cbn [append]. split.
  - cbn [isLowerHexColor String.length Js.forallChars Nat.eqb].
    rewrite Hr1, Hr2, Hg1, Hg2, Hb1, Hb2. reflexivity.
  - unfold Mood.decodeHex. cbn [Js.removeFirst Ascii.eqb Bool.eqb].
    cbn [Js.slice Nat.sub substring]. rewrite Pr, Pg, Pb. reflexivity.
Qed.

(** *** Solid images of any color *)

Lemma samplePixel_solid (r g b a : byte) (n j : nat) (h : Histogram) :
  (3 * j < n)%nat ->
  samplePixel (solid [r; g; b; a] n) h (stride * j)
  = if byteValue a <? 220 then h
    else
      let key := bucketKey (Some (byteValue r)) (Some (byteValue g)) (Some (byteValue b)) in
      Map_set key (getOrZero key h + 1) h.
Proof.
  intros Hj. unfold samplePixel, at_.
  replace (stride * j + 3)%nat with (4 * (3 * j) + 3)%nat by (unfold stride; lia).
  replace (stride * j + 0)%nat with (4 * (3 * j) + 0)%nat by (unfold stride; lia).
  replace (stride * j + 1)%nat with (4 * (3 * j) + 1)%nat by (unfold stride; lia).
  replace (stride * j + 2)%nat with (4 * (3 * j) + 2)%nat by (unfold stride; lia).
  rewrite !QuantizerFacts.solid_nth by (reflexivity || lia).
  reflexivity.
Qed.

Lemma offsets_solid (n : nat) :
  (0 < n)%nat ->
  exists j js,
    offsets (4 * n) = map (fun j => (stride * j)%nat) (j :: js)
    /\ forall i, In i (j :: js) -> (3 * i < n)%nat.
Proof.
  intros Hn. unfold offsets.
  assert (Hq : (1 <= (4 * n + (stride - 1)) / stride)%nat).
  { unfold stride. change (4 * 3 - 1)%nat with 11%nat. change (4 * 3)%nat with 12%nat.
    apply Nat.div_le_lower_bound; lia. }
  destruct (seq 0 ((4 * n + (stride - 1)) / stride)) as [| j js] eqn:E.
  - destruct ((4 * n + (stride - 1)) / stride)%nat; [lia | discriminate].
  - exists j, js. split; [reflexivity |].
    intros i Hi. rewrite <- E in Hi. apply in_seq in Hi. destruct Hi as [_ Hi].
    cbn [Nat.add] in Hi. unfold stride in Hi.
    change (4 * 3 - 1)%nat with 11%nat in Hi. change (4 * 3)%nat with 12%nat in Hi.
    pose proof (Nat.Div0.mul_div_le (4 * n + 11) 12). lia.
Qed.

Lemma sampleImage_solid (r g b a : byte) (n : nat) :
  (0 < n)%nat ->
  if byteValue a <? 220
  then sampleImage [] (solid [r; g; b; a] n) = []
  else exists m,
      0 < m
      /\ sampleImage [] (solid [r; g; b; a] n)
         = [(bucketKey (Some (byteValue r)) (Some (byteValue g)) (Some (byteValue b)), m)].
Proof.
  intros Hn. unfold sampleImage. rewrite QuantizerFacts.solid_length by reflexivity.
  destruct (offsets_solid n Hn) as [j [js [-> Hb]]].
  set (key := bucketKey (Some (byteValue r)) (Some (byteValue g)) (Some (byteValue b))).
  destruct (byteValue a <? 220) eqn:Ea.
  - assert (Hgen : forall l, (forall i, In i l -> (3 * i < n)%nat) ->
               fold_left (samplePixel (solid [r; g; b; a] n))
                 (map (fun j => (stride * j)%nat) l) [] = []).
    { induction l as [| i l IH]; intros Hl; [reflexivity |].
      cbn [map fold_left]. rewrite samplePixel_solid by (apply Hl; left; reflexivity).
      rewrite Ea. apply IH. intros i' Hi'. apply Hl. right. exact Hi'. }
    apply Hgen. exact Hb.
  - assert (Hgen : forall l m, 0 < m -> (forall i, In i l -> (3 * i < n)%nat) ->
               exists m', 0 < m' /\
                 fold_left (samplePixel (solid [r; g; b; a] n))
                   (map (fun j => (stride * j)%nat) l) [(key, m)] = [(key, m')]).
    { induction l as [| i l IH]; intros m Hm Hl.
      - exists m. split; [exact Hm | reflexivity].
      - cbn [map fold_left]. rewrite samplePixel_solid by (apply Hl; left; reflexivity).
        rewrite Ea. fold key. cbv zeta. unfold getOrZero. cbn [Map_set Map_get].
        rewrite Z.eqb_refl. apply IH; [lia |]. intros i' Hi'. apply Hl. right. exact Hi'. }
    cbn [map fold_left]. rewrite samplePixel_solid by (apply Hb; left; reflexivity).
    rewrite Ea. fold key. cbv zeta. cbn [Map_set getOrZero Map_get Z.add].
    apply Hgen; [lia |]. intros i' Hi'. apply Hb. right. exact Hi'.
Qed.

(** An image of one solid color gives a palette of exactly one entry, the
    center of that color's bucket, when the color is opaque enough (alpha at
    least 220), and an empty palette otherwise. *)
Theorem solid_image_palette (r g b a : byte) (n count : nat) :
  (0 < n)%nat -> (0 < count)%nat ->
  extractDominantPalette [ImageData (solid [r; g; b; a] n)] count
  = Returned
      (if byteValue a <? 220 then []
       else [rgbToHex (byteValue r / 16 * 16 + 8) (byteValue g / 16 * 16 + 8)
               (byteValue b / 16 * 16 + 8)]).
Proof.
  intros Hn Hc. unfold extractDominantPalette. cbn [buildHistogram bindOutcome].
  pose proof (sampleImage_solid r g b a n Hn) as Hs.
  destruct (byteValue a <? 220).
  - rewrite Hs. unfold paletteOfHistogram. cbn [sortDesc fold_left].
    rewrite firstn_nil. reflexivity.
  - destruct Hs as [m [Hm ->]].
    unfold paletteOfHistogram. cbn [sortDesc fold_left insertDesc].
    destruct count as [| c]; [lia |].
    replace (Nat.max (S c * 3) (S c)) with (S (S c * 3 - 1)) by lia.
    cbn [firstn collect includes existsb app List.length].
    assert (Hhex : hexOfKey (bucketKey (Some (byteValue r)) (Some (byteValue g))
                               (Some (byteValue b)))
                   = rgbToHex (byteValue r / 16 * 16 + 8) (byteValue g / 16 * 16 + 8)
                       (byteValue b / 16 * 16 + 8)).
    { unfold hexOfKey. rewrite (bucketCenter_of_pixel r g b). reflexivity. }
    rewrite Hhex.
    destruct (S c <=? 1)%nat; rewrite ?firstn_nil; reflexivity.
Qed.

Lemma solid_image_palette_witness :
  extractDominantPalette [ImageData (solid [xfe; x80; x07; xdc] 10)] 3
  = Returned ["#f88808"%string]
  /\ extractDominantPalette [ImageData (solid [xfe; x80; x07; xdb] 10)] 3 = Returned [].
Proof.
  split.
  - apply (solid_image_palette xfe x80 x07 xdc 10 3); lia.
  - apply (solid_image_palette xfe x80 x07 xdb 10 3); lia.
Defined.

(** *** What the palette is, and how it grows with [count] *)

Lemma extract_returns (files : list Decoded) (count : nat) (colors : list string) :
  extractDominantPalette files count = Returned colors ->
  exists h,
    buildHistogram files [] = Returned h
    /\ wellFormed h
    /\ colors = map hexOfEntry (firstn count (sortDesc h)).
Proof.
  unfold extractDominantPalette. intros Hrun.
  destruct (buildHistogram files []) as [h | e] eqn:Hb; [| discriminate].
  cbn [bindOutcome] in Hrun. injection Hrun as <-.
  assert (Hwf : wellFormed h).
  { apply (QuantizerFacts.buildHistogram_wellFormed files [] h);
      [split; constructor | exact Hb]. }
  exists h. split; [reflexivity |]. split; [exact Hwf |].
  apply QuantizerFacts.paletteOfHistogram_firstn. exact Hwf.
Qed.

Lemma palette_canonical (files : list Decoded) (count : nat) (colors : list string) :
  extractDominantPalette files count = Returned colors ->
  Forall (fun c => isLowerHexColor c = true) colors.
Proof.
  intros Hrun. destruct (extract_returns files count colors Hrun) as [h [_ [[_ Hval] ->]]].
  rewrite Forall_forall. intros c Hc. apply in_map_iff in Hc. destruct Hc as [e [<- He]].
  assert (Hv : validKey (fst e)).
  { rewrite Forall_forall in Hval. apply Hval. apply in_map.
    apply QuantizerFacts.In_firstn in He.
    apply (Permutation_in _ (Permutation_sym (QuantizerFacts.sortDesc_perm h))). exact He. }
  pose proof (QuantizerFacts.keyChecks_valid (fst e) Hv) as Hk. unfold keyChecks in Hk.
  apply andb_prop in Hk. destruct Hk as [Hk _].
  apply andb_prop in Hk. destruct Hk as [_ Hk]. exact Hk.
Qed.

(** Asking for more colors only appends: the palette for a smaller count is
    the beginning of the palette for a larger one. *)
Theorem palette_prefix
  (files : list Decoded) (k k' : nat) (small large : list string) :
  (k <= k')%nat ->
  extractDominantPalette files k = Returned small ->
  extractDominantPalette files k' = Returned large ->
  small = firstn k large.
Proof.
  intros Hle Hs Hl.
  destruct (extract_returns files k small Hs) as [h [Hb [_ ->]]].
  destruct (extract_returns files k' large Hl) as [h' [Hb' [_ ->]]].
  rewrite Hb in Hb'. injection Hb' as <-.
  rewrite firstn_map, firstn_firstn. replace (Nat.min k k') with k by lia. reflexivity.
Qed.

Lemma palette_prefix_witness :
  let files :=
    [ImageData ([x10; x20; x30; xff] ++ solid [x00; x00; x00; x00] 2
                ++ solid solid3366cc 4)%list] in
  extractDominantPalette files 1 = Returned ["#3868c8"%string]
  /\ extractDominantPalette files 2 = Returned ["#3868c8"; "#182838"]%string
  /\ ["#3868c8"%string] = firstn 1 ["#3868c8"; "#182838"]%string.
Proof.
  cbv zeta.
  assert (H1 : extractDominantPalette
                 [ImageData ([x10; x20; x30; xff] ++ solid [x00; x00; x00; x00] 2
                             ++ solid solid3366cc 4)%list] 1
               = Returned ["#3868c8"%string]) by (vm_compute; reflexivity).
  assert (H2 : extractDominantPalette
                 [ImageData ([x10; x20; x30; xff] ++ solid [x00; x00; x00; x00] 2
                             ++ solid solid3366cc 4)%list] 2
               = Returned ["#3868c8"; "#182838"]%string) by (vm_compute; reflexivity).
  split; [exact H1 |]. split; [exact H2 |].
  exact (palette_prefix _ 1 2 _ _ (le_S 1 1 (le_n 1)) H1 H2).
Defined.

(** *** Failures *)

Lemma buildHistogram_outcome (files : list Decoded) (h : Histogram) :
  match firstFailure files with
  | Some e => buildHistogram files h = Thrown e
  | None => exists h', buildHistogram files h = Returned h'
  end.
Proof.
  revert h. induction files as [| f files IH]; intros h; cbn [firstFailure buildHistogram].
  - eexists. reflexivity.
  - destruct f as [e | | data]; [reflexivity | apply IH | apply IH].
Qed.

Lemma thrown_firstFailure (files : list Decoded) (count : nat) (e : string) :
  extractDominantPalette files count = Thrown e <-> firstFailure files = Some e.
Proof.
  unfold extractDominantPalette. pose proof (buildHistogram_outcome files []) as H.
  destruct (firstFailure files) as [e' |].
  - rewrite H. cbn [bindOutcome]. split; intros [= ->]; reflexivity.
  - destruct H as [h' ->]. cbn [bindOutcome]. split; discriminate.
Qed.

(** [extractDominantPalette] throws exactly when some file fails to load, with
    the message of the first such file, whatever [count] is; files whose
    canvas has no context are skipped without an error. *)
Theorem palette_throws_iff (files : list Decoded) (count : nat) (e : string) :
  extractDominantPalette files count = Thrown e <-> firstFailure files = Some e.
Proof.
  split.
  - intros H. destruct (firstFailure files) as [e' |] eqn:E.
    + apply thrown_firstFailure with (count := count) in E. congruence.
    + apply thrown_firstFailure in H. congruence.
  - apply thrown_firstFailure.
Qed.


(** *** Sampling *)

Lemma fold_left_agree {A B} (f g : A -> B -> A) (l : list B) (a : A) :
  (forall x, In x l -> forall a', f a' x = g a' x) ->
  fold_left f l a = fold_left g l a.
Proof.
  revert a. induction l as [| x l IH]; intros a H; [reflexivity |].
  cbn [fold_left]. rewrite (H x (or_introl eq_refl)).
  apply IH. intros y Hy. apply H. right. exact Hy.
Qed.

Lemma sampleImage_agree (h : Histogram) (data data' : list byte) :
  List.length data = List.length data' ->
  (forall j c, (c < 4)%nat ->
               nth_error data (stride * j + c) = nth_error data' (stride * j + c)) ->
  sampleImage h data = sampleImage h data'.
Proof.
  intros Hlen Hsame. unfold sampleImage. rewrite <- Hlen.
  apply fold_left_agree. intros i Hi h'.
  unfold offsets in Hi. apply in_map_iff in Hi. destruct Hi as [j [<- _]].
  unfold samplePixel, at_.
  rewrite !(Hsame j) by lia. reflexivity.
Qed.

(** Only every third pixel is read: two buffers of the same size that agree
    on the pixels at positions 0, 3, 6, ... give the same palette, whatever
    the other pixels hold. *)
Theorem unsampled_pixels_ignored
  (before after : list Decoded) (data data' : list byte) (count : nat) :
  List.length data = List.length data' ->
  (forall j c, (c < 4)%nat ->
               nth_error data (stride * j + c) = nth_error data' (stride * j + c)) ->
  extractDominantPalette (before ++ ImageData data :: after) count
  = extractDominantPalette (before ++ ImageData data' :: after) count.
Proof.
  intros Hlen Hsame. unfold extractDominantPalette. f_equal.
  generalize (@nil (Z * Z)) as h.
  induction before as [| f before IH]; intros h.
  - cbn [app buildHistogram]. rewrite (sampleImage_agree h data data' Hlen Hsame).
    reflexivity.
  - cbn [app buildHistogram]. destruct f as [e | | d]; [reflexivity | apply IH | apply IH].
Qed.

Lemma unsampled_pixels_ignored_witness :
  extractDominantPalette
    [ImageData [x33; x66; xcc; xff; x00; x00; x00; xff; xff; xff; xff; xff]] 5
  = extractDominantPalette
      [ImageData [x33; x66; xcc; xff; xaa; xbb; xcc; xff; x01; x02; x03; x04]] 5.
Proof.
  apply (unsampled_pixels_ignored [] []
           [x33; x66; xcc; xff; x00; x00; x00; xff; xff; xff; xff; xff]
           [x33; x66; xcc; xff; xaa; xbb; xcc; xff; x01; x02; x03; x04] 5).
  - reflexivity.
  - intros j c Hc. destruct j as [| j].
    + destruct c as [| [| [| [| c]]]]; try reflexivity; lia.
    + assert (Hout : forall l : list byte, List.length l = 12%nat ->
                       nth_error l (stride * S j + c) = None).
      { intros l Hl. apply nth_error_None. unfold stride. lia. }
      rewrite !Hout by reflexivity. reflexivity.
Defined.

End QuantizerMore.

(** ** Style inference orchestrator: further properties *)

Module OrchestratorMore.
Import Orchestrator.

(** *** [normalizeHex] *)

Lemma lowerHex_char (c : ascii) :
  Quantizer.isLowerHexDigit c = true ->
  Js.isHexDigit c = true /\ Js.lowerChar c = c /\ Js.isWhiteSpace c = false.
Proof.
  destruct c as [[] [] [] [] [] [] [] []]; vm_compute; intros H;
    first [discriminate | repeat split].
Qed.

(** A lowercase [#rrggbb] string goes through [normalizeHex] unchanged; hence
    whatever [normalizeHex] returns, it returns again when applied to it. *)
Theorem normalizeHex_fixed_point :
  (forall h, Quantizer.isLowerHexColor h = true -> normalizeHex (JString h) = Some h)
  /\ (forall e h, normalizeHex e = Some h -> normalizeHex (JString h) = Some h).
Proof.
  assert (Hfix : forall h, Quantizer.isLowerHexColor h = true ->
                           normalizeHex (JString h) = Some h).
  { intros h Hh. unfold Quantizer.isLowerHexColor in Hh.
    destruct h as [| c0 d]; [discriminate |].
    destruct (Ascii.eqb_spec c0 "#"%char) as [-> | Hne].
    2:{ destruct c0 as [[] [] [] [] [] [] [] []]; try discriminate; contradiction. }
    apply andb_prop in Hh. destruct Hh as [Hlen Hall].
    destruct d as [| c1 [| c2 [| c3 [| c4 [| c5 [| c6 [| c7 d]]]]]]]; try discriminate.
    cbn [Js.forallChars] in Hall.
    repeat (apply andb_prop in Hall; destruct Hall as [?H Hall]).
    destruct (lowerHex_char c1 H) as [X1 [L1 _]].
    destruct (lowerHex_char c2 H0) as [X2 [L2 _]].
    destruct (lowerHex_char c3 H1) as [X3 [L3 _]].
    destruct (lowerHex_char c4 H2) as [X4 [L4 _]].
    destruct (lowerHex_char c5 H3) as [X5 [L5 _]].
    destruct (lowerHex_char c6 H4) as [X6 [L6 W6]].
    cbn [normalizeHex]. unfold Js.trim.
    rewrite (JsFacts.trimStart_keeps "#" _ eq_refl).
    cbn [Js.trimEnd]. rewrite W6.
    cbn [strip0x stripHash]. unfold isSixHexDigits.
    cbn [String.length Nat.eqb Js.forallChars].
    rewrite X1, X2, X3, X4, X5, X6. cbn [andb negb Js.toLowerCase append].
    rewrite L1, L2, L3, L4, L5, L6. reflexivity. }
  split; [exact Hfix |].
  intros e h He. apply Hfix. eapply OrchestratorFacts.normalizeHex_canonical. exact He.
Qed.

(** *** The VLM stage *)

Lemma acceptedHexes_canonical (items : list Json) :
  Forall (fun c => Quantizer.isLowerHexColor c = true) (acceptedHexes items).
Proof.
  rewrite Forall_forall. intros c Hc. unfold acceptedHexes in Hc.
  apply in_flat_map in Hc. destruct Hc as [e [_ Hc]].
  destruct (normalizeHex e) as [h |] eqn:E; [| contradiction].
  destruct Hc as [<- | []]. eapply OrchestratorFacts.normalizeHex_canonical. exact E.
Qed.

Lemma styleOfParsed_wellformed (parsed : Json) :
  (forall palette, vlm_colorPalette (styleOfParsed parsed) = Some palette ->
                   Forall (fun c => Quantizer.isLowerHexColor c = true) palette)
  /\ (forall moods, vlm_moodKeywords (styleOfParsed parsed) = Some moods ->
                    (List.length moods <= 6)%nat).
Proof.
  unfold styleOfParsed. cbn [vlm_colorPalette vlm_moodKeywords]. split.
  - intros palette H.
    destruct (getMember "colorPalette" (Some parsed)) as [[] |]; try discriminate.
    injection H as <-. rewrite OrchestratorFacts.keepSome_accepted.
    apply acceptedHexes_canonical.
  - intros moods H.
    destruct (getMember "moodKeywords" (Some parsed)) as [[| | | | l |] |];
      try discriminate.
    injection H as <-.
    exact (firstn_le_length 6 (strings (filter isJString l))).
Qed.

Lemma extractStyleWithVlm_returned (reply : HttpReply) (parse : string -> Json) (v : VlmStyle) :
  extractStyleWithVlm reply parse = Returned v ->
  exists content, v = styleOfParsed (parse content).
Proof.
  destruct reply as [e | status text statusText | data]; cbn [extractStyleWithVlm];
    try discriminate.
  destruct (getMember "content" _) as [[| | | content | |] |]; try discriminate.
  destruct (Js.trim content); cbn [Js.truthy negb]; [discriminate |].
  intros [= <-]. exists content. reflexivity.
Qed.

(** [extractStyleWithVlm] returns exactly for a 2xx reply whose first choice
    carries a string content that is not blank, and then with the style read
    off the parsed content; every other reply makes it throw. *)
Theorem vlm_stage_outcome (reply : HttpReply) (parse : string -> Json) (v : VlmStyle) :
  extractStyleWithVlm reply parse = Returned v <->
  exists data content,
    reply = Ok data
    /\ getMember "content"
         (getMember "message" (getFirst (getMember "choices" (Some data))))
       = Some (JString content)
    /\ Js.trim content <> ""
    /\ v = styleOfParsed (parse content).
Proof.
  split.
  - destruct reply as [e | status text statusText | data]; cbn [extractStyleWithVlm];
      try discriminate.
    destruct (getMember "content" _) as [[| | | content | |] |] eqn:E; try discriminate.
    destruct (Js.trim content) eqn:Et; cbn [Js.truthy negb]; [discriminate |].
    intros [= <-]. exists data, content. rewrite Et. repeat split; [exact E | discriminate].
  - intros [data [content [-> [E [Ht ->]]]]]. cbn [extractStyleWithVlm]. rewrite E.
    destruct (Js.trim content); [contradiction | reflexivity].
Qed.

(** *** [analyzeStyle] as a whole *)

Lemma vlmOutput_wellformed (services : Services) (collage : option Collage) :
  (forall palette, vlm_colorPalette (vlmOutput services collage) = Some palette ->
                   Forall (fun c => Quantizer.isLowerHexColor c = true) palette)
  /\ (forall moods, vlm_moodKeywords (vlmOutput services collage) = Some moods ->
                    (List.length moods <= 6)%nat).
Proof.
  unfold vlmOutput. destruct collage as [c |]; [| split; discriminate].
  destruct (vlmStage services c) as [v | e] eqn:E; [| split; discriminate].
  unfold vlmStage in E. apply extractStyleWithVlm_returned in E.
  destruct E as [content ->]. apply styleOfParsed_wellformed.
Qed.

Lemma inferMoodKeywords_length (palette : list string) :
  List.length (Mood.inferMoodKeywords palette) = 3%nat.
Proof.
  destruct palette as [| hex rest]; [reflexivity |].
  rewrite MoodFacts.inferMoodKeywords_nonempty. reflexivity.
Qed.

Lemma analyzeStyle_palette
  (services : Services) (files : list Quantizer.Decoded) (onProgress : bool)
  (log log' : list string) (result : StyleAnalysisResponse) :
  analyzeStyle services files onProgress log = (Returned result, log') ->
  exists palette,
    Quantizer.extractDominantPalette files 5 = Returned palette
    /\ result
       = mergeStyle (vlmOutput services (collageOutput services)) palette
           (toLocaleDateString services)
           (embeddingOutput services (collageOutput services))
    /\ log' = (log ++ progressLabels onProgress)%list.
Proof.
  intros Hrun.
  destruct (Quantizer.extractDominantPalette files 5) as [palette | e] eqn:Hp.
  - rewrite (OrchestratorFacts.analyzeStyle_returns _ _ _ _ _ Hp) in Hrun.
    injection Hrun as <- <-. exists palette. repeat split.
  - pose proof (OrchestratorFacts.analyzeStyle_throws services files onProgress log e Hp)
      as Ht.
    rewrite Hrun in Ht. discriminate.
Qed.

Lemma externalOr_nonEmptyString (external : option string) (fallback : string) :
  fallback <> "" -> externalOr (nonEmptyString external) fallback <> "".
Proof. intros H. destruct external as [[| c s] |]; cbn; try exact H; discriminate. Qed.

(** Whatever the services answer, a result of [analyzeStyle] is well formed:
    its four texts are never empty, it has between one and six mood keywords,
    and every color of its palette is a lowercase [#rrggbb] string. *)
Theorem analysis_wellformed
  (services : Services) (files : list Quantizer.Decoded) (onProgress : bool)
  (log log' : list string) (result : StyleAnalysisResponse) :
  analyzeStyle services files onProgress log = (Returned result, log') ->
  artisticStyle result <> ""
  /\ visualTechnique result <> ""
  /\ suggestedName result <> ""
  /\ reasoning result <> ""
  /\ (1 <= List.length (moodKeywords result) <= 6)%nat
  /\ Forall (fun c => Quantizer.isLowerHexColor c = true) (colorPalette result).
Proof.
  intros Hrun. destruct (analyzeStyle_palette _ _ _ _ _ _ Hrun) as [palette [Hp [-> _]]].
  destruct (vlmOutput_wellformed services (collageOutput services)) as [Hpal Hmoods].
  unfold mergeStyle.
  cbn [artisticStyle visualTechnique suggestedName reasoning moodKeywords colorPalette].
  repeat split; try (apply externalOr_nonEmptyString; discriminate).
  - destruct (vlm_moodKeywords _) as [[| m moods] |]; cbn;
      rewrite ?inferMoodKeywords_length; lia.
  - destruct (vlm_moodKeywords _) as [[| m moods] |] eqn:E; cbn [nonEmptyList externalOr];
      rewrite ?inferMoodKeywords_length; try lia.
    apply (Hmoods _ eq_refl).
  - destruct (vlm_colorPalette _) as [[| c cs] |] eqn:E; cbn [nonEmptyList externalOr];
      try (eapply QuantizerMore.palette_canonical; exact Hp).
    apply (Hpal _ eq_refl).
Qed.

Lemma analysis_wellformed_witness :
  let services :=
    sampleServices (Returned sampleCollage)
      (JObject [("moodKeywords",
                 JArray (map JString ["a"; "b"; "c"; "d"; "e"; "f"; "g"; "h"]));
                ("suggestedName", JString "")]) in
  let result :=
    {| artisticStyle := "Custom";
       visualTechnique := "Reference-guided";
       colorPalette := ["#3868c8"];
       moodKeywords := ["a"; "b"; "c"; "d"; "e"; "f"];
       suggestedName := "Custom Style 11/2/2026";
       reasoning :=
         "Extracted a dominant palette and inferred basic mood from reference images.";
       embedding := Some [0.5; 0.25]%float |} in
  analyzeStyle services sampleFiles false [] = (Returned result, [])
  /\ (1 <= List.length (moodKeywords result) <= 6)%nat.
Proof.
  intros services result.
  assert (Hrun : analyzeStyle services sampleFiles false [] = (Returned result, []))
    by (vm_compute; reflexivity).
  split; [exact Hrun |].
  exact (proj1 (proj2 (proj2 (proj2 (proj2
           (analysis_wellformed services sampleFiles false [] [] result Hrun)))))).
Defined.

(** [analyzeStyle] rejects exactly when a reference file fails to load, with
    the message of the first such file; no failure of the collage, of the VLM
    service or of the embedding service makes it reject. *)
Theorem analyzeStyle_rejects_iff
  (services : Services) (files : list Quantizer.Decoded) (onProgress : bool)
  (log : list string) (e : string) :
  fst (analyzeStyle services files onProgress log) = Thrown e
  <-> QuantizerAux.firstFailure files = Some e.
Proof.
  rewrite <- (QuantizerMore.thrown_firstFailure files 5 e).
  destruct (Quantizer.extractDominantPalette files 5) as [palette | e'] eqn:Hp.
  - rewrite (OrchestratorFacts.analyzeStyle_returns _ _ _ _ _ Hp). cbn [fst].
    split; discriminate.
  - rewrite (OrchestratorFacts.analyzeStyle_throws _ _ _ _ _ Hp).
    split; intros [= ->]; reflexivity.
Qed.

(** The progress callback hears the three stage labels, in order, when every
    file loads, and only the first one when a file fails to load; without a
    callback nothing is reported. *)
Theorem analyzeStyle_progress
  (services : Services) (files : list Quantizer.Decoded) (onProgress : bool)
  (log : list string) :
  snd (analyzeStyle services files onProgress log)
  = (log ++
     if onProgress
     then match QuantizerAux.firstFailure files with
          | None => [ "Pre-processing: Normalizing inputs...";
                      "Feature Extraction: Analyzing visual DNA...";
                      "Vectorization: Creating style embedding..." ]
          | Some _ => [ "Pre-processing: Normalizing inputs..." ]
          end
     else [])%list.
Proof.
  destruct (Quantizer.extractDominantPalette files 5) as [palette | e] eqn:Hp.
  - rewrite (OrchestratorFacts.analyzeStyle_returns _ _ _ _ _ Hp). cbn [snd].
    destruct (QuantizerAux.firstFailure files) as [e |] eqn:Ef.
    + apply QuantizerMore.thrown_firstFailure with (count := 5%nat) in Ef.
      rewrite Ef in Hp. discriminate.
    + reflexivity.
  - unfold analyzeStyle, bind, report, await. rewrite Hp. cbn [snd].
    apply QuantizerMore.thrown_firstFailure in Hp. rewrite Hp.
    destruct onProgress; [reflexivity | rewrite app_nil_r; reflexivity].
Qed.

(** *** The embedding stage *)


End OrchestratorMore.

(** ** Trimming *)

Module TrimFacts.
Import JsAux.

Lemma trimStart_headKept (s : string) : headKept (Js.trimStart s).
Proof.
  induction s as [| c s IH]; [exact I |].
  cbn [Js.trimStart]. destruct (Js.isWhiteSpace c) eqn:E; [exact IH | exact E].
Qed.

Lemma trimStart_fixed (s : string) : headKept s -> Js.trimStart s = s.
Proof. destruct s as [| c s]; [reflexivity |]. cbn. intros ->. reflexivity. Qed.

Lemma trimEnd_headKept (s : string) : headKept s -> headKept (Js.trimEnd s).
Proof.
  destruct s as [| c s]; [intros _; exact I |].
  cbn [headKept Js.trimEnd]. intros H.
  destruct (Js.trimEnd s); [rewrite H |]; exact H.
Qed.

Lemma trimEnd_idempotent (s : string) : Js.trimEnd (Js.trimEnd s) = Js.trimEnd s.
Proof.
  induction s as [| c s IH]; [reflexivity |].
  cbn [Js.trimEnd]. destruct (Js.trimEnd s) as [| d r] eqn:E.
  - destruct (Js.isWhiteSpace c) eqn:Ec; [reflexivity |].
    cbn [Js.trimEnd]. rewrite Ec. reflexivity.
  - cbn [Js.trimEnd] in *. rewrite IH. reflexivity.
Qed.

(** Trimming twice is trimming once. *)
Lemma trim_idempotent (s : string) : Js.trim (Js.trim s) = Js.trim s.
Proof.
  unfold Js.trim.
  rewrite (trimStart_fixed (Js.trimEnd (Js.trimStart s)))
    by (apply trimEnd_headKept, trimStart_headKept).
  apply trimEnd_idempotent.
Qed.

Lemma forallChars_app (p : ascii -> bool) (a b : string) :
  Js.forallChars p (a ++ b) = Js.forallChars p a && Js.forallChars p b.
Proof.
  induction a as [| c a IH]; [reflexivity |].
  cbn [append Js.forallChars]. rewrite IH, andb_assoc. reflexivity.
Qed.

Lemma trimStart_blank (s : string) :
  Js.trimStart s = "" -> Js.forallChars Js.isWhiteSpace s = true.
Proof.
  induction s as [| c s IH]; [reflexivity |].
  cbn [Js.trimStart Js.forallChars]. destruct (Js.isWhiteSpace c); [exact IH | discriminate].
Qed.

Lemma trimEnd_blank (s : string) :
  Js.trimEnd s = "" -> Js.forallChars Js.isWhiteSpace s = true.
Proof.
  induction s as [| c s IH]; [reflexivity |].
  cbn [Js.trimEnd Js.forallChars]. destruct (Js.trimEnd s); [| discriminate].
  destruct (Js.isWhiteSpace c); [intros _; apply IH; reflexivity | discriminate].
Qed.

(** A string that trims to nothing is made of white space only. *)
Lemma trim_blank (s : string) :
  Js.trim s = "" -> Js.forallChars Js.isWhiteSpace s = true.
Proof.
  unfold Js.trim. intros H. apply trimEnd_blank in H.
  pose proof (trimStart_headKept s) as Hk.
  destruct (Js.trimStart s) as [| c r] eqn:E; [apply trimStart_blank; exact E |].
  cbn [headKept] in Hk. cbn [Js.forallChars] in H. rewrite Hk in H. discriminate.
Qed.

End TrimFacts.

(** ** Text generation *)

Module TextServiceFacts.
Import Orchestrator TextService.

Lemma truthy_nonempty (s : string) : Js.truthy s = true -> s <> "".
Proof. destruct s; [discriminate | discriminate]. Qed.

(** Whenever [generateAssistantText] returns, the text is not empty and has
    no white space at either end; a reply with no usable text makes it throw
    rather than return an empty answer. *)
Theorem assistant_text_trimmed
  (env : option string) (service : TextRequest -> HttpReply)
  (messages : list HfChatMessage) (text : string) :
  generateAssistantText env service messages = Returned text ->
  text <> "" /\ Js.trim text = text.
Proof.
  unfold generateAssistantText.
  destruct (service (textRequest env messages)) as [e | st tx stx | data]; try discriminate.
  cbv zeta.
  set (generated := match data with
                    | JArray _ => getMember "generated_text" (getFirst (Some data))
                    | _ => getMember "generated_text" (Some data)
                    end).
  assert (Hkey : forall s, Js.truthy (Js.trim s) = true ->
                           Js.trim s <> "" /\ Js.trim (Js.trim s) = Js.trim s).
  { intros s Hs. split; [apply truthy_nonempty; exact Hs | apply TrimFacts.trim_idempotent]. }
  destruct generated as [[| | | g | |] |];
    try (destruct (Js.truthy (Js.trim g)) eqn:Eg; [intros [= <-]; apply Hkey; exact Eg |]);
    destruct data as [| | | d | |]; try discriminate;
    destruct (Js.truthy (Js.trim d)) eqn:Ed; try discriminate;
    intros [= <-]; apply Hkey; exact Ed.
Qed.

Lemma assistant_text_trimmed_witness :
  generateAssistantText None
    (fun _ => Ok (JArray [JObject [("generated_text", JString "  Try a neon alley.  ")]]))
    [{| role := user; content := "ideas?" |}]
  = Returned "Try a neon alley."
  /\ "Try a neon alley." <> "" /\ Js.trim "Try a neon alley." = "Try a neon alley.".
Proof.
  assert (H : generateAssistantText None
                (fun _ => Ok (JArray [JObject [("generated_text",
                                               JString "  Try a neon alley.  ")]]))
                [{| role := user; content := "ideas?" |}]
              = Returned "Try a neon alley.") by (vm_compute; reflexivity).
  split; [exact H |].
  exact (assistant_text_trimmed _ _ _ _ H).
Defined.

(** The prompt sent to the text model always ends with the cue [Assistant:]
    (it is the cue alone when there is no message), and otherwise starts with
    the first message's line: its role tag, a colon, its content, a newline. *)
Theorem buildPrompt_shape (messages : list HfChatMessage) :
  (exists body, buildPrompt messages = body ++ "Assistant:")
  /\ buildPrompt [] = "Assistant:"
  /\ (forall msg rest,
        buildPrompt (msg :: rest)
        = roleTag (role msg) ++ ": " ++ content msg ++ Fusion.newline ++ buildPrompt rest).
Proof.
  assert (Hstep : forall msg rest,
             buildPrompt (msg :: rest)
             = roleTag (role msg) ++ ": " ++ content msg ++ Fusion.newline
               ++ buildPrompt rest).
  { intros msg rest. unfold buildPrompt, Js.join, promptLine. cbv zeta.
    destruct rest as [| m rest']; cbn [map app String.concat];
      rewrite !JsFacts.append_assoc; reflexivity. }
  split; [| split; [reflexivity | exact Hstep]].
  induction messages as [| msg rest [body Hb]].
  - exists "". reflexivity.
  - exists (roleTag (role msg) ++ ": " ++ content msg ++ Fusion.newline ++ body).
    rewrite Hstep, Hb, !JsFacts.append_assoc. reflexivity.
Qed.

End TextServiceFacts.

(** ** Prompt fusion: further properties *)

Module FusionMore.
Import Fusion.

(** From 0.15 on, the fused prompt has no white space at either end and is
    never empty, whatever the user prompt. *)
Theorem fused_prompt_trimmed
  (userPrompt : string) (styleData : option StyleData) (intensity : float) :
  JsNum.geb (JsNum.clamp intensity 0 1) 0.15 = true ->
  Js.trim (performReasoning userPrompt styleData intensity)
  = performReasoning userPrompt styleData intensity
  /\ performReasoning userPrompt styleData intensity <> "".
Proof.
  intros Hhigh. unfold performReasoning. cbv zeta.
  rewrite (JsFacts.geb_not_ltb _ _ Hhigh).
  split; [apply TrimFacts.trim_idempotent |].
  intros Hblank. apply TrimFacts.trim_blank in Hblank.
  rewrite !TrimFacts.forallChars_app in Hblank.
  cbn in Hblank. rewrite !andb_false_r in Hblank. discriminate.
Qed.

Lemma fused_prompt_trimmed_witness :
  JsNum.geb (JsNum.clamp 0.5 0 1) 0.15 = true
  /\ Js.trim (performReasoning "   " None 0.5) = performReasoning "   " None 0.5
  /\ performReasoning "   " None 0.5 <> "".
Proof.
  assert (H : JsNum.geb (JsNum.clamp 0.5 0 1) 0.15 = true) by (vm_compute; reflexivity).
  split; [exact H |]. exact (fused_prompt_trimmed "   " None 0.5 H).
Defined.

Lemma firstn_emptiness {A} (n : nat) (l l' : list A) :
  (0 < n)%nat -> firstn n l = firstn n l' ->
  (0 <? List.length l)%nat = (0 <? List.length l')%nat.
Proof.
  intros Hn H. destruct n as [| n]; [lia |].
  destruct l, l'; try reflexivity; discriminate.
Qed.

(** Prompt fusion reads three things off the style object and nothing else:
    the technique, the moods ([moods] before [moodKeywords]) and the first
    five colors of the palette ([palette] before [colorPalette]).  Two style
    objects that agree on these give the same fused prompt. *)
Theorem fusion_reads_only
  (userPrompt : string) (d d' : option StyleData) (intensity : float) :
  Js.orElse (field d visualTechnique) "" = Js.orElse (field d' visualTechnique) "" ->
  firstArray (field d moods) (field d moodKeywords)
  = firstArray (field d' moods) (field d' moodKeywords) ->
  firstn 5 (firstArray (field d palette) (field d colorPalette))
  = firstn 5 (firstArray (field d' palette) (field d' colorPalette)) ->
  performReasoning userPrompt d intensity = performReasoning userPrompt d' intensity.
Proof.
  intros Ht Hm Hp. unfold performReasoning. cbv zeta.
  rewrite Ht, Hm. unfold styleHint. rewrite Hp.
  rewrite (firstn_emptiness 5 _ _ (Nat.lt_0_succ 4) Hp). reflexivity.
Qed.

Lemma fusion_reads_only_witness :
  performReasoning "draw a cat"
    (Some {| palette := Some ["#1"; "#2"; "#3"; "#4"; "#5"; "#6"; "#7"];
             colorPalette := Some ["#f"]; moods := Some []; moodKeywords := Some ["x"];
             visualTechnique := Some "ink" |}) 0.9
  = performReasoning "draw a cat"
      (Some {| palette := None;
               colorPalette := Some ["#1"; "#2"; "#3"; "#4"; "#5"];
               moods := None; moodKeywords := None;
               visualTechnique := Some "ink" |}) 0.9.
Proof. apply fusion_reads_only; reflexivity. Defined.

End FusionMore.

(** ** Generation gateway *)

Module GenerationFacts.
Import Generation.

(** Every size [aspectToSize] gives has exactly the requested ratio, its
    longer side equal to the base of the resolution (1024 for 1K, 1536 for
    2K), and 4K gives the same size as 2K. *)
Theorem aspectToSize_exact (a : AspectRatio) (res : Resolution) :
  exists w h,
    aspectToSize a res = {| width := JsNum.ofZ w; height := JsNum.ofZ h |}
    /\ w * snd (ratioTerms a) = h * fst (ratioTerms a)
    /\ Z.max w h = (match res with R1K => 1024 | _ => 1536 end)
    /\ aspectToSize a R4K = aspectToSize a R2K.
Proof.
  destruct a, res;
    first
      [ exists 1024, 1024; repeat split; reflexivity
      | exists 1536, 1536; repeat split; reflexivity
      | exists 768, 1024; repeat split; reflexivity
      | exists 1152, 1536; repeat split; reflexivity
      | exists 1024, 768; repeat split; reflexivity
      | exists 1536, 1152; repeat split; reflexivity
      | exists 1024, 576; repeat split; reflexivity
      | exists 1536, 864; repeat split; reflexivity ].
Qed.

(** Below the 0.15 threshold, with no negative prompt and in GENERATE mode,
    the styled request of [handleAction] is the very request of its raw
    comparison: the style has no effect on what is sent. *)
Theorem styled_equals_raw_below_threshold
  (env : option string) (profile : Profile.StyleProfile) (p : Panel) :
  PrimFloat.ltb (JsNum.clamp (intensity p) 0 1) 0.15 = true ->
  negativePrompt p = "" ->
  mode p = GENERATE ->
  styledRequest env profile p = rawRequest env p.
Proof.
  intros Hlow Hneg Hmode. unfold styledRequest, rawRequest, imageRequest. f_equal.
  unfold fusedOf, Fusion.performReasoning. cbv zeta. rewrite Hlow.
  unfold augmentedPrompt. rewrite Hneg, Hmode. reflexivity.
Qed.

Lemma styled_equals_raw_below_threshold_witness :
  let p := {| prompt := "a red fox"; negativePrompt := ""; mode := GENERATE;
              transformCreativity := 0.5; intensity := 0.1; attachments := [];
              aspectRatio := Widescreen; resolution := R4K |} in
  styledRequest None Profile.sampleEdited p = rawRequest None p.
Proof.
  cbv zeta. apply styled_equals_raw_below_threshold; reflexivity.
Defined.

(** The images handed to [generateFromGraph] never reach the service: the
    outcome is the same whatever the user prompt, the reference images and
    the input images are; so [editImage] does what [generateStyledImage] does
    with the prompt as fused prompt, whatever images it is given. *)
Theorem images_never_sent
  (env : option string) (service : ImageRequest -> ImageReply)
  (userPrompt userPrompt' fused : string) (refs refs' inputs inputs' : list string)
  (a : AspectRatio) (res : Resolution) (images : list string) (prompt : string) :
  generateFromGraph env service userPrompt fused refs inputs a res
  = generateFromGraph env service userPrompt' fused refs' inputs' a res
  /\ editImage env service images prompt
     = generateStyledImage env service prompt prompt [] Square.
Proof. split; reflexivity. Qed.

End GenerationFacts.

(** ** Reference collage *)

Module CollageFacts.
Import Collage.

Lemma ceilSqrt_spec (n : nat) :
  (n <= ceilSqrt n * ceilSqrt n)%nat
  /\ (0 < n -> 0 < ceilSqrt n /\ (ceilSqrt n - 1) * (ceilSqrt n - 1) < n)%nat.
Proof.
  unfold ceilSqrt. pose proof (Nat.sqrt_specif n) as [Hlo Hhi].
  destruct (Nat.eqb_spec (Nat.sqrt n * Nat.sqrt n) n) as [E | E].
  - split; [lia |]. intros Hn.
    assert (0 < Nat.sqrt n)%nat by (destruct (Nat.sqrt n); [simpl in E; lia | lia]).
    split; [lia |]. nia.
  - split; [lia |]. intros Hn. split; [lia |].
    replace (S (Nat.sqrt n) - 1)%nat with (Nat.sqrt n) by lia. lia.
Qed.

Lemma ceilDiv_spec (n c : nat) :
  (0 < c)%nat -> (n <= ceilDiv n c * c /\ (0 < n -> (ceilDiv n c - 1) * c < n))%nat.
Proof.
  intros Hc. unfold ceilDiv.
  pose proof (Nat.div_mod_eq (n + c - 1) c) as Hd.
  pose proof (Nat.mod_upper_bound (n + c - 1) c ltac:(lia)) as Hm.
  split; [nia |]. intros Hn.
  assert (1 <= (n + c - 1) / c)%nat by (apply Nat.div_le_lower_bound; lia).
  nia.
Qed.

(** For one image or more, the grid of the collage holds every drawn image:
    at most [maxImages] are drawn, each cell lies inside the canvas, no two
    images share a cell, and the grid is as square as it can be: never more
    rows than columns, and no column or row that could be dropped. *)
Theorem collage_grid (fileCount : nat) (cellSizeOpt maxImagesOpt : option nat) :
  let cellSize := match cellSizeOpt with Some c => c | None => 320%nat end in
  let maxImages := match maxImagesOpt with Some m => m | None => 5%nat end in
  (0 < fileCount)%nat -> (0 < maxImages)%nat -> (0 < cellSize)%nat ->
  let g := layout fileCount cellSizeOpt maxImagesOpt in
  drawn g = Nat.min fileCount maxImages
  /\ List.length (cells g) = drawn g
  /\ (forall x y, In (x, y) (cells g) ->
                  (x + cellSize <= canvasWidth g /\ y + cellSize <= canvasHeight g)%nat)
  /\ NoDup (cells g)
  /\ (rows g <= cols g)%nat
  /\ ((cols g - 1) * (cols g - 1) < drawn g /\ (rows g - 1) * cols g < drawn g)%nat.
Proof.
  intros cellSize maxImages Hf Hm Hc g. unfold g, layout. cbv zeta.
  fold cellSize. fold maxImages.
  cbn [drawn cols rows canvasWidth canvasHeight cells].
  set (n := Nat.min fileCount maxImages).
  assert (Hn : (0 < n)%nat) by (unfold n; lia).
  destruct (ceilSqrt_spec n) as [Hsq Hsq'].
  destruct (Hsq' Hn) as [Hcols Hprev].
  set (c := ceilSqrt n) in *.
  assert (Hrows : (match c with O => O | S _ => ceilDiv n c end) = ceilDiv n c)
    by (destruct c; [lia | reflexivity]).
  rewrite Hrows.
  destruct (ceilDiv_spec n c Hcols) as [Hd Hd']. specialize (Hd' Hn).
  set (r := ceilDiv n c) in *.
  split; [reflexivity |].
  split; [rewrite length_map, length_seq; reflexivity |].
  split.
  { intros x y Hin. apply in_map_iff in Hin. destruct Hin as [i [E Hi]].
    injection E as <- <-. apply in_seq in Hi.
    pose proof (Nat.mod_upper_bound i c ltac:(lia)).
    pose proof (Nat.div_mod_eq i c).
    assert (i / c < r)%nat by nia.
    split; nia. }
  split.
  { apply NoDup_map_NoDup_ForallPairs; [| apply seq_NoDup].
    intros i j Hi Hj E. injection E as E1 E2.
    pose proof (Nat.div_mod_eq i c). pose proof (Nat.div_mod_eq j c).
    assert (i mod c = j mod c)%nat by nia.
    assert (i / c = j / c)%nat by nia.
    congruence. }
  split.
  { assert (r <= c \/ c < r)%nat as [H | H] by lia; [exact H |]. nia. }
  split; [exact Hprev | exact Hd'].
Qed.

Lemma collage_grid_witness :
  let g := layout 7 None None in
  drawn g = 5%nat
  /\ (cols g, rows g) = (3, 2)%nat
  /\ (canvasWidth g, canvasHeight g) = (960, 640)%nat
  /\ NoDup (cells g).
Proof.
  cbv zeta.
  destruct (collage_grid 7 None None ltac:(cbv; lia) ltac:(cbv; lia) ltac:(cbv; lia))
    as [_ [_ [_ [Hnd _]]]].
  repeat split; try reflexivity. exact Hnd.
Defined.

End CollageFacts.

(** ** Forwarding proxy: further properties *)

Module ProxyMore.
Import Proxy.

(** What the client sees does not depend on the credential: with any two
    credentials, the proxy answers at once with the same response, or forwards
    to the same target with the same method and body and relays the upstream
    response in the same way; and a relayed response has the upstream status
    and bytes and no header but the content type and one CORS header. *)
Theorem credential_never_observable (t1 t2 : string) (req : Request) :
  Js.truthy t1 = true -> Js.truthy t2 = true ->
  match proxyHf (Some t1) req, proxyHf (Some t2) req with
  | Respond r1, Respond r2 => r1 = r2
  | Forward u1 relay1, Forward u2 relay2 =>
      target u1 = target u2
      /\ upstreamMethod u1 = upstreamMethod u2
      /\ upstreamBody u1 = upstreamBody u2
      /\ relay1 = relay2
      /\ forall upstream,
          status (relay1 upstream) = upstreamStatus upstream
          /\ body (relay1 upstream) = Some (Bytes (upstreamBytes upstream))
          /\ forall k v, In (k, v) (headers (relay1 upstream)) ->
                         k = "Content-Type" \/ k = "Access-Control-Allow-Origin"
  | _, _ => False
  end.
Proof.
  intros H1 H2. unfold proxyHf.
  destruct (match method req with Some m => String.eqb m "OPTIONS" | None => false end);
    [reflexivity |].
  cbn [isTruthy]. rewrite H1, H2. cbn [negb].
  destruct (startsWith (pathname req) "/api/hf/chat/completions");
    [| destruct (startsWith (pathname req) "/api/hf/models/"); [| reflexivity]];
    (repeat split; try reflexivity;
     intros k v Hin; eapply ProxyFacts.relay_has_no_credential; exact Hin).
Qed.

Lemma credential_never_observable_witness :
  match proxyHf (Some "hf_secret") sampleRequest, proxyHf (Some "hf_other") sampleRequest with
  | Forward u1 relay1, Forward u2 relay2 =>
      target u1 = target u2 /\ relay1 = relay2
  | _, _ => False
  end.
Proof.
  pose proof (credential_never_observable "hf_secret" "hf_other" sampleRequest
                eq_refl eq_refl) as H.
  cbv beta iota delta [proxyHf sampleRequest] in H |- *. cbn in H |- *.
  destruct H as [Ht [_ [_ [Hr _]]]]. split; [exact Ht | exact Hr].
Defined.

End ProxyMore.

(** ** Development proxy *)

Module DevProxyFacts.
Import Proxy DevProxy.

(** The development middleware and the production proxy treat a request the
    same way: both answer 204 to OPTIONS, 500 without a credential and 404 to
    an unknown route, and both forward the two known routes to the same
    target, with the same method and body and the same headers (in another
    order), unless the query is a bare question mark. *)
Theorem dev_matches_production
  (token : option string) (u : string) (req : DevRequest) :
  url req = Some u -> u <> "" -> fromQuery u <> "?" ->
  match devProxy token req, proxyHf token (productionRequest u req) with
  | DevProxy.Respond r, Proxy.Respond r' => status r = status r'
  | DevProxy.Forward f _, Proxy.Forward f' _ =>
      target f = target f'
      /\ upstreamMethod f = upstreamMethod f'
      /\ upstreamBody f = upstreamBody f'
      /\ Permutation (upstreamHeaders f) (upstreamHeaders f')
  | _, _ => False
  end.
Proof.
  intros Hu Hne Hq. unfold devProxy, proxyHf. rewrite Hu.
  destruct u as [| c0 u0] eqn:Eu; [contradiction |]. rewrite <- Eu in *.
  cbn [productionRequest Proxy.method Proxy.pathname Proxy.search Proxy.contentType
         Proxy.accept Proxy.requestBody].
  apply String.eqb_neq in Hq. rewrite Hq.
  destruct (match method req with Some m => String.eqb m "OPTIONS" | None => false end);
    [reflexivity |].
  destruct (negb (isTruthy token)); [reflexivity |].
  change (startsWith ("/api/hf" ++ beforeQuery u) "/api/hf/chat/completions")
    with (startsWith (beforeQuery u) "/chat/completions").
  change (startsWith ("/api/hf" ++ beforeQuery u) "/api/hf/models/")
    with (startsWith (beforeQuery u) "/models/").
  change (sliceFrom ("/api/hf" ++ beforeQuery u) (String.length "/api/hf/models/"))
    with (sliceFrom (beforeQuery u) (String.length "/models/")).
  assert (Hperm : Permutation (devForwardHeaders
                                 match token with Some t => t | None => "" end req)
                    (forwardHeaders match token with Some t => t | None => "" end
                       (productionRequest u req))).
  { unfold devForwardHeaders, forwardHeaders.
    cbn [productionRequest Proxy.contentType Proxy.accept].
    rewrite app_assoc. apply Permutation_app_comm. }
  destruct (startsWith (beforeQuery u) "/chat/completions");
    [| destruct (startsWith (beforeQuery u) "/models/"); [| reflexivity]];
    repeat split; try reflexivity; exact Hperm.
Qed.

Lemma dev_matches_production_witness :
  let req := {| url := Some "/models/foo/bar?x=1"; method := Some "POST";
                contentType := Some "application/json"; accept := Some "image/png";
                requestBody := [x7b; x7d] |} in
  match devProxy (Some "hf_secret") req,
        proxyHf (Some "hf_secret") (productionRequest "/models/foo/bar?x=1" req) with
  | DevProxy.Forward f _, Proxy.Forward f' _ =>
      target f = "https://router.huggingface.co/models/foo/bar?x=1"
      /\ target f = target f'
      /\ Permutation (upstreamHeaders f) (upstreamHeaders f')
  | _, _ => False
  end.
Proof.
  cbv zeta.
  pose proof (dev_matches_production (Some "hf_secret") "/models/foo/bar?x=1"
                {| url := Some "/models/foo/bar?x=1"; method := Some "POST";
                   contentType := Some "application/json"; accept := Some "image/png";
                   requestBody := [x7b; x7d] |} eq_refl ltac:(discriminate)
                ltac:(discriminate)) as H.
  cbn in H |- *. destruct H as [Ht [_ [_ Hp]]].
  split; [reflexivity |]. split; [exact Ht | exact Hp].
Defined.

End DevProxyFacts.

(** ** Profile library *)

Module LibraryFacts.
Import Profile Library.

Lemma update_other (u : StyleProfile) (l : list StyleProfile) :
  ~ In (id u) (map id l) ->
  map (fun p => if String.eqb (id p) (id u) then u else p) l = l.
Proof.
  induction l as [| q l IH]; intros Hn; [reflexivity |].
  cbn [map] in *. destruct (String.eqb_spec (id q) (id u)) as [E | E].
  - exfalso. apply Hn. left. exact E.
  - rewrite IH; [reflexivity |]. intros Hin. apply Hn. right. exact Hin.
Qed.

(** Saving an edit or a revert of a profile of the library, whose ids are
    pairwise distinct, replaces that profile where it stands and changes
    nothing else: the other profiles, their order and all the ids stay. *)
Theorem update_in_place
  (st : AppState) (i : nat) (p updated : StyleProfile) :
  NoDup (map id (savedProfiles st)) ->
  nth_error (savedProfiles st) i = Some p ->
  commits p updated ->
  savedProfiles (handleProfileUpdate updated st)
  = (firstn i (savedProfiles st) ++ updated :: skipn (S i) (savedProfiles st))%list
  /\ map id (savedProfiles (handleProfileUpdate updated st)) = map id (savedProfiles st)
  /\ activeProfile (handleProfileUpdate updated st) = Some updated.
Proof.
  intros Hnd Hnth Hc.
  assert (Hid : id updated = id p) by (destruct Hc; reflexivity).
  destruct (nth_error_split _ _ Hnth) as [pre [post [Hsplit Hlen]]].
  cbn [handleProfileUpdate savedProfiles activeProfile].
  rewrite Hsplit in *. subst i.
  rewrite map_app in Hnd. cbn [map] in Hnd.
  pose proof (NoDup_remove_2 _ _ _ Hnd) as Hnotin.
  assert (Hpre : ~ In (id updated) (map id pre)).
  { rewrite Hid. intros H. apply Hnotin. apply in_or_app. left. exact H. }
  assert (Hpost : ~ In (id updated) (map id post)).
  { rewrite Hid. intros H. apply Hnotin. apply in_or_app. right. exact H. }
  assert (Hmap : map (fun q => if String.eqb (id q) (id updated) then updated else q)
                   (pre ++ p :: post) = (pre ++ updated :: post)%list).
  { rewrite map_app. cbn [map]. rewrite (update_other _ _ Hpre), (update_other _ _ Hpost).
    rewrite Hid, String.eqb_refl. reflexivity. }
  rewrite Hmap. split; [| split; [| reflexivity]].
  - rewrite firstn_app, firstn_all, Nat.sub_diag. cbn [firstn]. rewrite app_nil_r.
    replace (S (List.length pre)) with (List.length (pre ++ [p]))
      by (rewrite length_app; cbn; lia).
    replace (pre ++ p :: post)%list with ((pre ++ [p]) ++ post)%list
      by (rewrite <- app_assoc; reflexivity).
    rewrite skipn_app, skipn_all, Nat.sub_diag. reflexivity.
  - rewrite !map_app. cbn [map]. rewrite Hid. reflexivity.
Qed.

Lemma update_in_place_witness :
  let st := {| activeProfile := Some sampleProfile;
               savedProfiles := [sampleProfile]; viewMode := LIBRARY |} in
  savedProfiles (handleProfileUpdate sampleEdited st) = [sampleEdited]
  /\ map id (savedProfiles (handleProfileUpdate sampleEdited st)) = ["p-1"].
Proof.
  cbv zeta.
  destruct (update_in_place
              {| activeProfile := Some sampleProfile;
                 savedProfiles := [sampleProfile]; viewMode := LIBRARY |}
              0 sampleProfile sampleEdited) as [H1 [H2 _]].
  - repeat constructor. intros [].
  - reflexivity.
  - apply commit_save.
  - split; [exact H1 | exact H2].
Defined.

(** A confirmed deletion removes every profile with the given id and keeps the
    others in their order; it switches to the CREATE view exactly when it
    empties the library; an unconfirmed one changes nothing. *)
Theorem delete_removes (id0 : string) (st : AppState) :
  deleteProfile false id0 st = st
  /\ savedProfiles (deleteProfile true id0 st)
     = filter (fun p => negb (String.eqb (id p) id0)) (savedProfiles st)
  /\ (forall p, In p (savedProfiles (deleteProfile true id0 st))
                <-> In p (savedProfiles st) /\ id p <> id0)
  /\ ~ In id0 (map id (savedProfiles (deleteProfile true id0 st)))
  /\ (viewMode (deleteProfile true id0 st)
      = match savedProfiles (deleteProfile true id0 st) with
        | [] => CREATE
        | _ => viewMode st
        end).
Proof.
  cbn [deleteProfile savedProfiles viewMode].
  split; [reflexivity |]. split; [reflexivity |]. split; [| split].
  - intros p. rewrite filter_In. rewrite negb_true_iff, String.eqb_neq. reflexivity.
  - intros Hin. apply in_map_iff in Hin. destruct Hin as [p [Hp Hin]].
    apply filter_In in Hin. destruct Hin as [_ Hne].
    rewrite negb_true_iff, String.eqb_neq in Hne. contradiction.
  - destruct (filter _ _); reflexivity.
Qed.

Lemma filter_ids_NoDup (keep : StyleProfile -> bool) (l : list StyleProfile) :
  NoDup (map id l) -> NoDup (map id (filter keep l)).
Proof.
  induction l as [| q l IH]; intros Hnd; [constructor |].
  cbn [map filter] in *. inversion Hnd as [| ? ? Hq Hl]; subst.
  destruct (keep q); [| apply IH; exact Hl].
  cbn [map]. constructor; [| apply IH; exact Hl].
  intros Hin. apply Hq. apply in_map_iff in Hin. destruct Hin as [p [Hp Hin]].
  apply filter_In in Hin. destruct Hin as [Hin _].
  apply in_map_iff. exists p. split; assumption.
Qed.

Lemma update_ids (u : StyleProfile) (l : list StyleProfile) :
  map id (map (fun p => if String.eqb (id p) (id u) then u else p) l) = map id l.
Proof.
  induction l as [| q l IH]; [reflexivity |].
  cbn [map]. rewrite IH. destruct (String.eqb_spec (id q) (id u)) as [E | E];
    [rewrite E |]; reflexivity.
Qed.

(** The ids of the library stay pairwise distinct: adding the profile of a
    new analysis keeps them so when its id is fresh, and updating (with any
    profile), deleting and returning to the dashboard always do; an update
    never changes the list of ids at all. *)
Theorem library_ids_distinct (st : AppState) :
  NoDup (map id (savedProfiles st)) ->
  (forall analysis images uuid now,
      ~ In uuid (map id (savedProfiles st)) ->
      NoDup (map id (savedProfiles (styleAnalyzed analysis images uuid now st))))
  /\ (forall updated,
        map id (savedProfiles (handleProfileUpdate updated st))
        = map id (savedProfiles st))
  /\ (forall confirmed id0,
        NoDup (map id (savedProfiles (deleteProfile confirmed id0 st))))
  /\ savedProfiles (returnToDashboard st) = savedProfiles st.
Proof.
  intros Hnd. split; [| split; [| split]].
  - intros analysis images uuid now Hfresh.
    cbn [styleAnalyzed savedProfiles map handleStyleAnalyzed id].
    constructor; assumption.
  - intros updated. apply update_ids.
  - intros confirmed id0. destruct confirmed; [| exact Hnd].
    cbn [deleteProfile savedProfiles]. apply filter_ids_NoDup. exact Hnd.
  - reflexivity.
Qed.

Lemma library_ids_distinct_witness :
  let st := {| activeProfile := None; savedProfiles := [sampleProfile];
               viewMode := LIBRARY |} in
  NoDup (map id (savedProfiles
                   (styleAnalyzed sampleAnalysis [] "p-2" 4000 st)))
  /\ NoDup (map id (savedProfiles (deleteProfile true "p-1" st))).
Proof.
  cbv zeta.
  assert (Hnd : NoDup (map id [sampleProfile])) by (repeat constructor; intros []).
  destruct (library_ids_distinct
              {| activeProfile := None; savedProfiles := [sampleProfile];
                 viewMode := LIBRARY |} Hnd) as [Hadd [_ [Hdel _]]].
  split.
  - apply Hadd. cbn. intros [H | []]. discriminate.
  - apply Hdel.
Defined.

End LibraryFacts.

(** ** Style profiles: further properties *)

Module ProfileMore.
Import Profile.

Lemma currentData_revert (p : StyleProfile) (snapshot : StyleSnapshot) (now : Z) :
  currentData (handleRevert p snapshot now) = Snapshot.data snapshot.
Proof. destruct snapshot as [v t c [? ? ? ? ? ? ? ?]]. reflexivity. Qed.

(** Reverting gives back exactly the data the snapshot holds; hence every
    committed edit or revert can be undone: reverting to the snapshot it has
    just put at the head of the history restores all eight data fields. *)
Theorem commit_can_be_undone (p q : StyleProfile) :
  commits p q ->
  exists snapshot rest,
    history q = snapshot :: rest
    /\ forall now,
        currentData (handleRevert q snapshot now) = currentData p
        /\ id (handleRevert q snapshot now) = id p
        /\ createdAt (handleRevert q snapshot now) = createdAt p
        /\ version (handleRevert q snapshot now) = version p + 2.
Proof.
  intros Hc. destruct Hc as [p form t | p s t]; cbn [handleSave handleRevert history];
    do 2 eexists; (split; [reflexivity |]); intros now;
    (split; [rewrite currentData_revert; reflexivity |]);
    repeat split; cbn; lia.
Qed.

Lemma commit_can_be_undone_witness :
  exists snapshot rest,
    history sampleEdited = snapshot :: rest
    /\ currentData (handleRevert sampleEdited snapshot 3000) = currentData sampleProfile.
Proof.
  destruct (commit_can_be_undone sampleProfile sampleEdited (commit_save _ _ _))
    as [snapshot [rest [Hh Hu]]].
  exists snapshot, rest. split; [exact Hh | exact (proj1 (Hu 3000))].
Defined.

Lemma records_versions (snapshots : list StyleSnapshot) (prior : list StyleProfile) :
  Forall2 records snapshots prior ->
  map Snapshot.version snapshots = map version prior.
Proof.
  induction 1 as [| s st ss sts [Hv _] _ IH]; [reflexivity |].
  cbn [map]. rewrite Hv, IH. reflexivity.
Qed.

Lemma evolves_prior_versions (p : StyleProfile) (prior : list StyleProfile) (q : StyleProfile) :
  evolves p prior q ->
  map version prior
  = map (fun k => version p + Z.of_nat k) (rev (seq 0 (List.length prior))).
Proof.
  induction 1 as [| prior q q' Hev IH Hstep]; [reflexivity |].
  cbn [map List.length]. rewrite seq_S, rev_app_distr. cbn [rev app map Nat.add].
  rewrite IH. f_equal. apply ProfileFacts.evolves_version in Hev. exact Hev.
Qed.

(** After any number of committed edits and reverts of a freshly created
    profile, the history lists the version numbers of all the earlier states
    exactly once each, counting down to 1 from the version before the current
    one. *)
Theorem history_versions
  (analysis : Orchestrator.StyleAnalysisResponse) (images : list string)
  (uuid : string) (now : Z) (prior : list StyleProfile) (q : StyleProfile) :
  evolves (handleStyleAnalyzed analysis images uuid now) prior q ->
  version q = 1 + Z.of_nat (List.length (history q))
  /\ map Snapshot.version (history q)
     = map (fun k => 1 + Z.of_nat k) (rev (seq 0 (List.length (history q))))
  /\ NoDup (map Snapshot.version (history q)).
Proof.
  intros Hev.
  destruct (ProfileFacts.evolves_history _ _ _ Hev) as [snapshots [Hh Hrec]].
  cbn [handleStyleAnalyzed history] in Hh. rewrite app_nil_r in Hh. subst snapshots.
  pose proof (Forall2_length Hrec) as Hlen.
  pose proof (ProfileFacts.evolves_version _ _ _ Hev) as Hv.
  cbn [handleStyleAnalyzed version] in Hv.
  pose proof (records_versions _ _ Hrec) as Hvs.
  rewrite (evolves_prior_versions _ _ _ Hev) in Hvs.
  cbn [handleStyleAnalyzed version] in Hvs. rewrite <- Hlen in Hvs.
  split; [rewrite Hlen; exact Hv |]. split; [exact Hvs |].
  rewrite Hvs. apply NoDup_map_NoDup_ForallPairs.
  - intros a b _ _ E. lia.
  - apply NoDup_rev, seq_NoDup.
Qed.

Lemma history_versions_witness :
  map Snapshot.version (history sampleReverted) = [2; 1]
  /\ version sampleReverted = 3.
Proof.
  destruct (history_versions sampleAnalysis ["data:image/png;base64,AAAA"] "p-1" 1000
              [sampleEdited; sampleProfile] sampleReverted ProfileFacts.sample_evolves)
    as [Hv [Hh _]].
  split; [exact Hh | exact Hv].
Defined.

End ProfileMore.

(** ** Style editor *)

Module EditorFacts.
Import Editor.

Lemma write_map_some (pre : list string) (x : string) (post : list string) (v : string) :
  write (map Some (pre ++ x :: post)) (List.length pre) (Some v)
  = map Some (pre ++ v :: post).
Proof.
  induction pre as [| a pre IH]; [reflexivity |].
  cbn [app map List.length write]. rewrite <- IH. reflexivity.
Qed.

Lemma read_map_some (pre : list string) (x : string) (post : list string) :
  read (map Some (pre ++ x :: post)) (List.length pre) = Some x.
Proof.
  unfold read. rewrite nth_error_map, nth_error_app2 by lia.
  rewrite Nat.sub_diag. reflexivity.
Qed.

Lemma write_next (pre : list string) (a x : string) (post : list string) (v : string) :
  write (map Some (pre ++ a :: x :: post)) (S (List.length pre)) (Some v)
  = map Some (pre ++ a :: v :: post).
Proof.
  induction pre as [| c pre IH]; [reflexivity |].
  cbn [app map List.length write]. cbn [app map List.length write] in IH.
  rewrite IH. reflexivity.
Qed.

Lemma read_next (pre : list string) (a x : string) (post : list string) :
  read (map Some (pre ++ a :: x :: post)) (S (List.length pre)) = Some x.
Proof.
  unfold read. rewrite nth_error_map, nth_error_app2 by lia.
  replace (S (List.length pre) - List.length pre)%nat with 1%nat by lia. reflexivity.
Qed.

Lemma swap_right (pre : list string) (a b : string) (post : list string) :
  moveMood (pre ++ a :: b :: post) (List.length pre) right
  = map Some (pre ++ b :: a :: post).
Proof.
  unfold moveMood.
  replace (S (List.length pre) =? List.length (pre ++ a :: b :: post))%nat with false
    by (symmetry; apply Nat.eqb_neq; rewrite length_app; cbn; lia).
  cbv zeta. replace (List.length pre + 1)%nat with (S (List.length pre)) by lia.
  rewrite read_map_some, read_next, write_map_some, write_next. reflexivity.
Qed.

Lemma swap_left (pre : list string) (a b : string) (post : list string) :
  moveMood (pre ++ a :: b :: post) (S (List.length pre)) left
  = map Some (pre ++ b :: a :: post).
Proof.
  unfold moveMood. cbn [Nat.eqb]. cbv zeta.
  replace (S (List.length pre) - 1)%nat with (List.length pre) by lia.
  rewrite read_map_some, read_next, write_next, write_map_some. reflexivity.
Qed.

Lemma split_at {A} (l : list A) (i : nat) :
  (S i < List.length l)%nat ->
  exists pre a b post, l = (pre ++ a :: b :: post)%list /\ List.length pre = i.
Proof.
  revert i. induction l as [| x l IH]; intros i Hi; [cbn in Hi; lia |].
  destruct i as [| i].
  - destruct l as [| y l]; [cbn in Hi; lia |]. exists [], x, y, l. split; reflexivity.
  - destruct (IH i) as [pre [a [b [post [-> Hlen]]]]]; [cbn in Hi; lia |].
    exists (x :: pre), a, b, post. split; [reflexivity | cbn; lia].
Qed.

(** For a tag of the list, [moveMood] never loses, repeats or blanks a tag:
    the new list is a rearrangement of the old one with every slot filled; at
    the edge it is the old list; and moving a tag right and then back left
    gives the old list again. *)
Theorem moveMood_rearranges (moods : list string) (index : nat) (direction : Direction) :
  (index < List.length moods)%nat ->
  (exists moods',
      moveMood moods index direction = map Some moods'
      /\ Permutation moods moods'
      /\ List.length moods' = List.length moods)
  /\ moveMood moods 0 left = map Some moods
  /\ moveMood moods (List.length moods - 1) right = map Some moods
  /\ ((S index < List.length moods)%nat ->
      exists moods',
        moveMood moods index right = map Some moods'
        /\ moveMood moods' (S index) left = map Some moods).
Proof.
  intros Hi.
  assert (Hedge_r : moveMood moods (List.length moods - 1) right = map Some moods).
  { unfold moveMood. replace (S (List.length moods - 1)) with (List.length moods) by lia.
    rewrite Nat.eqb_refl. reflexivity. }
  split; [| split; [reflexivity | split; [exact Hedge_r |]]].
  - destruct direction.
    + destruct index as [| i]; [exists moods; repeat split; reflexivity |].
      destruct (split_at moods i Hi) as [pre [a [b [post [-> Hlen]]]]]. subst i.
      exists (pre ++ b :: a :: post)%list. split; [apply swap_left |].
      split; [apply Permutation_app_head, perm_swap |].
      rewrite !length_app. reflexivity.
    + destruct (Nat.eq_dec (S index) (List.length moods)) as [E | E].
      * exists moods. replace index with (List.length moods - 1)%nat by lia.
        repeat split; [exact Hedge_r | reflexivity].
      * destruct (split_at moods index ltac:(lia)) as [pre [a [b [post [-> Hlen]]]]].
        subst index. exists (pre ++ b :: a :: post)%list. split; [apply swap_right |].
        split; [apply Permutation_app_head, perm_swap |].
        rewrite !length_app. reflexivity.
  - intros Hs. destruct (split_at moods index Hs) as [pre [a [b [post [-> Hlen]]]]].
    subst index. exists (pre ++ b :: a :: post)%list.
    split; [apply swap_right | apply swap_left].
Qed.

Lemma moveMood_rearranges_witness :
  moveMood ["calm"; "airy"; "bold"] 1 left = map Some ["airy"; "calm"; "bold"]
  /\ exists moods',
      moveMood ["calm"; "airy"; "bold"] 1 right = map Some moods'
      /\ moveMood moods' 2 left = map Some ["calm"; "airy"; "bold"].
Proof.
  split; [reflexivity |].
  destruct (moveMood_rearranges ["calm"; "airy"; "bold"] 1 right ltac:(cbn; lia))
    as [_ [_ [_ H]]].
  apply H. cbn. lia.
Defined.

End EditorFacts.

Module EditorMoodFacts.
Import Editor.

(** Pressing Enter in the mood box either leaves the tags alone (blank
    input) or appends one tag, the trimmed input, which is never empty and
    has no white space at either end; the existing tags keep their order. *)
Theorem addMood_appends_trimmed (moods : list string) (moodInput : string) :
  (Js.trim moodInput = "" /\ addMood moods moodInput = moods)
  \/ (exists tag,
        tag = Js.trim moodInput
        /\ addMood moods moodInput = (moods ++ [tag])%list
        /\ tag <> "" /\ Js.trim tag = tag).
Proof.
  unfold addMood. destruct (Js.trim moodInput) as [| c r] eqn:E.
  - left. split; reflexivity.
  - right. exists (String c r). cbn [Js.truthy].
    repeat split; try discriminate.
    rewrite <- E. apply TrimFacts.trim_idempotent.
Qed.

End EditorMoodFacts.

(** ** Style uploader *)

Module UploaderFacts.
Import Uploader.

Lemma removeAt_length {A} (l : list A) (i : nat) :
  List.length (Editor.removeAt l i)
  = if (i <? List.length l)%nat then (List.length l - 1)%nat else List.length l.
Proof.
  revert i. induction l as [| x l IH]; intros i; [destruct i; reflexivity |].
  destruct i as [| i]; cbn [Editor.removeAt List.length]; [cbn; lia |].
  rewrite IH. change (S i <? S (List.length l))%nat with (i <? List.length l)%nat.
  destruct (Nat.ltb_spec i (List.length l)); lia.
Qed.

(** Whatever files are added and removed, the uploader never holds more than
    five images and always one preview per image; and [handleAnalyze] hands
    [analyzeStyle] between three and five files, or none at all. *)
Theorem uploader_bounds (st : UploaderState) :
  reachable st ->
  (List.length (images st) <= 5)%nat
  /\ List.length (previews st) = List.length (images st)
  /\ match snd (handleAnalyze st) with
     | Some files => files = images st /\ (3 <= List.length files <= 5)%nat
     | None => (List.length (images st) < 3)%nat
              /\ error (fst (handleAnalyze st)) <> None
     end.
Proof.
  intros Hr.
  assert (Hinv : (List.length (images st) <= 5)%nat
                 /\ List.length (previews st) = List.length (images st)).
  { induction Hr as [| f newFiles st Hr IH | i st Hr IH | st Hr IH].
    - split; [cbn; lia | reflexivity].
    - cbn [handleFileChange images previews]. split.
      + apply firstn_le_length.
      + apply length_map.
    - destruct IH as [IH1 IH2]. cbn [removeImage images previews].
      rewrite !removeAt_length, IH2. split; [| reflexivity].
      destruct (i <? List.length (images st))%nat; lia.
    - unfold handleAnalyze. destruct (List.length (images st) <? 3)%nat; exact IH. }
  destruct Hinv as [H5 Hp]. split; [exact H5 |]. split; [exact Hp |].
  unfold handleAnalyze.
  destruct (Nat.ltb_spec (List.length (images st)) 3); cbn [fst snd error].
  - split; [assumption | discriminate].
  - split; [reflexivity | lia].
Qed.

Lemma uploader_bounds_witness :
  let st :=
    removeImage 1
      (handleFileChange (fun _ => "blob:preview")
         (repeat Quantizer.NoContext 4)
         (handleFileChange (fun _ => "blob:preview") (repeat Quantizer.NoContext 3) initial))
  in
  List.length (images st) = 4%nat
  /\ match snd (handleAnalyze st) with
     | Some files => (3 <= List.length files <= 5)%nat
     | None => False
     end.
Proof.
  cbv zeta. split; [reflexivity |].
  pose proof (uploader_bounds _
                (reach_remove 1 _
                   (reach_add (fun _ => "blob:preview") (repeat Quantizer.NoContext 4) _
                      (reach_add (fun _ => "blob:preview") (repeat Quantizer.NoContext 3) _
                         reach_initial)))) as [_ [_ H]].
  cbn in H |- *. exact (proj2 H).
Defined.

End UploaderFacts.
